(** * Registration service: phone / activation-code verification and the
      bearer-token front of the proxy.

    A shallow embedding of
      - the verification service ([InitVerification], [VerifyPhoneCode],
        [VerifyActivationCode], [PhoneNumberAlreadyInUse], ...), and
      - the token extraction of [pkg/proxy/proxy.go],
    followed by the properties proved about them.

    Go values are modelled as follows: [int] is a [Z] kept in the 64-bit
    range, [string] is [string], [map[string]string] is a [gmap string string]
    (a missing key reads as the empty string), [time.Time] is a [Z] of
    nanoseconds, [float32] is a binary float, and an [error] is a value of
    the inductive type [error] ([None] standing for [nil]). *)

From Stdlib Require Import ZArith Lia Bool List Ascii String Floats.
From stdpp Require Import gmap strings list.

Local Open Scope string_scope.
Local Open Scope Z_scope.

(* ===================================================================== *)
(** ** Go's [strconv]: [Atoi] and [Itoa] on 64-bit [int]                   *)
(* ===================================================================== *)

Module strconv.

Definition minInt : Z := - 2 ^ 63.
Definition maxInt : Z := 2 ^ 63 - 1.

(** The values of Go's [int] on a 64-bit platform. *)
Definition inInt (z : Z) : Prop := minInt <= z <= maxInt.

Definition inIntb (z : Z) : bool := (minInt <=? z) && (z <=? maxInt).

(** Two's complement wrap-around of [int] arithmetic. *)
Definition wrap (z : Z) : Z := (z + 2 ^ 63) mod 2 ^ 64 - 2 ^ 63.

Definition digitOf (c : ascii) : option Z :=
  let n := Z.of_N (N_of_ascii c) in
  if (48 <=? n) && (n <=? 57) then Some (n - 48) else None.

Definition digitChar (d : Z) : ascii := ascii_of_N (Z.to_N (48 + d)).

(** [n = n*10 + int(ch)] over the bytes of the string; [None] is the
    syntax error raised at the first byte that is not a digit. *)
Fixpoint parseDigits (acc : Z) (s : string) : option Z :=
  match s with
  | EmptyString => Some acc
  | String c s' =>
      match digitOf c with
      | Some d => parseDigits (acc * 10 + d) s'
      | None => None
      end
  end.

(** [strconv.Atoi]: an optional sign, at least one decimal digit, and a
    value that fits [int]; everything else is an error ([None]). *)
Definition Atoi (s : string) : option Z :=
  match s with
  | EmptyString => None
  | String c rest =>
      let neg := Ascii.eqb c "-" in
      let digits := if neg || Ascii.eqb c "+" then rest else s in
      match digits with
      | EmptyString => None
      | _ =>
          match parseDigits 0 digits with
          | Some n =>
              let v := if neg then - n else n in
              if inIntb v then Some v else None
          | None => None
          end
      end
  end.

(** The text of the error [Atoi] returns (the input is quoted as it is,
    without Go's escapes). *)
Definition AtoiError (s : string) : string :=
  let digits :=
    match s with
    | String c rest => if Ascii.eqb c "-" || Ascii.eqb c "+" then rest else s
    | EmptyString => s
    end in
  let cause :=
    match digits, parseDigits 0 digits with
    | String _ _, Some _ => "value out of range"
    | _, _ => "invalid syntax"
    end in
  "strconv.Atoi: parsing " ++ String (ascii_of_nat 34) s ++ String (ascii_of_nat 34) ": " ++ cause.

(** The decimal digits of a non-negative number, most significant first. *)
Fixpoint formatBits (fuel : nat) (n : Z) : string :=
  match fuel with
  | O => String (digitChar (n mod 10)) EmptyString
  | S fuel' =>
      if n <? 10 then String (digitChar n) EmptyString
      else formatBits fuel' (n / 10) ++ String (digitChar (n mod 10)) EmptyString
  end.

(** [strconv.Itoa]. *)
Definition Itoa (z : Z) : string :=
  if z <? 0
  then String "-" (formatBits (Z.to_nat (Z.log2 (- z))) (- z))
  else formatBits (Z.to_nat (Z.log2 z)) z.

End strconv.

(* ===================================================================== *)
(** ** Go's [strings]: [HasPrefix], [Split], [Contains]                    *)
(* ===================================================================== *)

Module gostrings.

(** [strings.HasPrefix s p]. *)
Fixpoint HasPrefix (s p : string) {struct p} : bool :=
  match p, s with
  | EmptyString, _ => true
  | String c p', String d s' => Ascii.eqb c d && HasPrefix s' p'
  | String _ _, EmptyString => false
  end.

(** [strings.Contains s sub]. *)
Fixpoint Contains (s sub : string) : bool :=
  HasPrefix s sub ||
  match s with
  | EmptyString => false
  | String _ s' => Contains s' sub
  end.

(** [strings.Index s sep]: the position of the first occurrence. *)
Fixpoint Index (s sep : string) : option nat :=
  if HasPrefix s sep then Some O
  else match s with
       | EmptyString => None
       | String _ s' => option_map S (Index s' sep)
       end.

(** The slices [s[:n]] and [s[n:]]. *)
Fixpoint sliceTo (n : nat) (s : string) : string :=
  match n, s with
  | S n', String c s' => String c (sliceTo n' s')
  | _, _ => EmptyString
  end.

Fixpoint sliceFrom (n : nat) (s : string) : string :=
  match n, s with
  | S n', String _ s' => sliceFrom n' s'
  | _, _ => s
  end.

(** The scan behind [strings.Split s sep] for a non-empty separator: the
    input is read left to right, [cur] holds the bytes of the piece being
    read, and [skip] counts the bytes of a separator that was matched and is
    still being stepped over, so matches never overlap. *)
Fixpoint splitScan (sep : string) (skip : nat) (cur : string) (s : string) : list string :=
  match s with
  | EmptyString => [cur]
  | String c s' =>
      match skip with
      | S k => splitScan sep k cur s'
      | O =>
          if HasPrefix s sep
          then cur :: splitScan sep (Nat.pred (String.length sep)) EmptyString s'
          else splitScan sep O (cur ++ String c EmptyString) s'
      end
  end.

(** [strings.Split s sep]; an empty separator explodes the string into its
    bytes (UTF-8 sequences for Go, which coincide on ASCII input). *)
Definition Split (s sep : string) : list string :=
  match sep with
  | EmptyString => List.map (fun c => String c EmptyString) (list_ascii_of_string s)
  | _ => splitScan sep O EmptyString s
  end.

(** [strings.HasSuffix s suffix]. *)
Definition HasSuffix (s suffix : string) : bool :=
  Nat.leb (String.length suffix) (String.length s)
  && String.eqb (sliceFrom (String.length s - String.length suffix) s) suffix.

End gostrings.

(* ===================================================================== *)
(** ** Go's [regexp], as far as the service uses it                        *)
(* ===================================================================== *)

Module regexp.

(** The fragment of RE2 syntax that occurs in the service. *)
Inductive Regexp : Type :=
| Class (f : ascii -> bool)          (* a character class, one byte *)
| Repeat (n : nat) (r : Regexp)      (* r{n} *)
| Concat (r1 r2 : Regexp)            (* r1r2 *)
| BeginText                          (* ^ (no m flag) *)
| EndText.                           (* $ (no m flag): end of text only *)

(** A position in the text: whether it is the start of the text, and the
    text that remains.  [run r p] lists the positions where a match of [r]
    that starts at [p] can end. *)
Fixpoint run (r : Regexp) (p : bool * string) : list (bool * string) :=
  match r with
  | Class f =>
      match snd p with
      | String c s' => if f c then [(false, s')] else []
      | EmptyString => []
      end
  | Repeat n r' => Nat.iter n (fun ps => flat_map (run r') ps) [p]
  | Concat r1 r2 => flat_map (run r2) (run r1 p)
  | BeginText => if fst p then [p] else []
  | EndText => match snd p with EmptyString => [p] | String _ _ => [] end
  end.

(** Every position of the text, the start first. *)
Fixpoint positions (atStart : bool) (s : string) : list (bool * string) :=
  (atStart, s) ::
  match s with
  | EmptyString => []
  | String _ s' => positions false s'
  end.

(** The method [Match] of a compiled expression: is there a match
    anywhere in the text? *)
Definition Match (r : Regexp) (s : string) : bool :=
  existsb (fun p => match run r p with [] => false | _ :: _ => true end) (positions true s).

Definition inRange (lo hi c : ascii) : bool :=
  (N_of_ascii lo <=? N_of_ascii c)%N && (N_of_ascii c <=? N_of_ascii hi)%N.

(** [(?i)[a-f0-9]]: a hexadecimal digit in either case. *)
Definition hexFold (c : ascii) : bool :=
  inRange "a" "f" c || inRange "A" "F" c || inRange "0" "9" c.

End regexp.

(* ===================================================================== *)
(** ** [crypto/md5] and [hash.EncodeString]                                *)
(* ===================================================================== *)

Module md5.

Definition add32 (a b : Z) : Z := (a + b) mod 2 ^ 32.
Definition not32 (a : Z) : Z := Z.lxor a (2 ^ 32 - 1).
Definition rotl32 (x s : Z) : Z :=
  Z.lor (Z.shiftl x s mod 2 ^ 32) (Z.shiftr x (32 - s)).

(** The sine table [floor (2^32 * |sin (i + 1)|)]. *)
Definition K : list Z :=
  [0xd76aa478; 0xe8c7b756; 0x242070db; 0xc1bdceee;
   0xf57c0faf; 0x4787c62a; 0xa8304613; 0xfd469501;
   0x698098d8; 0x8b44f7af; 0xffff5bb1; 0x895cd7be;
   0x6b901122; 0xfd987193; 0xa679438e; 0x49b40821;
   0xf61e2562; 0xc040b340; 0x265e5a51; 0xe9b6c7aa;
   0xd62f105d; 0x02441453; 0xd8a1e681; 0xe7d3fbc8;
   0x21e1cde6; 0xc33707d6; 0xf4d50d87; 0x455a14ed;
   0xa9e3e905; 0xfcefa3f8; 0x676f02d9; 0x8d2a4c8a;
   0xfffa3942; 0x8771f681; 0x6d9d6122; 0xfde5380c;
   0xa4beea44; 0x4bdecfa9; 0xf6bb4b60; 0xbebfbc70;
   0x289b7ec6; 0xeaa127fa; 0xd4ef3085; 0x04881d05;
   0xd9d4d039; 0xe6db99e5; 0x1fa27cf8; 0xc4ac5665;
   0xf4292244; 0x432aff97; 0xab9423a7; 0xfc93a039;
   0x655b59c3; 0x8f0ccc92; 0xffeff47d; 0x85845dd1;
   0x6fa87e4f; 0xfe2ce6e0; 0xa3014314; 0x4e0811a1;
   0xf7537e82; 0xbd3af235; 0x2ad7d2bb; 0xeb86d391].

(** The per-round shift amounts. *)
Definition shifts : list Z :=
  [7; 12; 17; 22; 7; 12; 17; 22; 7; 12; 17; 22; 7; 12; 17; 22;
   5; 9; 14; 20; 5; 9; 14; 20; 5; 9; 14; 20; 5; 9; 14; 20;
   4; 11; 16; 23; 4; 11; 16; 23; 4; 11; 16; 23; 4; 11; 16; 23;
   6; 10; 15; 21; 6; 10; 15; 21; 6; 10; 15; 21; 6; 10; 15; 21].

Definition state : Type := (Z * Z * Z * Z)%type.

Definition init : state := (0x67452301, 0xefcdab89, 0x98badcfe, 0x10325476).

(** One of the 64 operations on the 16 words [M] of a block. *)
Definition step (M : list Z) (st : state) (i : nat) : state :=
  let '(a, b, c, d) := st in
  let iz := Z.of_nat i in
  let '(f, g) :=
    if iz <? 16 then (Z.lor (Z.land b c) (Z.land (not32 b) d), iz)
    else if iz <? 32 then (Z.lor (Z.land d b) (Z.land (not32 d) c), (5 * iz + 1) mod 16)
    else if iz <? 48 then (Z.lxor (Z.lxor b c) d, (3 * iz + 5) mod 16)
    else (Z.lxor c (Z.lor b (not32 d)), (7 * iz) mod 16) in
  let f' := add32 (add32 (add32 f a) (nth i K 0)) (nth (Z.to_nat g) M 0) in
  (d, add32 b (rotl32 f' (nth i shifts 0)), b, c).

(** Little-endian 32-bit words of a byte sequence. *)
Fixpoint words (n : nat) (bs : list Z) : list Z :=
  match n with
  | O => []
  | S n' =>
      (nth 0 bs 0 + 2 ^ 8 * nth 1 bs 0 + 2 ^ 16 * nth 2 bs 0 + 2 ^ 24 * nth 3 bs 0)
        :: words n' (skipn 4 bs)
  end.

Definition block (st : state) (bs : list Z) : state :=
  let '(a, b, c, d) := st in
  let '(a', b', c', d') := fold_left (step (words 16 bs)) (seq 0 64) st in
  (add32 a a', add32 b b', add32 c c', add32 d d').

Fixpoint blocks (n : nat) (st : state) (bs : list Z) : state :=
  match n with
  | O => st
  | S n' => blocks n' (block st (firstn 64 bs)) (skipn 64 bs)
  end.

Definition leBytes (n : nat) (z : Z) : list Z :=
  List.map (fun i => Z.shiftr z (8 * Z.of_nat i) mod 256) (seq 0 n).

(** The message, a 1 bit, zeros up to 56 mod 64, and the bit length. *)
Definition pad (bs : list Z) : list Z :=
  let len := Z.of_nat (List.length bs) in
  let zeros := Z.to_nat ((55 - len) mod 64) in
  bs ++ [128] ++ repeat 0 zeros ++ leBytes 8 (8 * len mod 2 ^ 64).

Definition Sum (bs : list Z) : list Z :=
  let padded := pad bs in
  let '(a, b, c, d) := blocks (List.length padded / 64)%nat init padded in
  leBytes 4 a ++ leBytes 4 b ++ leBytes 4 c ++ leBytes 4 d.

Definition hexDigit (d : Z) : ascii :=
  ascii_of_N (Z.to_N (if d <? 10 then 48 + d else 87 + d)).

(** [hex.EncodeToString]. *)
Fixpoint hexEncode (bs : list Z) : string :=
  match bs with
  | [] => EmptyString
  | b :: bs' => String (hexDigit (b / 16)) (String (hexDigit (b mod 16)) (hexEncode bs'))
  end.

Definition bytesOf (s : string) : list Z :=
  List.map (fun c => Z.of_N (N_of_ascii c)) (list_ascii_of_string s).

End md5.

Module hash.

(** [hash.EncodeString] of toolchain-common: the MD5 sum in hexadecimal. *)
Definition EncodeString (value : string) : string :=
  md5.hexEncode (md5.Sum (md5.bytesOf value)).

End hash.

(* ===================================================================== *)
(** ** Errors                                                              *)
(* ===================================================================== *)

Module crterrors.

(** Modelled from the spec: the package [pkg/errors] (imported as
    [crterrors]) is not part of the sources at hand.  Section 6 gives the
    envelope [{status, code, message, details}], section 7 the HTTP status of
    each kind, and the controller and proxy tests the rendering
    ["message: details"]. *)
Record Error : Type := mkError {
  Status : string;
  Code : Z;
  Message : string;
  Details : string
}.

Definition StatusBadRequest : Z := 400.
Definition StatusUnauthorized : Z := 401.
Definition StatusForbidden : Z := 403.
Definition StatusNotFound : Z := 404.
Definition StatusTooManyRequests : Z := 429.
Definition StatusInternalServerError : Z := 500.

(** [http.StatusText] on the codes above. *)
Definition StatusText (code : Z) : string :=
  if code =? 400 then "Bad Request"
  else if code =? 401 then "Unauthorized"
  else if code =? 403 then "Forbidden"
  else if code =? 404 then "Not Found"
  else if code =? 429 then "Too Many Requests"
  else if code =? 500 then "Internal Server Error"
  else "".

Definition NewErrorFromHTTPStatusCode (code : Z) (message details : string) : Error :=
  {| Status := StatusText code; Code := code; Message := message; Details := details |}.

(** The method [Error()] of [*crterrors.Error]. *)
Definition ErrorText (e : Error) : string :=
  if String.eqb (Details e) "" then Message e
  else Message e ++ ": " ++ Details e.

End crterrors.

(** A Go [error] value.  Three dynamic types occur in the service: the
    service's own [*crterrors.Error], the [*StatusError] of the API
    machinery (with its reason, such as ["NotFound"] or ["Conflict"]), and the
    plain error of [errors.New]. *)
Inductive error : Type :=
| CrtError (e : crterrors.Error)
| StatusError (reason message : string)
| ErrorString (message : string).

(** [err.Error()]. *)
Definition errorText (err : error) : string :=
  match err with
  | CrtError e => crterrors.ErrorText e
  | StatusError _ m => m
  | ErrorString m => m
  end.

(** [apierrors.IsNotFound]. *)
Definition IsNotFound (err : error) : bool :=
  match err with
  | StatusError reason _ => String.eqb reason "NotFound"
  | _ => false
  end.

(** The status code carried by an error, when it is a [*crterrors.Error]. *)
Definition httpCode (err : error) : option Z :=
  match err with
  | CrtError e => Some (crterrors.Code e)
  | _ => None
  end.

(** The constructors of [crterrors]; each returns a [*crterrors.Error],
    which Go converts to [error] where one is expected. *)
Definition NewForbiddenError (message details : string) : crterrors.Error :=
  crterrors.NewErrorFromHTTPStatusCode crterrors.StatusForbidden message details.
Definition NewBadRequest (message details : string) : crterrors.Error :=
  crterrors.NewErrorFromHTTPStatusCode crterrors.StatusBadRequest message details.
Definition NewUnauthorizedError (message details : string) : crterrors.Error :=
  crterrors.NewErrorFromHTTPStatusCode crterrors.StatusUnauthorized message details.
Definition NewTooManyRequestsError (message details : string) : crterrors.Error :=
  crterrors.NewErrorFromHTTPStatusCode crterrors.StatusTooManyRequests message details.
Definition NewNotFoundError (err : error) (details : string) : crterrors.Error :=
  crterrors.NewErrorFromHTTPStatusCode crterrors.StatusNotFound (errorText err) details.
Definition NewInternalError (err : error) (details : string) : crterrors.Error :=
  crterrors.NewErrorFromHTTPStatusCode crterrors.StatusInternalServerError (errorText err) details.

Coercion CrtError : crterrors.Error >-> error.

(* ===================================================================== *)
(** ** The resources of the host cluster                                   *)
(* ===================================================================== *)

(** Keys and values from the API package [toolchainv1alpha1]. *)
Definition LabelKeyPrefix : string := "toolchain.dev.openshift.com/".
Definition UserSignupUserPhoneHashLabelKey : string := LabelKeyPrefix ++ "phone-hash".
Definition BannedUserPhoneNumberHashLabelKey : string := LabelKeyPrefix ++ "phone-hash".
Definition UserSignupStateLabelKey : string := LabelKeyPrefix ++ "state".
Definition UserSignupStateLabelValueApproved : string := "approved".
Definition SocialEventUserSignupLabelKey : string := LabelKeyPrefix ++ "social-event".
Definition UserSignupVerificationCodeAnnotationKey : string := LabelKeyPrefix ++ "verification-code".
Definition UserVerificationAttemptsAnnotationKey : string := LabelKeyPrefix ++ "verification-attempts".
Definition UserSignupVerificationCounterAnnotationKey : string := LabelKeyPrefix ++ "verification-counter".
Definition UserSignupVerificationInitTimestampAnnotationKey : string :=
  LabelKeyPrefix ++ "verification-init-timestamp".
Definition UserVerificationExpiryAnnotationKey : string := LabelKeyPrefix ++ "verification-expiry".
Definition UserSignupActivationCounterAnnotationKey : string := LabelKeyPrefix ++ "activation-counter".
Definition UserSignupCaptchaScoreAnnotationKey : string := LabelKeyPrefix ++ "captcha-score".
Definition UserSignupStateVerificationRequired : string := "verification-required".
Definition UserSignupStateDeactivated : string := "deactivated".

(** [m[k]] on a Go map: the zero value for a missing key. *)
Definition index (m : gmap string string) (k : string) : string := default "" (m !! k).

(** [UserSignup]: the metadata and the part of the spec the service reads.
    [Spec.States] is a list of set type in the resource definition, hence
    the set. *)
Record UserSignup : Type := mkUserSignup {
  Name : string;
  Labels : gmap string string;
  Annotations : gmap string string;
  PreferredUsername : string;          (* Spec.IdentityClaims.PreferredUsername *)
  States : gset string                 (* Spec.States *)
}.

Definition withLabels (f : gmap string string -> gmap string string) (s : UserSignup) : UserSignup :=
  mkUserSignup (Name s) (f (Labels s)) (Annotations s) (PreferredUsername s) (States s).
Definition withAnnotations (f : gmap string string -> gmap string string) (s : UserSignup) : UserSignup :=
  mkUserSignup (Name s) (Labels s) (f (Annotations s)) (PreferredUsername s) (States s).
Definition withStates (f : gset string -> gset string) (s : UserSignup) : UserSignup :=
  mkUserSignup (Name s) (Labels s) (Annotations s) (PreferredUsername s) (f (States s)).

Record BannedUser : Type := mkBannedUser {
  BannedLabels : gmap string string
}.

Record SocialEvent : Type := mkSocialEvent {
  EventName : string;
  StartTime : Z;
  EndTime : Z;
  MaxAttendees : Z;
  ActivationCount : Z
}.

Module states.

(** The package [states] of toolchain-common, on the set of states. *)
Definition contains (s : UserSignup) (state : string) : bool := bool_decide (state ∈ States s).

Definition setState (s : UserSignup) (state : string) (val : bool) : UserSignup :=
  if val then withStates (fun st => st ∪ {[state]}) s
  else withStates (fun st => st ∖ {[state]}) s.

Definition VerificationRequired (s : UserSignup) : bool :=
  contains s UserSignupStateVerificationRequired.
Definition SetVerificationRequired (s : UserSignup) (val : bool) : UserSignup :=
  setState s UserSignupStateVerificationRequired val.
Definition Deactivated (s : UserSignup) : bool :=
  contains s UserSignupStateDeactivated.
Definition SetDeactivated (s : UserSignup) (val : bool) : UserSignup :=
  setState s UserSignupStateDeactivated val.

End states.

(** What the service does to the outside world, newest first. *)
Inductive Event : Type :=
| SentSMS (content phone countryCode : string)
| UpdateCall (signup : UserSignup).

(** The world the service runs in: the resources of the host namespace,
    the outcome the API server has in store for each of the next client
    calls ([Some err]: the call fails with [err] and has no effect; [None],
    or an exhausted schedule: the call is served), what the SMS provider and
    the random source will answer, the wall clock (one instant for the whole
    call: what [time.Now()] returns), and the trace. *)
Record World : Type := mkWorld {
  userSignups : list UserSignup;
  bannedUsers : list BannedUser;
  socialEvents : list SocialEvent;
  faults : list (option error);
  smsFailure : option error;
  entropy : error + list Z;
  clock : Z;
  trace : list Event
}.

Definition setUserSignups (l : list UserSignup) (w : World) : World :=
  mkWorld l (bannedUsers w) (socialEvents w) (faults w) (smsFailure w) (entropy w) (clock w) (trace w).
Definition setFaults (f : list (option error)) (w : World) : World :=
  mkWorld (userSignups w) (bannedUsers w) (socialEvents w) f (smsFailure w) (entropy w) (clock w) (trace w).
Definition record (e : Event) (w : World) : World :=
  mkWorld (userSignups w) (bannedUsers w) (socialEvents w) (faults w) (smsFailure w) (entropy w) (clock w)
          (e :: trace w).

(* ===================================================================== *)
(** ** Go functions as state transformers with early return                *)
(* ===================================================================== *)

(** A computation over a state [S] that either returns a value or returns
    early with an error; the state changes either way. *)
Definition M (S A : Type) : Type := S -> (error + A) * S.

Definition ret {S A} (a : A) : M S A := fun s => (inr a, s).
Definition throw {S A} (e : error) : M S A := fun s => (inl e, s).
Definition bind {S A B} (m : M S A) (k : A -> M S B) : M S B :=
  fun s => match m s with
           | (inr a, s') => k a s'
           | (inl e, s') => (inl e, s')
           end.
(** [err := f()], the error kept as a value rather than returned. *)
Definition attempt {S A} (m : M S A) : M S (error + A) :=
  fun s => let '(r, s') := m s in (inr r, s').
Definition gets {S A} (f : S -> A) : M S A := fun s => (inr (f s), s).
Definition modify {S} (f : S -> S) : M S unit := fun s => (inr tt, f s).
(** A computation on the world, run inside a function with locals [L]. *)
Definition liftW {L A} (m : M World A) : M (World * L) A :=
  fun s => let '(r, w') := m (fst s) in (r, (w', snd s)).

Notation "'do' x <- m ;; k" := (bind m (fun x => k))
  (at level 10, x name, m at level 99, k at level 200).
Notation "'call' m ;; k" := (bind m (fun _ => k))
  (at level 10, m at level 99, k at level 200).

(* ===================================================================== *)
(** ** The namespaced client of the host cluster                           *)
(* ===================================================================== *)

Module client.

(** A call to the API server: it fails with the fault scheduled for it,
    if any, and is served otherwise. *)
Definition served {A} (op : M World A) : M World A :=
  fun w =>
    match faults w with
    | Some err :: rest => (inl err, setFaults rest w)
    | None :: rest => op (setFaults rest w)
    | [] => op w
    end.

Definition quote : string := String (ascii_of_nat 34) EmptyString.

(** [apierrors.NewNotFound]. *)
Definition NewNotFound (resource name : string) : error :=
  StatusError "NotFound" (resource ++ " " ++ quote ++ name ++ quote ++ " not found").

Definition findSignup (name : string) (l : list UserSignup) : option UserSignup :=
  List.find (fun s => String.eqb (Name s) name) l.

(** The stored objects with the one named like [s] replaced by [s]. *)
Fixpoint replaceSignup (s : UserSignup) (l : list UserSignup) : option (list UserSignup) :=
  match l with
  | [] => None
  | x :: l' =>
      if String.eqb (Name x) (Name s) then Some (s :: l')
      else option_map (cons x) (replaceSignup s l')
  end.

(** [cl.Get(ctx, cl.NamespacedName(name), &UserSignup{})]. *)
Definition GetUserSignup (name : string) : M World UserSignup :=
  served (fun w =>
    match findSignup name (userSignups w) with
    | Some s => (inr s, w)
    | None => (inl (NewNotFound "usersignups.toolchain.dev.openshift.com" name), w)
    end).

(** [cl.Update(ctx, signup)]. *)
Definition UpdateUserSignup (s : UserSignup) : M World unit :=
  call modify (record (UpdateCall s)) ;;
  served (fun w =>
    match replaceSignup s (userSignups w) with
    | Some l => (inr tt, setUserSignups l w)
    | None => (inl (NewNotFound "usersignups.toolchain.dev.openshift.com" (Name s)), w)
    end).

(** [client.MatchingLabels]: every listed label is present with its value. *)
Definition matchingLabels (selector : list (string * string)) (labels : gmap string string) : bool :=
  forallb (fun kv => bool_decide (labels !! fst kv = Some (snd kv))) selector.

(** [cl.List(ctx, &BannedUserList{}, InNamespace, MatchingLabels)]. *)
Definition ListBannedUsers (selector : list (string * string)) : M World (list BannedUser) :=
  served (fun w => (inr (List.filter (fun b => matchingLabels selector (BannedLabels b)) (bannedUsers w)), w)).

(** [cl.List(ctx, &UserSignupList{}, InNamespace, MatchingLabels)]. *)
Definition ListUserSignups (selector : list (string * string)) : M World (list UserSignup) :=
  served (fun w => (inr (List.filter (fun s => matchingLabels selector (Labels s)) (userSignups w)), w)).

(** [cl.Get(ctx, cl.NamespacedName(name), &SocialEvent{})]. *)
Definition GetSocialEvent (name : string) : M World SocialEvent :=
  served (fun w =>
    match List.find (fun e => String.eqb (EventName e) name) (socialEvents w) with
    | Some e => (inr e, w)
    | None => (inl (NewNotFound "socialevents.toolchain.dev.openshift.com" name), w)
    end).

End client.

(* ===================================================================== *)
(** ** The verification service                                            *)
(* ===================================================================== *)

(** [cfg.Verification()] of the registration-service configuration. *)
Record VerificationConfig : Type := mkVerificationConfig {
  DailyLimit : Z;
  AttemptsAllowed : Z;
  CodeExpiresInMin : Z;
  MessageTemplate : string;
  CaptchaRequiredScore : float;
  CaptchaAllowLowScoreReactivation : bool
}.

Definition codeCharset : string := "0123456789".
Definition codeLength : nat := 6.

(** [time.Duration] constants, in nanoseconds. *)
Definition Minute : Z := 60 * 1000000000.
Definition Hour : Z := 60 * Minute.

(** The key of the request context under which the activation code
    travels to [Signup]. *)
Definition context_SocialEvent : string := "social-event".

Definition updateFailedMessage : string :=
  "there was an error while updating your account - please wait a moment before " ++
  "trying again. If this error persists, please contact the Developer Sandbox team at devsandbox@redhat.com for " ++
  "assistance: error while verifying phone code".

(** The service, with what it is linked against: the identifier encoding
    of toolchain-common, Go's [time] and [strconv] for the timestamp layout
    and the captcha score, [fmt], the configuration, the signup service,
    and the policy of the update loop. *)
Record ServiceImpl : Type := mkServiceImpl {
  EncodeUserIdentifier : string -> string;       (* signupcommon.EncodeUserIdentifier *)
  time_Parse : string -> error + Z;              (* time.Parse(TimestampLayout, _) *)
  time_Format : Z -> string;                     (* t.Format(TimestampLayout) *)
  ParseFloat32 : string -> error + float;        (* float32 of strconv.ParseFloat(_, 32) *)
  Sprintf : string -> string -> string;          (* fmt.Sprintf(template, code) *)
  cfg : VerificationConfig;                      (* GetRegistrationServiceConfig().Verification() *)
  SignupService_Signup : gmap string string -> M World UserSignup;
  maxRetries : nat;                              (* retries of the update loop *)
  retriable : error -> bool                      (* errors the update loop retries on *)
}.

Section Service.

(** The receiver of the service's methods. *)
Variable svc : ServiceImpl.

(** Modelled from the spec: [signuppkg.PollUpdateSignup] is not part of the
    sources at hand.  Section 5: the mutation closure is invoked, and
    re-invoked up to N times on conflict or transient server error; on
    exhausted retries the caller sees the failure.  (The back-off between
    the invocations is a delay and has no counterpart here.) *)
Fixpoint pollUpdate {S : Type} (retriable : error -> bool) (retries : nat) (updater : M S unit)
  : M S unit :=
  fun s =>
    match updater s with
    | (inr tt, s') => (inr tt, s')
    | (inl err, s') =>
        match retries with
        | O => (inl err, s')
        | Datatypes.S retries' =>
            if retriable err then pollUpdate retriable retries' updater s' else (inl err, s')
        end
    end.

Definition PollUpdateSignup {S : Type} (updater : M S unit) : M S unit :=
  pollUpdate (retriable svc) (maxRetries svc) updater.

(** The matcher the service compiles: ["(?i)[a-f0-9]{32}$"]. *)
Definition md5Matcher : regexp.Regexp :=
  regexp.Concat (regexp.Repeat 32 (regexp.Class regexp.hexFold)) regexp.EndText.

(** The label value [PhoneNumberAlreadyInUse] selects on (its first lines). *)
Definition phoneLabelValue (phoneNumberOrHash : string) : string :=
  let labelValue := hash.EncodeString phoneNumberOrHash in
  if regexp.Match md5Matcher phoneNumberOrHash then phoneNumberOrHash else labelValue.

Definition PhoneNumberAlreadyInUse (username phoneNumberOrHash : string) : M World unit :=
  let labelValue := phoneLabelValue phoneNumberOrHash in
  do r <- attempt (client.ListBannedUsers [(BannedUserPhoneNumberHashLabelKey, labelValue)]) ;;
  match r with
  | inl err => throw (NewInternalError err "failed listing banned users")
  | inr bannedUserList =>
      if (0 <? Z.of_nat (List.length bannedUserList))
      then throw (NewForbiddenError "cannot re-register with phone number" "phone number already in use")
      else
        let labelSelector :=
          [(UserSignupStateLabelKey, UserSignupStateLabelValueApproved);
           (BannedUserPhoneNumberHashLabelKey, labelValue)] in
        do r <- attempt (client.ListUserSignups labelSelector) ;;
        match r with
        | inl err => throw (NewInternalError err "failed listing userSignups")
        | inr userSignups =>
            if existsb (fun userSignup =>
                          negb (String.eqb (PreferredUsername userSignup) username)
                          && negb (states.Deactivated userSignup)) userSignups
            then throw (NewForbiddenError "cannot re-register with phone number" "phone number already in use")
            else ret tt
        end
  end.

(** [generateVerificationCode]: six random bytes, each mapped to the digit
    [codeCharset[int(b) % len(codeCharset)]]. *)
Definition generateVerificationCode : M World string :=
  do r <- gets entropy ;;
  match r with
  | inl err => throw err
  | inr buf =>
      let charsetLen := Z.of_nat (String.length codeCharset) in
      ret (string_of_list_ascii
             (List.map (fun i =>
                          match String.get (Z.to_nat ((nth i buf 0 mod 256) mod charsetLen)) codeCharset with
                          | Some c => c
                          | None => "0"%char
                          end) (seq 0 codeLength)))
  end.

(** [s.NotificationService.SendNotification]. *)
Definition SendNotification (content phoneNumber countryCode : string) : M World unit :=
  call modify (record (SentSMS content phoneNumber countryCode)) ;;
  do failure <- gets smsFailure ;;
  match failure with
  | Some err => throw err
  | None => ret tt
  end.

(** The closure [doUpdate] of [InitVerification]. *)
Definition initDoUpdate (username : string) (labelValues annotationValues : gmap string string)
  : M World unit :=
  do signup <- client.GetUserSignup (EncodeUserIdentifier svc username) ;;
  let signup := withLabels (fun labels => labelValues ∪ labels) signup in
  let signup := withAnnotations (fun annotations => annotationValues ∪ annotations) signup in
  client.UpdateUserSignup signup.

(** Lines 100-142 of [InitVerification], which read the loaded signup and
    the clock only: the labels and annotations to set, the counter (after
    the 24-hour reset), and [initError]. *)
Definition initPlan (signup : UserSignup) (e164PhoneNumber : string) (now : Z)
  : gmap string string * gmap string string * Z * option error :=
  let labelValues : gmap string string := ∅ in
  let annotationValues : gmap string string := ∅ in
  (* calculate the phone number hash *)
  let phoneHash := hash.EncodeString e164PhoneNumber in
  let labelValues := <[UserSignupUserPhoneHashLabelKey := phoneHash]> labelValues in
  (* get the verification counter (i.e. the number of times the user has
     initiated phone verification within the last 24 hours) *)
  let verificationCounter := index (Annotations signup) UserSignupVerificationCounterAnnotationKey in
  let dailyLimit := DailyLimit (cfg svc) in
  let '(counter, annotationValues) :=
    if negb (String.eqb verificationCounter "") then
      match strconv.Atoi verificationCounter with
      | Some counter => (counter, annotationValues)
      | None =>
          (* set verification counter to the daily limit so that we at
             least now have a valid value *)
          (dailyLimit,
           <[UserSignupVerificationCounterAnnotationKey := strconv.Itoa dailyLimit]> annotationValues)
      end
    else (0, annotationValues) in
  (* If 24 hours has passed since the verification timestamp, then reset
     the timestamp and verification attempts *)
  let '(counter, annotationValues) :=
    if match time_Parse svc (index (Annotations signup) UserSignupVerificationInitTimestampAnnotationKey) with
       | inl _ => true
       | inr ts => now >? ts + 24 * Hour
       end
    then
      (* Set a new timestamp *)
      (0,
       <[UserSignupVerificationCounterAnnotationKey := "0"]>
         (<[UserSignupVerificationInitTimestampAnnotationKey := time_Format svc now]> annotationValues))
    else (counter, annotationValues) in
  (* check if counter has exceeded the limit of daily limit - if at limit
     error out *)
  let initError :=
    if counter >=? dailyLimit
    then Some (NewForbiddenError "daily limit exceeded" "cannot generate new verification code" : error)
    else None in
  (labelValues, annotationValues, counter, initError).

Definition InitVerification (username e164PhoneNumber countryCode : string) : M World unit :=
  do r <- attempt (client.GetUserSignup (EncodeUserIdentifier svc username)) ;;
  match r with
  | inl err =>
      if IsNotFound err then throw (NewNotFoundError err "usersignup not found")
      else throw (NewInternalError err ("error retrieving usersignup with username '" ++ username ++ "'"))
  | inr signup =>
  (* check that verification is required before proceeding *)
  if negb (states.VerificationRequired signup)
  then throw (NewBadRequest "forbidden request" "verification code will not be sent")
  else
  (* Check if the provided phone number is already being used by another user *)
  do r <- attempt (PhoneNumberAlreadyInUse username e164PhoneNumber) ;;
  match r with
  | inl err =>
      match err with
      | CrtError e =>
          if crterrors.Code e =? crterrors.StatusForbidden
          then throw (NewForbiddenError "phone number already in use"
                        ("cannot register using phone number: " ++ e164PhoneNumber))
          else throw (NewInternalError err "could not lookup users by phone number")
      | _ => throw (NewInternalError err "could not lookup users by phone number")
      end
  | inr _ =>
  (* read the current time *)
  do now <- gets clock ;;
  let '(labelValues, annotationValues, counter, initError) := initPlan signup e164PhoneNumber now in
  do annotationValues <-
    match initError with
    | None =>
        (* generate verification code *)
        do r <- attempt generateVerificationCode ;;
        match r with
        | inl err => throw (NewInternalError err "error while generating verification code")
        | inr verificationCode =>
            (* set the usersignup annotations *)
            let annotationValues :=
              <[UserVerificationExpiryAnnotationKey :=
                  time_Format svc (now + strconv.wrap (strconv.wrap (CodeExpiresInMin (cfg svc)) * Minute))]>
              (<[UserSignupVerificationCodeAnnotationKey := verificationCode]>
              (<[UserSignupVerificationCounterAnnotationKey := strconv.Itoa (strconv.wrap (counter + 1))]>
              (<[UserVerificationAttemptsAnnotationKey := "0"]> annotationValues))) in
            (* Generate the verification message with the new verification code *)
            let content := Sprintf svc (MessageTemplate (cfg svc)) verificationCode in
            do r <- attempt (SendNotification content e164PhoneNumber countryCode) ;;
            match r with
            | inl err =>
                (* If we get an error here then just die, don't bother updating the UserSignup *)
                throw (NewInternalError err "error while sending verification code")
            | inr _ => ret annotationValues
            end
        end
    | Some _ => ret annotationValues
    end ;;
  do updateErr <- attempt (PollUpdateSignup (initDoUpdate username labelValues annotationValues)) ;;
  match updateErr with
  | inl _ => throw (ErrorString updateFailedMessage)
  | inr _ =>
      match initError with
      | Some err => throw err
      | None => ret tt
      end
  end
  end
  end.

(** [checkRequiredManualApproval]: compares the user captcha score with
    the configured required captcha score. *)
Definition checkRequiredManualApproval (signup : UserSignup) : option error :=
  match Annotations signup !! UserSignupCaptchaScoreAnnotationKey with
  | Some captchaScore =>
      match ParseFloat32 svc captchaScore with
      | inl _ =>
          (* let's just log the parsing error and return *)
          None
      | inr fscore =>
          if PrimFloat.ltb fscore (CaptchaRequiredScore (cfg svc))
          then Some (NewForbiddenError "verification failed" "verification is not available at this time" : error)
          else None
      end
  | None => None
  end.

(** The first block of [VerifyPhoneCode] after the signup is loaded
    ("check if it's a reactivation"): the error it returns with, if any. *)
Definition reactivationCheck (signup : UserSignup) : option error :=
  match Annotations signup !! UserSignupActivationCounterAnnotationKey with
  | Some activationCounterString =>
      if CaptchaAllowLowScoreReactivation (cfg svc) then
        match strconv.Atoi activationCounterString with
        | None =>
            (* activation counter is not an integer value *)
            checkRequiredManualApproval signup
        | Some activationCounter =>
            if activationCounter =? 1
            then (* check required captcha score if it's not a reactivation *)
              checkRequiredManualApproval signup
            else None
        end
      else checkRequiredManualApproval signup
  | None =>
      (* when allowLowScoreReactivation is not enabled or no activation counter found *)
      checkRequiredManualApproval signup
  end.

(** The closure [doUpdate] of [VerifyPhoneCode]. *)
Definition verifyDoUpdate (username : string) (unsetVerificationRequired : bool)
    (annotationValues : gmap string string) (annotationsToDelete : list string) : M World unit :=
  do signup <- client.GetUserSignup (EncodeUserIdentifier svc username) ;;
  let signup :=
    if unsetVerificationRequired then states.SetVerificationRequired signup false else signup in
  let signup := withAnnotations (fun annotations => annotationValues ∪ annotations) signup in
  let signup :=
    withAnnotations (fun annotations =>
                       fold_left (fun m annotationName => delete annotationName m)
                                 annotationsToDelete annotations) signup in
  client.UpdateUserSignup signup.

(** Lines 260-321 of [VerifyPhoneCode], which read the loaded signup, the
    code and the clock only: [unsetVerificationRequired], the annotations to
    set, the annotations to delete, and [verificationErr]. *)
Definition verifyPlan (signup : UserSignup) (code : string) (now : Z)
  : bool * gmap string string * list string * option error :=
  let annotationValues : gmap string string := ∅ in
  let annotationsToDelete : list string := [] in
  let unsetVerificationRequired := false in
  let '(attemptsMade, annotationValues) :=
    match strconv.Atoi (index (Annotations signup) UserVerificationAttemptsAnnotationKey) with
    | Some attemptsMade => (attemptsMade, annotationValues)
    | None =>
        (* We shouldn't get an error here, but if we do, we will set
           verification attempts to max allowed *)
        let attemptsMade := AttemptsAllowed (cfg svc) in
        (attemptsMade, <[UserVerificationAttemptsAnnotationKey := strconv.Itoa attemptsMade]> annotationValues)
    end in
  (* If the user has made more attempts than is allowed per generated
     verification code, return an error *)
  let verificationErr :=
    if attemptsMade >=? AttemptsAllowed (cfg svc)
    then Some (NewTooManyRequestsError "too many verification attempts" "" : error)
    else None in
  let verificationErr :=
    match verificationErr with
    | None =>
        (* Parse the verification expiry timestamp *)
        match time_Parse svc (index (Annotations signup) UserVerificationExpiryAnnotationKey) with
        | inl parseErr => Some (NewInternalError parseErr "error parsing expiry timestamp" : error)
        | inr exp =>
            if now >? exp then Some (NewForbiddenError "expired" "verification code expired" : error) else None
        end
    | Some _ => verificationErr
    end in
  let '(attemptsMade, annotationValues, verificationErr) :=
    match verificationErr with
    | None =>
        if negb (String.eqb code (index (Annotations signup) UserSignupVerificationCodeAnnotationKey))
        then
          (* The code doesn't match *)
          let attemptsMade := strconv.wrap (attemptsMade + 1) in
          (attemptsMade,
           <[UserVerificationAttemptsAnnotationKey := strconv.Itoa attemptsMade]> annotationValues,
           Some (NewForbiddenError "invalid code" "the provided code is invalid" : error))
        else (attemptsMade, annotationValues, verificationErr)
    | Some _ => (attemptsMade, annotationValues, verificationErr)
    end in
  let '(unsetVerificationRequired, annotationsToDelete) :=
    match verificationErr with
    | None =>
        (* If the code matches then set VerificationRequired to false,
           reset other verification annotations *)
        (true,
         (annotationsToDelete ++
           [UserSignupVerificationCodeAnnotationKey;
            UserVerificationAttemptsAnnotationKey;
            UserSignupVerificationCounterAnnotationKey;
            UserSignupVerificationInitTimestampAnnotationKey;
            UserVerificationExpiryAnnotationKey])%list)
    | Some _ => (unsetVerificationRequired, annotationsToDelete)
    end in
  (unsetVerificationRequired, annotationValues, annotationsToDelete, verificationErr).

Definition VerifyPhoneCode (username code : string) : M World unit :=
  (* If we can't even find the UserSignup, then die here *)
  do r <- attempt (client.GetUserSignup (EncodeUserIdentifier svc username)) ;;
  match r with
  | inl err =>
      if IsNotFound err then throw (NewNotFoundError err "user not found")
      else throw (NewInternalError err ("error retrieving usersignup with username '" ++ username ++ "'"))
  | inr signup =>
  (* check if it's a reactivation *)
  match reactivationCheck signup with
  | Some err => throw err
  | None =>
  do r <- attempt (PhoneNumberAlreadyInUse username (index (Labels signup) UserSignupUserPhoneHashLabelKey)) ;;
  match r with
  | inl _ =>
      throw (NewBadRequest "phone number already in use"
               "the phone number provided for this signup is already in use by an active account")
  | inr _ =>
  do now <- gets clock ;;
  let '(unsetVerificationRequired, annotationValues, annotationsToDelete, verificationErr) :=
    verifyPlan signup code now in
  do updateErr <-
    attempt (PollUpdateSignup
               (verifyDoUpdate username unsetVerificationRequired annotationValues annotationsToDelete)) ;;
  match updateErr with
  | inl _ => throw (ErrorString updateFailedMessage)
  | inr _ =>
      match verificationErr with
      | Some err => throw err
      | None => ret tt
      end
  end
  end
  end
  end.

(** [checkAttempts]: the attempts made so far and the error, if any. *)
Definition checkAttempts (signup : UserSignup) : Z * option error :=
  match Annotations signup !! UserVerificationAttemptsAnnotationKey with
  | None => (0, None)
  | Some v =>
      if String.eqb v "" then (0, None)
      else
        match strconv.Atoi v with
        | None =>
            (-1, Some (NewInternalError (ErrorString (strconv.AtoiError v))
                         ("error converting annotation [" ++ UserVerificationAttemptsAnnotationKey ++
                          "] value [" ++ v ++ "] to integer, on UserSignup: [" ++ Name signup ++ "]") : error))
        | Some attemptsMade =>
            if attemptsMade >=? AttemptsAllowed (cfg svc)
            then (attemptsMade, Some (NewTooManyRequestsError "too many verification attempts" v : error))
            else (attemptsMade, None)
        end
  end.

(** Modelled from the spec: [signuppkg.GetAndValidateSocialEvent] is not
    part of the sources at hand.  Section 4.2: the SocialEvent named [code]
    must exist, be within [[start_time, end_time]], and have
    [activation_count < max_attendees]; any failure is a 403. *)
Definition GetAndValidateSocialEvent (code : string) : M World SocialEvent :=
  do r <- attempt (client.GetSocialEvent code) ;;
  match r with
  | inl _ => throw (NewForbiddenError "invalid code" "the provided code is invalid")
  | inr event =>
      do now <- gets clock ;;
      if (StartTime event <=? now) && (now <=? EndTime event)
         && (ActivationCount event <? MaxAttendees event)
      then ret event
      else throw (NewForbiddenError "invalid code" "the provided code is invalid")
  end.

(** Modelled from the spec: [signuppkg.UpdateUserSignupWithSocialEvent] is
    not part of the sources at hand.  Section 4.2: clear
    [verification_required], clear [deactivated], set the label
    [social_event_name] to the code. *)
Definition UpdateUserSignupWithSocialEvent (event : SocialEvent) (signup : UserSignup) : UserSignup :=
  withLabels (insert SocialEventUserSignupLabelKey (EventName event))
    (states.SetDeactivated (states.SetVerificationRequired signup false) false).

(** The variables [attemptsMade] and [errToReturn] of
    [VerifyActivationCode], which its closure [doUpdate] assigns to. *)
Definition Locals : Type := (Z * option error)%type.

(** The closure [doUpdate] of [VerifyActivationCode]. *)
Definition activationDoUpdate (username code : string) : M (World * Locals) unit :=
  do signup <- liftW (client.GetUserSignup (EncodeUserIdentifier svc username)) ;;
  do r <- attempt (liftW (GetAndValidateSocialEvent code)) ;;
  do signup <-
    match r with
    | inl err =>
        call modify (fun s : World * Locals =>
                       (fst s, (strconv.wrap (fst (snd s) + 1), Some err))) ;;
        do attemptsMade <- gets (fun s : World * Locals => fst (snd s)) ;;
        ret (withAnnotations (insert UserVerificationAttemptsAnnotationKey (strconv.Itoa attemptsMade)) signup)
    | inr event =>
        ret (withAnnotations (delete UserVerificationAttemptsAnnotationKey)
               (UpdateUserSignupWithSocialEvent event signup))
    end ;;
  liftW (client.UpdateUserSignup signup).

Definition VerifyActivationCode (ctx : gmap string string) (username code : string) : M World unit :=
  (* look-up the UserSignup *)
  do r <- attempt (client.GetUserSignup (EncodeUserIdentifier svc username)) ;;
  match r with
  | inl err =>
      if IsNotFound err then
        (* signup user *)
        do _s <- SignupService_Signup svc (<[context_SocialEvent := code]> ctx) ;;
        ret tt
      else throw (NewInternalError err ("error retrieving usersignup with username '" ++ username ++ "'"))
  | inr signup =>
      match checkAttempts signup with
      | (_, Some err) => throw err
      | (attemptsMade, None) =>
          fun w =>
            let errToReturn : option error := None in
            let '(r, (w', (_, errToReturn))) :=
              PollUpdateSignup (activationDoUpdate username code) (w, (attemptsMade, errToReturn)) in
            let errToReturn :=
              match r with
              | inl err =>
                  match errToReturn with
                  | None => Some err
                  | Some _ => errToReturn
                  end
              | inr _ => errToReturn
              end in
            match errToReturn with
            | Some err => (inl err, w')
            | None => (inr tt, w')
            end
      end
  end.

End Service.

(* ===================================================================== *)
(** ** The proxy: bearer-token extraction                                  *)
(* ===================================================================== *)

Module proxy.

(** [http.Request], as far as the handler reads it: the header, keyed by
    canonical name. *)
Record Request : Type := mkRequest {
  Header : gmap string (list string)
}.

(** [http.Header.Get]: the first value of the key, or the empty string. *)
Definition Header_Get (h : gmap string (list string)) (key : string) : string :=
  match h !! key with
  | Some (v :: _) => v
  | _ => ""
  end.

(** [NamespaceAccess], the target of a forwarded request. *)
Record NamespaceAccess : Type := mkNamespaceAccess {
  APIURL : string;
  SAToken : string
}.

(** The proxy with its two collaborators: the token parser (the subject of
    a valid token, or an error) and the lookup of the user's namespace. *)
Record Proxy : Type := mkProxy {
  tokenParser_FromString : string -> error + string;
  namespaces_GetNamespace : string -> error + NamespaceAccess
}.

(** What the handler does with the response writer. *)
Inductive Response : Type :=
| HttpError (code : Z) (body : string)     (* http.Error(res, body, code) *)
| Forwarded (userID : string) (target : NamespaceAccess).

Definition extractUserToken (req : Request) : error + string :=
  let a := Header_Get (Header req) "Authorization" in
  let token := gostrings.Split a "Bearer " in
  if (Z.of_nat (List.length token) <? 2)
  then inl (NewUnauthorizedError "no token found" "a Bearer token is expected" : error)
  else inr (nth 1 token "").

Definition extractUserID (p : Proxy) (req : Request) : error + string :=
  match extractUserToken req with
  | inl err => inl err
  | inr userToken =>
      match tokenParser_FromString p userToken with
      | inl err => inl (NewUnauthorizedError "unable to extract userID from token" (errorText err) : error)
      | inr subject => inr subject
      end
  end.

(** [createContext]: the context holds the user ID under [context.SubKey]. *)
Definition createContext (p : Proxy) (req : Request) : error + string :=
  match extractUserID p req with
  | inl err => inl err
  | inr userID => inr userID
  end.

(** [responseWithError]: [http.Error] writes the text and a newline. *)
Definition responseWithError (err : crterrors.Error) : Response :=
  HttpError (crterrors.Code err) (crterrors.ErrorText err ++ String (ascii_of_nat 10) EmptyString).

Definition handleRequestAndRedirect (p : Proxy) (req : Request) : Response :=
  match createContext p req with
  | inl err => responseWithError (NewUnauthorizedError "unable to create a context" (errorText err))
  | inr ctx =>
      match namespaces_GetNamespace p ctx with
      | inl err =>
          responseWithError (NewInternalError (ErrorString "unable to get target namespace") (errorText err))
      | inr ns => Forwarded ctx ns
      end
  end.

(** *** The reverse proxy *)

(** [url.URL], as far as the director of the reverse proxy writes it. *)
Record url_URL : Type := mkURL {
  Scheme : string;
  Host : string;
  Path : string;
  RawQuery : string
}.

(** [http.Header.Set] on a key that is canonical already: the key gets
    the single value. *)
Definition Header_Set (h : gmap string (list string)) (key value : string) : gmap string (list string) :=
  <[key := [value]]> h.

Definition singleJoiningSlash (a b : string) : string :=
  let aslash := gostrings.HasSuffix a "/" in
  let bslash := gostrings.HasPrefix b "/" in
  if aslash && bslash then a ++ gostrings.sliceFrom 1 b
  else if negb aslash && negb bslash then a ++ "/" ++ b
  else a ++ b.

(** The director of [newReverseProxy].  Its closure captures two variables
    of the target, the parsed API URL and the service-account token; of the
    request it writes [req.URL] and [req.Header], which are passed in and
    returned as they are on return. *)
Definition director (apiURL : url_URL) (saToken : string)
    (reqURL : url_URL) (reqHeader : gmap string (list string))
  : url_URL * gmap string (list string) :=
  let targetQuery := RawQuery apiURL in
  let reqURL :=
    {| Scheme := Scheme apiURL; Host := Host apiURL;
       Path := singleJoiningSlash (Path apiURL) (Path reqURL);
       RawQuery := RawQuery reqURL |} in
  let reqURL :=
    {| Scheme := Scheme reqURL; Host := Host reqURL; Path := Path reqURL;
       RawQuery :=
         if String.eqb targetQuery "" || String.eqb (RawQuery reqURL) ""
         then targetQuery ++ RawQuery reqURL
         else targetQuery ++ "&" ++ RawQuery reqURL |} in
  let reqHeader :=
    match reqHeader !! "User-Agent" with
    | None =>
        (* explicitly disable User-Agent so it's not set to default value *)
        Header_Set reqHeader "User-Agent" ""
    | Some _ => reqHeader
    end in
  (* Replace token *)
  let reqHeader := Header_Set reqHeader "Authorization" ("Bearer " ++ saToken) in
  (reqURL, reqHeader).

End proxy.

(* ===================================================================== *)
(** ** A concrete service and concrete worlds                              *)
(* ===================================================================== *)

Module example.

(** Instants are written in decimal by this service's clock codec. *)
Definition parseTime (s : string) : error + Z :=
  match strconv.Atoi s with
  | Some t => inr t
  | None => inl (ErrorString "parsing time: cannot parse")
  end.

(** The two captcha scores that occur below. *)
Definition parseScore (s : string) : error + float :=
  if String.eqb s "0.25" then inr 0.25%float
  else if String.eqb s "0.75" then inr 0.75%float
  else inl (ErrorString "strconv.ParseFloat: invalid syntax").

Definition config : VerificationConfig :=
  {| DailyLimit := 5; AttemptsAllowed := 3; CodeExpiresInMin := 5;
     MessageTemplate := "Your verification code is ";
     CaptchaRequiredScore := 0.5%float;
     CaptchaAllowLowScoreReactivation := true |}.

Definition service : ServiceImpl :=
  {| EncodeUserIdentifier := fun username => username;
     time_Parse := parseTime;
     time_Format := strconv.Itoa;
     ParseFloat32 := parseScore;
     Sprintf := fun template code => template ++ code;
     cfg := config;
     SignupService_Signup := fun _ => throw (ErrorString "signup is closed");
     maxRetries := 4;
     retriable := fun _ => true |}.

Definition phone : string := "+12268213044".
Definition phoneHash : string := "fd276563a8232d16620da8ec85d0575f".

(** A signup in the middle of phone verification: one code sent at
    instant 900, valid until 2000, no attempt made yet. *)
Definition johnny : UserSignup :=
  {| Name := "johnny";
     Labels := {[ UserSignupUserPhoneHashLabelKey := phoneHash ]};
     Annotations :=
       <[UserSignupVerificationCodeAnnotationKey := "999888"]>
       (<[UserVerificationAttemptsAnnotationKey := "0"]>
       (<[UserSignupVerificationCounterAnnotationKey := "1"]>
       (<[UserSignupVerificationInitTimestampAnnotationKey := "900"]>
       (<[UserVerificationExpiryAnnotationKey := "2000"]> ∅))));
     PreferredUsername := "johnny";
     States := {[ UserSignupStateVerificationRequired ]} |}.

Definition annotate (k v : string) (s : UserSignup) : UserSignup :=
  withAnnotations (insert k v) s.

(** The same signup with a captcha score below the required 0.5 and an
    activation counter of 0. *)
Definition lowScore : UserSignup :=
  annotate UserSignupCaptchaScoreAnnotationKey "0.25"
    (annotate UserSignupActivationCounterAnnotationKey "0" johnny).

(** The same signup after five verification messages in the current
    24-hour window. *)
Definition atLimit : UserSignup :=
  annotate UserSignupVerificationCounterAnnotationKey "5" johnny.

(** An approved signup of somebody else with the same phone. *)
Definition jane : UserSignup :=
  {| Name := "jane";
     Labels := <[UserSignupStateLabelKey := UserSignupStateLabelValueApproved]>
               {[ UserSignupUserPhoneHashLabelKey := phoneHash ]};
     Annotations := ∅;
     PreferredUsername := "jane";
     States := ∅ |}.

Definition conflict : error :=
  StatusError "Conflict" "the object has been modified; please apply your changes to the latest version".

(** The host namespace at instant 1000, with the given signups and the
    given faults scheduled. *)
Definition world (signups : list UserSignup) (scheduled : list (option error)) : World :=
  {| userSignups := signups; bannedUsers := []; socialEvents := [];
     faults := scheduled; smsFailure := None;
     entropy := inr [7; 18; 29; 130; 241; 255];
     clock := 1000; trace := [] |}.

(** The same with the SMS provider down. *)
Definition worldSmsDown (signups : list UserSignup) : World :=
  {| userSignups := signups; bannedUsers := []; socialEvents := [];
     faults := []; smsFailure := Some (ErrorString "sms provider unavailable");
     entropy := inr [7; 18; 29; 130; 241; 255];
     clock := 1000; trace := [] |}.

(** Three calls served (the load and the two lists of the phone check);
    then, five times over, the load of the update closure served and its
    update refused with a conflict. *)
Definition updatesFail : list (option error) :=
  [None; None; None;
   None; Some conflict; None; Some conflict; None; Some conflict;
   None; Some conflict; None; Some conflict].

End example.

Module exampleProxy.

Definition target : proxy.NamespaceAccess :=
  {| proxy.APIURL := "https://member-2.example"; proxy.SAToken := "clusterSAToken" |}.

(** A proxy whose parser takes the token ["abc"] for the user ["smith2"]. *)
Definition smith : proxy.Proxy :=
  {| proxy.tokenParser_FromString :=
       fun token => if String.eqb token "abc" then inr "smith2"
                    else inl (ErrorString "token contains an invalid number of segments");
     proxy.namespaces_GetNamespace := fun _ => inr target |}.

Definition request (authorization : string) : proxy.Request :=
  {| proxy.Header := {[ "Authorization" := [authorization] ]} |}.

End exampleProxy.

(* ===================================================================== *)
(** ** Vocabulary of the properties *)
(* ===================================================================== *)

(** Everything but the resources, the fault schedule and the trace. *)
Definition sameEnv (w w' : World) : Prop :=
  bannedUsers w' = bannedUsers w /\ socialEvents w' = socialEvents w /\
  smsFailure w' = smsFailure w /\ entropy w' = entropy w /\ clock w' = clock w.

(** A step that only consumes scheduled faults. *)
Definition readOnly (w w' : World) : Prop :=
  sameEnv w w' /\ userSignups w' = userSignups w /\ trace w' = trace w.

Definition isUpdateCall (e : Event) : Prop :=
  match e with UpdateCall _ => True | SentSMS _ _ _ => False end.
Definition isSentSMS (e : Event) : Prop :=
  match e with SentSMS _ _ _ => True | UpdateCall _ => False end.

(** The shape shared by the closures of [InitVerification] and
    [VerifyPhoneCode]: load the signup, change it, update it. *)
Definition updateWith (name : string) (f : UserSignup -> UserSignup) : M World unit :=
  do signup <- client.GetUserSignup name ;; client.UpdateUserSignup (f signup).

(** New events of [w'] over [w], all of them update calls. *)
Definition onlyUpdates (w w' : World) : Prop :=
  exists calls, trace w' = (calls ++ trace w)%list /\ Forall isUpdateCall calls.

Definition verificationAnnotations : list string :=
  [UserSignupVerificationCodeAnnotationKey;
   UserVerificationAttemptsAnnotationKey;
   UserSignupVerificationCounterAnnotationKey;
   UserSignupVerificationInitTimestampAnnotationKey;
   UserVerificationExpiryAnnotationKey].

(** The error of the captcha gate. *)
Definition captchaGateError : error :=
  NewForbiddenError "verification failed" "verification is not available at this time".

(** When the code skips the captcha gate: low-score reactivation is
    allowed, and the activation counter is there and reads as an integer
    other than 1. *)
Definition gateSkipped (svc : ServiceImpl) (signup : UserSignup) : bool :=
  CaptchaAllowLowScoreReactivation (cfg svc) &&
  match Annotations signup !! UserSignupActivationCounterAnnotationKey with
  | Some activationCounter =>
      match strconv.Atoi activationCounter with
      | Some n => negb (n =? 1)
      | None => false
      end
  | None => false
  end.

(** The skip of the captcha gate as the spec words it: low-score
    reactivation is allowed and the activation counter reads as an integer
    greater than 1. *)
Definition specGateSkipped (svc : ServiceImpl) (signup : UserSignup) : bool :=
  CaptchaAllowLowScoreReactivation (cfg svc) &&
  match Annotations signup !! UserSignupActivationCounterAnnotationKey with
  | Some activationCounter =>
      match strconv.Atoi activationCounter with
      | Some n => n >? 1
      | None => false
      end
  | None => false
  end.

Definition dailyLimitError : error :=
  NewForbiddenError "daily limit exceeded" "cannot generate new verification code".

(** The annotations [InitVerification] sets when it sends a code. *)
Definition codeAnnotations (svc : ServiceImpl) (now counter : Z) (verificationCode : string)
    (annotationValues : gmap string string) : gmap string string :=
  <[UserVerificationExpiryAnnotationKey :=
      time_Format svc (now + strconv.wrap (strconv.wrap (CodeExpiresInMin (cfg svc)) * Minute))]>
  (<[UserSignupVerificationCodeAnnotationKey := verificationCode]>
  (<[UserSignupVerificationCounterAnnotationKey := strconv.Itoa (strconv.wrap (counter + 1))]>
  (<[UserVerificationAttemptsAnnotationKey := "0"]> annotationValues))).

(** The states in which the update loop invokes its closure. *)
Fixpoint invocations {S : Type} (retriable : error -> bool) (retries : nat) (updater : M S unit) (s : S)
  : list S :=
  s ::
  match updater s with
  | (inl err, s') =>
      match retries with
      | O => []
      | Datatypes.S retries' => if retriable err then invocations retriable retries' updater s' else []
      end
  | (inr _, _) => []
  end.

(** The closure of [VerifyActivationCode], invoked in state [s], loads the
    signup and the validation of the social event fails with [err]. *)
Definition validationFails (svc : ServiceImpl) (username code : string) (s : World * Locals)
    (err : error) : Prop :=
  exists signup w1 w2,
    client.GetUserSignup (EncodeUserIdentifier svc username) (fst s) = (inr signup, w1) /\
    GetAndValidateSocialEvent code w1 = (inl err, w2).

Definition newline : string := String (ascii_of_nat 10) EmptyString.

(** The token that [extractUserToken] takes from the value of the header:
    what follows the first ["Bearer "], up to the next one. *)
Definition tokenOf (a : string) : option string :=
  match gostrings.Index a "Bearer " with
  | None => None
  | Some i =>
      let rest := gostrings.sliceFrom (i + 7) a in
      match gostrings.Index rest "Bearer " with
      | None => Some rest
      | Some j => Some (gostrings.sliceTo j rest)
      end
  end.

(** The expression of the spec, anchored at both ends:
    ["(?i)^[a-f0-9]{32}$"]. *)
Definition specMd5Matcher : regexp.Regexp := regexp.Concat regexp.BeginText md5Matcher.

Fixpoint allChars (f : ascii -> bool) (s : string) : bool :=
  match s with
  | EmptyString => true
  | String c s' => f c && allChars f s'
  end.

(** The whole input is 32 hexadecimal digits. *)
Definition isHash (s : string) : bool :=
  Nat.eqb (String.length s) 32 && allChars regexp.hexFold s.

(** The input ends in 32 hexadecimal digits. *)
Definition hasHashSuffix (s : string) : bool :=
  Nat.leb 32 (String.length s) && isHash (gostrings.sliceFrom (String.length s - 32) s).

(** Reading [n] bytes of the class [f]: the text left, if they are there. *)
Fixpoint eat (f : ascii -> bool) (n : nat) (s : string) : option string :=
  match n with
  | O => Some s
  | S n' =>
      match s with
      | String c s' => if f c then eat f n' s' else None
      | EmptyString => None
      end
  end.

(** A decimal digit. *)
Definition isDigit (c : ascii) : bool := regexp.inRange "0" "9" c.

(** Who holds a phone hash, as far as the phone check sees: a banned user
    carries it, or an approved signup does whose preferred username is
    another one and which is not deactivated. *)
Definition phoneTaken (username labelValue : string) (w : World) : bool :=
  existsb (fun b => bool_decide (BannedLabels b !! BannedUserPhoneNumberHashLabelKey = Some labelValue))
          (bannedUsers w)
  || existsb (fun s =>
                bool_decide (Labels s !! UserSignupStateLabelKey = Some UserSignupStateLabelValueApproved)
                && bool_decide (Labels s !! BannedUserPhoneNumberHashLabelKey = Some labelValue)
                && negb (String.eqb (PreferredUsername s) username)
                && negb (states.Deactivated s))
             (userSignups w).

Definition phoneInUseError : error :=
  NewForbiddenError "cannot re-register with phone number" "phone number already in use".

(** The world at another instant. *)
Definition setClock (t : Z) (w : World) : World :=
  mkWorld (userSignups w) (bannedUsers w) (socialEvents w) (faults w) (smsFailure w) (entropy w) t (trace w).

Definition tooManyAttemptsError : error := NewTooManyRequestsError "too many verification attempts" "".

(** The error of [VerifyPhoneCode] for an expiry in the past or one that
    does not parse. *)
Definition expiryError (svc : ServiceImpl) (signup : UserSignup) : error :=
  match time_Parse svc (index (Annotations signup) UserVerificationExpiryAnnotationKey) with
  | inl parseErr => NewInternalError parseErr "error parsing expiry timestamp"
  | inr _ => NewForbiddenError "expired" "verification code expired"
  end.

(** A step that changes, of all the resources, at most the signup called
    [name]. *)
Definition touchesOnly (name : string) (w w' : World) : Prop :=
  sameEnv w w' /\
  forall other, other <> name ->
    client.findSignup other (userSignups w') = client.findSignup other (userSignups w).

(** [validationFails], computed: the closure of [VerifyActivationCode],
    invoked in state [s], loads the signup and the validation of the social
    event fails. *)
Definition validationFailsb (svc : ServiceImpl) (username code : string) (s : World * Locals) : bool :=
  match client.GetUserSignup (EncodeUserIdentifier svc username) (fst s) with
  | (inr _, w1) =>
      match GetAndValidateSocialEvent code w1 with
      | (inl _, _) => true
      | (inr _, _) => false
      end
  | (inl _, _) => false
  end.

(** The error [checkAttempts] finds in the value [v] of the attempts
    annotation, when there is one. *)
Definition attemptsError (svc : ServiceImpl) (signup : UserSignup) (v : string) : error :=
  match strconv.Atoi v with
  | Some _ => NewTooManyRequestsError "too many verification attempts" v
  | None =>
      NewInternalError (ErrorString (strconv.AtoiError v))
        ("error converting annotation [" ++ UserVerificationAttemptsAnnotationKey ++
         "] value [" ++ v ++ "] to integer, on UserSignup: [" ++ Name signup ++ "]")
  end.

(* ===================================================================== *)
(** * Properties *)
(* ===================================================================== *)

(** *** The libraries on examples *)

Example Itoa_examples :
  strconv.Itoa 0 = "0" /\ strconv.Itoa 42 = "42" /\ strconv.Itoa (-1205) = "-1205"
  /\ strconv.Itoa strconv.minInt = "-9223372036854775808".
Proof. vm_compute. repeat split. Qed.

Example Atoi_examples :
  strconv.Atoi "3" = Some 3 /\ strconv.Atoi "+17" = Some 17 /\ strconv.Atoi "-0" = Some 0
  /\ strconv.Atoi "" = None /\ strconv.Atoi "-" = None /\ strconv.Atoi "1a" = None
  /\ strconv.Atoi "9223372036854775807" = Some strconv.maxInt
  /\ strconv.Atoi "9223372036854775808" = None
  /\ strconv.Atoi "-9223372036854775808" = Some strconv.minInt.
Proof. vm_compute. repeat split. Qed.

Example Split_examples :
  gostrings.Split "Bearer abc" "Bearer " = ["" ; "abc"]
  /\ gostrings.Split "" "Bearer " = [""]
  /\ gostrings.Split "Bearer" "Bearer " = ["Bearer"]
  /\ gostrings.Split "a,b,c" "," = ["a" ; "b" ; "c"]
  /\ gostrings.Split "aaa" "aa" = ["" ; "a"]
  /\ gostrings.Split "xBearer a Bearer b" "Bearer " = ["x" ; "a " ; "b"].
Proof. vm_compute. repeat split. Qed.

Example EncodeString_examples :
  hash.EncodeString "" = "d41d8cd98f00b204e9800998ecf8427e"
  /\ hash.EncodeString "abc" = "900150983cd24fb0d6963f7d28e17f72"
  /\ hash.EncodeString "+12268213044" = "fd276563a8232d16620da8ec85d0575f"
  /\ hash.EncodeString "12345678901234567890123456789012345678901234567890123456789012345678901234567890"
     = "57edf4a22be3c955ac49da2e2107b67a".
Proof. vm_compute. repeat split. Qed.

(** *** [strconv] *)

Lemma digitOf_digitChar d : 0 <= d < 10 -> strconv.digitOf (strconv.digitChar d) = Some d.
Proof.
  intros H.
  assert (Hc : d = 0 \/ d = 1 \/ d = 2 \/ d = 3 \/ d = 4 \/ d = 5 \/ d = 6 \/ d = 7 \/ d = 8 \/ d = 9) by lia.
  repeat (destruct Hc as [-> | Hc]; [reflexivity |]). subst. reflexivity.
Qed.

Lemma parseDigits_snoc s c acc :
  strconv.parseDigits acc (s ++ String c EmptyString) =
  match strconv.parseDigits acc s, strconv.digitOf c with
  | Some v, Some d => Some (v * 10 + d)
  | _, _ => None
  end.
Proof.
  revert acc. induction s as [| a s IH]; intros acc; simpl.
  - destruct (strconv.digitOf c); reflexivity.
  - destruct (strconv.digitOf a); [apply IH | reflexivity].
Qed.

Lemma parseDigits_formatBits fuel n :
  0 <= n < 10 ^ (Z.of_nat fuel + 1) ->
  strconv.parseDigits 0 (strconv.formatBits fuel n) = Some n.
Proof.
  revert n. induction fuel as [| fuel IH]; intros n Hn.
  - simpl in *. rewrite Z.mod_small by lia. rewrite digitOf_digitChar by lia. f_equal; lia.
  - cbn [strconv.formatBits]. destruct (n <? 10) eqn:Hlt.
    + apply Z.ltb_lt in Hlt. simpl. rewrite digitOf_digitChar by lia. f_equal; lia.
    + apply Z.ltb_ge in Hlt. rewrite parseDigits_snoc.
      rewrite IH.
      * rewrite digitOf_digitChar by (apply Z.mod_pos_bound; lia).
        f_equal. pose proof (Z.div_mod n 10). lia.
      * split; [apply Z.div_pos; lia |].
        apply Z.div_lt_upper_bound; [lia |].
        replace (Z.of_nat (S fuel) + 1) with (Z.succ (Z.of_nat fuel + 1)) in Hn by lia.
        rewrite Z.pow_succ_r in Hn by lia. lia.
Qed.

Lemma formatBits_nonempty fuel n : strconv.formatBits fuel n <> EmptyString.
Proof.
  destruct fuel as [| fuel]; cbn [strconv.formatBits]; [discriminate |].
  destruct (n <? 10); [discriminate |].
  destruct (strconv.formatBits fuel (n / 10)); discriminate.
Qed.

Lemma formatBits_head_digit fuel n c s :
  0 <= n < 10 ^ (Z.of_nat fuel + 1) ->
  strconv.formatBits fuel n = String c s -> Ascii.eqb c "-" = false /\ Ascii.eqb c "+" = false.
Proof.
  intros Hn Heq. pose proof (parseDigits_formatBits fuel n Hn) as Hp.
  rewrite Heq in Hp. simpl in Hp.
  destruct (Ascii.eqb c "-") eqn:E1; [apply Ascii.eqb_eq in E1; subst; discriminate |].
  destruct (Ascii.eqb c "+") eqn:E2; [apply Ascii.eqb_eq in E2; subst; discriminate |].
  auto.
Qed.

Lemma log2_fuel n : 0 <= n -> n < 10 ^ (Z.of_nat (Z.to_nat (Z.log2 n)) + 1).
Proof.
  intros Hn. rewrite Z2Nat.id by apply Z.log2_nonneg.
  destruct (Z.eq_dec n 0) as [-> | Hz]; [reflexivity |].
  pose proof (Z.log2_spec n ltac:(lia)) as [_ Hub].
  eapply Z.lt_le_trans; [exact Hub |].
  replace (Z.succ (Z.log2 n)) with (Z.log2 n + 1) by lia.
  apply Z.pow_le_mono_l. lia.
Qed.

(** [Atoi] reads back what [Itoa] prints, for every value of [int]. *)
Lemma Atoi_Itoa z : strconv.inInt z -> strconv.Atoi (strconv.Itoa z) = Some z.
Proof.
  intros Hz. unfold strconv.Itoa.
  assert (Hb : strconv.inIntb z = true).
  { unfold strconv.inIntb, strconv.inInt in *. apply andb_true_iff. split; apply Z.leb_le; lia. }
  destruct (z <? 0) eqn:Hneg.
  - apply Z.ltb_lt in Hneg.
    pose proof (log2_fuel (- z) ltac:(lia)) as Hf.
    assert (Hnn : 0 <= - z) by lia.
    pose proof (parseDigits_formatBits _ _ (conj Hnn Hf)) as Hp.
    pose proof (formatBits_nonempty (Z.to_nat (Z.log2 (- z))) (- z)) as Hne.
    destruct (strconv.formatBits (Z.to_nat (Z.log2 (- z))) (- z)) as [| c s] eqn:E; [congruence |].
    unfold strconv.Atoi. replace (Ascii.eqb "-" "-") with true by reflexivity. cbn [orb].
    rewrite Hp. replace (- - z) with z by lia. rewrite Hb. reflexivity.
  - apply Z.ltb_ge in Hneg.
    pose proof (log2_fuel z Hneg) as Hf.
    pose proof (parseDigits_formatBits _ _ (conj Hneg Hf)) as Hp.
    pose proof (formatBits_nonempty (Z.to_nat (Z.log2 z)) z) as Hne.
    destruct (strconv.formatBits (Z.to_nat (Z.log2 z)) z) as [| c s] eqn:E; [congruence |].
    destruct (formatBits_head_digit _ _ _ _ (conj Hneg Hf) E) as [E1 E2].
    unfold strconv.Atoi. rewrite E1, E2. cbn [orb]. rewrite Hp, Hb. reflexivity.
Qed.

Lemma Atoi_inInt s z : strconv.Atoi s = Some z -> strconv.inInt z.
Proof.
  unfold strconv.Atoi. destruct s as [| c rest]; [discriminate |].
  destruct (if Ascii.eqb c "-" || Ascii.eqb c "+" then rest else String c rest); [discriminate |].
  destruct (strconv.parseDigits _ _); [| discriminate].
  destruct (strconv.inIntb _) eqn:Hb; [| discriminate].
  intros [= <-]. unfold strconv.inIntb in Hb. apply andb_true_iff in Hb as [H1 H2].
  apply Z.leb_le in H1, H2. split; assumption.
Qed.

Lemma wrap_inInt z : strconv.inInt z -> strconv.wrap z = z.
Proof.
  unfold strconv.inInt, strconv.wrap, strconv.minInt, strconv.maxInt. intros H.
  rewrite Z.mod_small; lia.
Qed.

(** *** The client: what a call may change *)

Lemma sameEnv_refl w : sameEnv w w.
Proof. repeat split. Qed.

Lemma sameEnv_trans w1 w2 w3 : sameEnv w1 w2 -> sameEnv w2 w3 -> sameEnv w1 w3.
Proof. unfold sameEnv. intros (?&?&?&?&?) (?&?&?&?&?). repeat split; congruence. Qed.

Lemma readOnly_refl w : readOnly w w.
Proof. repeat split. Qed.

Lemma readOnly_trans w1 w2 w3 : readOnly w1 w2 -> readOnly w2 w3 -> readOnly w1 w3.
Proof.
  intros (E1 & S1 & T1) (E2 & S2 & T2).
  split; [eapply sameEnv_trans; eassumption | split; congruence].
Qed.

Lemma readOnly_setFaults f w : readOnly w (setFaults f w).
Proof. repeat split. Qed.

Create HintDb world.
#[local] Hint Resolve sameEnv_refl readOnly_refl readOnly_setFaults : world.

(** A served call either fails with a scheduled fault, touching nothing
    but the schedule, or runs the operation on the same resources. *)
Lemma served_cases {A} (op : M World A) w r w' :
  client.served op w = (r, w') ->
  (exists err, r = inl err /\ readOnly w w') \/
  (exists w0, readOnly w w0 /\ op w0 = (r, w')).
Proof.
  unfold client.served. destruct (faults w) as [| [err |] rest] eqn:Hf; intros H.
  - right. exists w. auto with world.
  - left. injection H as <- <-. exists err. auto with world.
  - right. exists (setFaults rest w). auto with world.
Qed.

Lemma GetUserSignup_spec name w r w' :
  client.GetUserSignup name w = (r, w') ->
  readOnly w w' /\ forall s, r = inr s -> client.findSignup name (userSignups w) = Some s.
Proof.
  intros H. apply served_cases in H as [(err & -> & Hro) | (w0 & Hro & H)].
  - split; [exact Hro | discriminate].
  - pose proof Hro as (_ & Hs & _). rewrite <- Hs.
    destruct (client.findSignup name (userSignups w0)) eqn:Hfind; injection H as <- <-.
    + split; [exact Hro |]. intros s0 [= <-]. reflexivity.
    + split; [exact Hro | discriminate].
Qed.

Lemma ListBannedUsers_readOnly sel w r w' :
  client.ListBannedUsers sel w = (r, w') -> readOnly w w'.
Proof.
  intros H. apply served_cases in H as [(err & -> & Hro) | (w0 & Hro & H)]; [exact Hro |].
  injection H as <- <-. exact Hro.
Qed.

Lemma ListUserSignups_readOnly sel w r w' :
  client.ListUserSignups sel w = (r, w') -> readOnly w w'.
Proof.
  intros H. apply served_cases in H as [(err & -> & Hro) | (w0 & Hro & H)]; [exact Hro |].
  injection H as <- <-. exact Hro.
Qed.

Lemma GetSocialEvent_readOnly name w r w' :
  client.GetSocialEvent name w = (r, w') -> readOnly w w'.
Proof.
  intros H. apply served_cases in H as [(err & -> & Hro) | (w0 & Hro & H)]; [exact Hro |].
  destruct (find _ _); injection H as <- <-; exact Hro.
Qed.

Lemma findSignup_Name name l s : client.findSignup name l = Some s -> Name s = name.
Proof.
  unfold client.findSignup. intros H. apply find_some in H as [_ H].
  apply String.eqb_eq in H. exact H.
Qed.

Lemma replaceSignup_find s l l' :
  client.replaceSignup s l = Some l' -> client.findSignup (Name s) l' = Some s.
Proof.
  revert l'. induction l as [| x l IH]; intros l'; simpl; [discriminate |].
  destruct (String.eqb (Name x) (Name s)) eqn:E.
  - intros [= <-]. unfold client.findSignup. simpl. rewrite String.eqb_refl. reflexivity.
  - destruct (client.replaceSignup s l) as [l0 |]; [| discriminate].
    intros [= <-]. unfold client.findSignup in *. simpl. rewrite E. apply IH. reflexivity.
Qed.

Lemma replaceSignup_of_find s l s0 :
  client.findSignup (Name s) l = Some s0 -> exists l', client.replaceSignup s l = Some l'.
Proof.
  unfold client.findSignup. induction l as [| x l IH]; simpl; [discriminate |].
  destruct (String.eqb (Name x) (Name s)); [eauto |].
  intros H. destruct (IH H) as [l' ->]. simpl. eauto.
Qed.

Lemma UpdateUserSignup_spec s w r w' :
  client.UpdateUserSignup s w = (r, w') ->
  sameEnv w w' /\ trace w' = UpdateCall s :: trace w /\
  match r with
  | inl _ => userSignups w' = userSignups w
  | inr _ => client.replaceSignup s (userSignups w) = Some (userSignups w')
  end.
Proof.
  unfold client.UpdateUserSignup, bind, modify. intros H.
  apply served_cases in H as [(err & -> & (He & Hs & Ht)) | (w0 & (He & Hs & Ht) & H)].
  - repeat split; try apply He; assumption.
  - simpl in Hs. rewrite Hs in H.
    destruct (client.replaceSignup s (userSignups w)) as [l |]; injection H as <- <-;
      (split; [exact He |]; split; [exact Ht |]); simpl; congruence.
Qed.

(** *** The update loop *)

Section Poll.
Context {S : Type} (retriable : error -> bool).

(** The loop returns what its last invocation returned; every earlier
    invocation failed, so an invariant of failing invocations holds where
    the last one starts. *)
Lemma pollUpdate_last (I : S -> Prop) (updater : M S unit) n s r s' :
  I s ->
  (forall s1 err s2, I s1 -> updater s1 = (inl err, s2) -> I s2) ->
  pollUpdate retriable n updater s = (r, s') ->
  exists s0, I s0 /\ updater s0 = (r, s').
Proof.
  intros HI Hstep. revert s HI. induction n as [| n IH]; intros s HI; simpl.
  - destruct (updater s) as [[err | []] s1] eqn:Hu; intros [= <- <-]; eauto.
  - destruct (updater s) as [[err | []] s1] eqn:Hu.
    + destruct (retriable err).
      * intros H. eapply IH; [| exact H]. eapply Hstep; eassumption.
      * intros [= <- <-]. eauto.
    + intros [= <- <-]. eauto.
Qed.

(** A property that every invocation preserves holds after the loop. *)
Lemma pollUpdate_preserves (I : S -> Prop) (updater : M S unit) n s r s' :
  I s ->
  (forall s1 r1 s2, I s1 -> updater s1 = (r1, s2) -> I s2) ->
  pollUpdate retriable n updater s = (r, s') -> I s'.
Proof.
  intros HI Hstep H.
  destruct (pollUpdate_last I updater n s r s' HI) as (s0 & HI0 & Hu); eauto.
Qed.

End Poll.

Lemma onlyUpdates_refl w : onlyUpdates w w.
Proof. exists []. split; [reflexivity | constructor]. Qed.

Lemma onlyUpdates_trans w1 w2 w3 : onlyUpdates w1 w2 -> onlyUpdates w2 w3 -> onlyUpdates w1 w3.
Proof.
  intros (c1 & H1 & F1) (c2 & H2 & F2). exists (c2 ++ c1)%list. split.
  - rewrite H2, H1. apply app_assoc.
  - apply Forall_app. auto.
Qed.

Lemma updateWith_spec name f w r w' :
  updateWith name f w = (r, w') ->
  sameEnv w w' /\ onlyUpdates w w' /\
  match r with
  | inl _ => userSignups w' = userSignups w
  | inr _ =>
      exists s0, client.findSignup name (userSignups w) = Some s0 /\
                 client.replaceSignup (f s0) (userSignups w) = Some (userSignups w') /\
                 trace w' = UpdateCall (f s0) :: trace w
  end.
Proof.
  unfold updateWith, bind. destruct (client.GetUserSignup name w) as [[err | s0] w1] eqn:HG.
  - intros [= <- <-]. apply GetUserSignup_spec in HG as [(He & Hs & Ht) _].
    split; [exact He |]. split; [| exact Hs]. exists []. split; [exact Ht | constructor].
  - intros HU. apply GetUserSignup_spec in HG as [(He & Hs & Ht) Hfind].
    specialize (Hfind s0 eq_refl).
    apply UpdateUserSignup_spec in HU as (He' & Ht' & Hr).
    split; [eapply sameEnv_trans; eassumption |]. split.
    + exists [UpdateCall (f s0)]. split; [rewrite Ht', Ht; reflexivity |].
      repeat constructor.
    + destruct r as [err | []].
      * congruence.
      * exists s0. rewrite Hs in Hr. repeat split; try assumption. congruence.
Qed.

(** The update loop over such a closure: on failure nothing is stored; on
    success the loaded signup, changed, is what the namespace holds under
    its name, and the last event is the call that stored it. *)
Lemma poll_updateWith retriable n name f w r w' :
  pollUpdate retriable n (updateWith name f) w = (r, w') ->
  sameEnv w w' /\ onlyUpdates w w' /\
  match r with
  | inl _ => userSignups w' = userSignups w
  | inr _ =>
      exists s0 calls,
        client.findSignup name (userSignups w) = Some s0 /\
        client.replaceSignup (f s0) (userSignups w) = Some (userSignups w') /\
        trace w' = (UpdateCall (f s0) :: calls ++ trace w)%list /\ Forall isUpdateCall calls
  end.
Proof.
  intros H.
  destruct (pollUpdate_last retriable
              (fun w1 => sameEnv w w1 /\ onlyUpdates w w1 /\ userSignups w1 = userSignups w)
              (updateWith name f) n w r w') as (w0 & (He & Ht & Hs) & Hu).
  - auto using sameEnv_refl, onlyUpdates_refl.
  - intros w1 err w2 (He & Ht & Hs) Hu. apply updateWith_spec in Hu as (He' & Ht' & Hs').
    split; [eapply sameEnv_trans; eassumption |].
    split; [eapply onlyUpdates_trans; eassumption | congruence].
  - exact H.
  - apply updateWith_spec in Hu as (He' & Ht' & Hr).
    split; [eapply sameEnv_trans; eassumption |].
    split; [eapply onlyUpdates_trans; eassumption |].
    destruct r as [err | []]; [congruence |]. rewrite Hs in Hr.
    destruct Hr as (s0 & Hfind & Hrep & Htr). destruct Ht as (calls & Hcalls & Hall).
    exists s0, calls. rewrite Htr, Hcalls. auto.
Qed.

(** *** [VerifyPhoneCode] *)

Lemma PhoneNumberAlreadyInUse_readOnly username phone w r w' :
  PhoneNumberAlreadyInUse username phone w = (r, w') -> readOnly w w'.
Proof.
  unfold PhoneNumberAlreadyInUse, bind, attempt, throw, ret.
  destruct (client.ListBannedUsers _ w) as [[err | banned] w1] eqn:HB;
    apply ListBannedUsers_readOnly in HB.
  - intros [= <- <-]. exact HB.
  - destruct (0 <? _); [intros [= <- <-]; exact HB |].
    destruct (client.ListUserSignups _ w1) as [[err | signups] w2] eqn:HL;
      apply ListUserSignups_readOnly in HL.
    + intros [= <- <-]. eapply readOnly_trans; eassumption.
    + destruct (existsb _ _); intros [= <- <-]; eapply readOnly_trans; eassumption.
Qed.

(** Deleting a list of keys from a map, key by key. *)
Lemma fold_delete_lookup (ks : list string) (m : gmap string string) (k : string) :
  fold_left (fun m k' => delete k' m) ks m !! k = if bool_decide (k ∈ ks) then None else m !! k.
Proof.
  revert m. induction ks as [| k0 ks IH]; intros m; simpl.
  - reflexivity.
  - rewrite IH. destruct (bool_decide (k ∈ ks)) eqn:E.
    + apply bool_decide_eq_true in E. rewrite bool_decide_eq_true_2 by (right; exact E). reflexivity.
    + apply bool_decide_eq_false in E. destruct (decide (k = k0)) as [-> | Hne].
      * rewrite bool_decide_eq_true_2 by left. apply lookup_delete_eq.
      * rewrite bool_decide_eq_false_2.
        -- apply lookup_delete_ne. congruence.
        -- intros Hin. apply elem_of_cons in Hin as [? | ?]; contradiction.
Qed.

Lemma verifyDoUpdate_updateWith svc username unset values deletes :
  verifyDoUpdate svc username unset values deletes =
  updateWith (EncodeUserIdentifier svc username)
    (fun signup =>
       withAnnotations (fun annotations => fold_left (fun m k => delete k m) deletes annotations)
         (withAnnotations (fun annotations => values ∪ annotations)
            (if unset then states.SetVerificationRequired signup false else signup))).
Proof. reflexivity. Qed.

Lemma initDoUpdate_updateWith svc username labelValues annotationValues :
  initDoUpdate svc username labelValues annotationValues =
  updateWith (EncodeUserIdentifier svc username)
    (fun signup =>
       withAnnotations (fun annotations => annotationValues ∪ annotations)
         (withLabels (fun labels => labelValues ∪ labels) signup)).
Proof. reflexivity. Qed.

Lemma SetVerificationRequired_false s :
  states.VerificationRequired (states.SetVerificationRequired s false) = false.
Proof.
  unfold states.VerificationRequired, states.SetVerificationRequired, states.setState, states.contains.
  simpl. apply bool_decide_eq_false. rewrite elem_of_difference, elem_of_singleton.
  intros [_ H]. apply H. reflexivity.
Qed.

(** How [VerifyPhoneCode] runs once the signup is loaded, the captcha gate
    passed and the phone found free. *)
Lemma VerifyPhoneCode_run svc username code w signup w1 w2 :
  client.GetUserSignup (EncodeUserIdentifier svc username) w = (inr signup, w1) ->
  reactivationCheck svc signup = None ->
  PhoneNumberAlreadyInUse username (index (Labels signup) UserSignupUserPhoneHashLabelKey) w1 = (inr tt, w2) ->
  VerifyPhoneCode svc username code w =
  let '(unset, values, deletes, verificationErr) := verifyPlan svc signup code (clock w2) in
  let '(r, w3) := PollUpdateSignup svc (verifyDoUpdate svc username unset values deletes) w2 in
  match r with
  | inl _ => (inl (ErrorString updateFailedMessage), w3)
  | inr _ => (match verificationErr with Some err => inl err | None => inr tt end, w3)
  end.
Proof.
  intros HG HR HP. unfold VerifyPhoneCode, bind, attempt, gets.
  rewrite HG, HR, HP.
  destruct (verifyPlan svc signup code (clock w2)) as [[[unset values] deletes] verificationErr].
  destruct (PollUpdateSignup svc _ w2) as [[err | []] w3]; [reflexivity |].
  destruct verificationErr; reflexivity.
Qed.

(** Every way [VerifyPhoneCode] can go. *)
Lemma VerifyPhoneCode_cases svc username code w r w' :
  VerifyPhoneCode svc username code w = (r, w') ->
  (exists err, client.GetUserSignup (EncodeUserIdentifier svc username) w = (inl err, w') /\
     r = inl (CrtError
                (if IsNotFound err then NewNotFoundError err "user not found"
                 else NewInternalError err ("error retrieving usersignup with username '" ++ username ++ "'"))))
  \/
  exists signup w1, client.GetUserSignup (EncodeUserIdentifier svc username) w = (inr signup, w1) /\
    ((exists err, reactivationCheck svc signup = Some err /\ r = inl err /\ w' = w1)
     \/
     (reactivationCheck svc signup = None /\
      ((exists err, PhoneNumberAlreadyInUse username (index (Labels signup) UserSignupUserPhoneHashLabelKey) w1
                    = (inl err, w') /\
                    r = inl (NewBadRequest "phone number already in use"
                               "the phone number provided for this signup is already in use by an active account" : error))
       \/
       (exists w2, PhoneNumberAlreadyInUse username (index (Labels signup) UserSignupUserPhoneHashLabelKey) w1
                   = (inr tt, w2))))).
Proof.
  unfold VerifyPhoneCode at 1. unfold bind at 1. unfold attempt at 1.
  destruct (client.GetUserSignup _ w) as [[err | signup] w1] eqn:HG.
  - intros H. left. exists err. destruct (IsNotFound err); injection H as <- <-; auto.
  - intros H. right. exists signup, w1. split; [reflexivity |].
    destruct (reactivationCheck svc signup) as [err |] eqn:HR.
    + injection H as <- <-. left. eauto.
    + right. split; [reflexivity |]. unfold bind at 1 in H. unfold attempt at 1 in H.
      destruct (PhoneNumberAlreadyInUse _ _ w1) as [[err | []] w2] eqn:HP.
      * injection H as <- <-. left. eauto.
      * right. eauto.
Qed.

(** [verifyPlan] finds no error exactly on the successful path. *)
Lemma verifyPlan_success svc signup code now unset values deletes :
  verifyPlan svc signup code now = (unset, values, deletes, None) ->
  unset = true /\ values = ∅ /\ deletes = verificationAnnotations /\
  code = index (Annotations signup) UserSignupVerificationCodeAnnotationKey /\
  (exists n, strconv.Atoi (index (Annotations signup) UserVerificationAttemptsAnnotationKey) = Some n /\
             n < AttemptsAllowed (cfg svc)) /\
  (exists exp, time_Parse svc (index (Annotations signup) UserVerificationExpiryAnnotationKey) = inr exp /\
               now <= exp).
Proof.
  unfold verifyPlan.
  destruct (strconv.Atoi _) as [n |] eqn:HA.
  - destruct (n >=? AttemptsAllowed (cfg svc)) eqn:Hge; [discriminate |].
    destruct (time_Parse svc _) as [perr | exp] eqn:HT; [discriminate |].
    destruct (now >? exp) eqn:Hexp; [discriminate |].
    destruct (negb (String.eqb code _)) eqn:Hc; [discriminate |].
    intros [= <- <- <-]. apply negb_false_iff, String.eqb_eq in Hc.
    repeat split; try reflexivity; try assumption.
    + exists n. split; [reflexivity | lia].
    + exists exp. split; [reflexivity | lia].
  - rewrite Z.geb_leb, Z.leb_refl. discriminate.
Qed.

(** [verifyPlan] on a wrong code, with attempts left and the code not
    expired. *)
Lemma verifyPlan_mismatch svc signup code now n exp :
  strconv.Atoi (index (Annotations signup) UserVerificationAttemptsAnnotationKey) = Some n ->
  n < AttemptsAllowed (cfg svc) ->
  time_Parse svc (index (Annotations signup) UserVerificationExpiryAnnotationKey) = inr exp ->
  now <= exp ->
  code <> index (Annotations signup) UserSignupVerificationCodeAnnotationKey ->
  verifyPlan svc signup code now =
  (false, <[UserVerificationAttemptsAnnotationKey := strconv.Itoa (strconv.wrap (n + 1))]> ∅, [],
   Some (NewForbiddenError "invalid code" "the provided code is invalid" : error)).
Proof.
  intros HA Hn HT Hexp Hc. unfold verifyPlan. rewrite HA, HT.
  replace (n >=? AttemptsAllowed (cfg svc)) with false by (symmetry; rewrite Z.geb_leb; apply Z.leb_gt; lia).
  replace (now >? exp) with false by (symmetry; rewrite Z.gtb_ltb; apply Z.ltb_ge; lia).
  apply String.eqb_neq in Hc. rewrite Hc. reflexivity.
Qed.

(** C1.  Every successful [VerifyPhoneCode]: the code was the stored one,
    attempts were left and the code had not expired; and the UserSignup
    that results has the state [verification-required] unset and none of
    the five verification annotations. *)
Theorem VerifyPhoneCode_success_clears_verification svc username code w w' :
  VerifyPhoneCode svc username code w = (inr tt, w') ->
  exists signup signup',
    client.findSignup (EncodeUserIdentifier svc username) (userSignups w) = Some signup /\
    reactivationCheck svc signup = None /\
    code = index (Annotations signup) UserSignupVerificationCodeAnnotationKey /\
    (exists n, strconv.Atoi (index (Annotations signup) UserVerificationAttemptsAnnotationKey) = Some n /\
               n < AttemptsAllowed (cfg svc)) /\
    (exists exp, time_Parse svc (index (Annotations signup) UserVerificationExpiryAnnotationKey) = inr exp /\
                 clock w <= exp) /\
    client.findSignup (EncodeUserIdentifier svc username) (userSignups w') = Some signup' /\
    states.VerificationRequired signup' = false /\
    Annotations signup' !! UserSignupVerificationCodeAnnotationKey = None /\
    Annotations signup' !! UserVerificationAttemptsAnnotationKey = None /\
    Annotations signup' !! UserSignupVerificationCounterAnnotationKey = None /\
    Annotations signup' !! UserSignupVerificationInitTimestampAnnotationKey = None /\
    Annotations signup' !! UserVerificationExpiryAnnotationKey = None.
Proof.
  intros H. pose proof H as Hc.
  apply VerifyPhoneCode_cases in Hc
    as [(err & _ & Hr) | (signup & w1 & HG & [(err & _ & Hr & _) | (HR & [(err & _ & Hr) | (w2 & HP)])])];
    try discriminate.
  rewrite (VerifyPhoneCode_run _ _ _ _ _ _ _ HG HR HP) in H.
  destruct (verifyPlan svc signup code (clock w2)) as [[[unset values] deletes] verr] eqn:Hplan.
  destruct (PollUpdateSignup svc _ w2) as [[err | []] w3] eqn:Hpoll; [discriminate |].
  destruct verr as [err |]; [discriminate |]. injection H as <-.
  apply verifyPlan_success in Hplan as (-> & -> & -> & Hcode & Hatt & Hexp).
  apply GetUserSignup_spec in HG as [(He1 & Hs1 & _) Hfind]. specialize (Hfind _ eq_refl).
  apply PhoneNumberAlreadyInUse_readOnly in HP as ((_ & _ & _ & _ & Hclock) & Hs2 & _).
  destruct He1 as (_ & _ & _ & _ & Hclock1).
  unfold PollUpdateSignup in Hpoll. rewrite verifyDoUpdate_updateWith in Hpoll.
  apply poll_updateWith in Hpoll as (_ & _ & (s0 & calls0 & Hfind0 & Hrep & _)).
  rewrite Hs2, Hs1, Hfind in Hfind0. injection Hfind0 as <-.
  apply replaceSignup_find in Hrep. cbn [Name withAnnotations] in Hrep.
  replace (Name (states.SetVerificationRequired signup false)) with (Name signup) in Hrep by reflexivity.
  rewrite (findSignup_Name _ _ _ Hfind) in Hrep.
  rewrite Hclock, Hclock1 in Hexp.
  eexists signup, _. split; [exact Hfind |]. split; [exact HR |]. split; [exact Hcode |].
  split; [exact Hatt |]. split; [exact Hexp |]. split; [exact Hrep |].
  split; [apply SetVerificationRequired_false |].
  cbn [Annotations withAnnotations].
  repeat split; rewrite fold_delete_lookup; reflexivity.
Qed.

(** The successful call of the example: the right code, in time. *)
Lemma VerifyPhoneCode_success_witness :
  let w := example.world [example.johnny] [] in
  let w' := snd (VerifyPhoneCode example.service "johnny" "999888" w) in
  VerifyPhoneCode example.service "johnny" "999888" w = (inr tt, w') /\
  exists signup',
    client.findSignup "johnny" (userSignups w') = Some signup' /\
    states.VerificationRequired signup' = false /\
    Annotations signup' !! UserSignupVerificationCodeAnnotationKey = None /\
    Annotations signup' !! UserVerificationAttemptsAnnotationKey = None /\
    Annotations signup' !! UserSignupVerificationCounterAnnotationKey = None /\
    Annotations signup' !! UserSignupVerificationInitTimestampAnnotationKey = None /\
    Annotations signup' !! UserVerificationExpiryAnnotationKey = None.
Proof.
  intros w w'.
  assert (H : VerifyPhoneCode example.service "johnny" "999888" w = (inr tt, w'))
    by (vm_compute; reflexivity).
  split; [exact H |].
  destruct (VerifyPhoneCode_success_clears_verification example.service "johnny" "999888" w w' H)
    as (signup & signup' & _ & _ & _ & _ & _ & Hfind & Hrest).
  exists signup'. split; [exact Hfind | exact Hrest].
Defined.

(** C2.  A call with a wrong code, attempts left and the code not expired:
    unless the update loop fails (and the call with it, for that reason), the
    call fails with the 403 "the provided code is invalid", and the stored
    [verification_attempts] is then the old count plus one. *)
Theorem VerifyPhoneCode_mismatch_counts_attempt svc username code w signup w1 w2 n exp r w' :
  AttemptsAllowed (cfg svc) <= strconv.maxInt ->
  client.GetUserSignup (EncodeUserIdentifier svc username) w = (inr signup, w1) ->
  reactivationCheck svc signup = None ->
  PhoneNumberAlreadyInUse username (index (Labels signup) UserSignupUserPhoneHashLabelKey) w1 = (inr tt, w2) ->
  strconv.Atoi (index (Annotations signup) UserVerificationAttemptsAnnotationKey) = Some n ->
  n < AttemptsAllowed (cfg svc) ->
  time_Parse svc (index (Annotations signup) UserVerificationExpiryAnnotationKey) = inr exp ->
  clock w <= exp ->
  code <> index (Annotations signup) UserSignupVerificationCodeAnnotationKey ->
  VerifyPhoneCode svc username code w = (r, w') ->
  (r = inl (NewForbiddenError "invalid code" "the provided code is invalid" : error) \/
   r = inl (ErrorString updateFailedMessage) /\ userSignups w' = userSignups w) /\
  httpCode (NewForbiddenError "invalid code" "the provided code is invalid") = Some crterrors.StatusForbidden /\
  (r = inl (NewForbiddenError "invalid code" "the provided code is invalid" : error) ->
   exists signup',
     client.findSignup (EncodeUserIdentifier svc username) (userSignups w') = Some signup' /\
     strconv.Atoi (index (Annotations signup') UserVerificationAttemptsAnnotationKey) = Some (n + 1)).
Proof.
  intros Hmax HG HR HP HA Hn HT Hexp Hc H.
  rewrite (VerifyPhoneCode_run _ _ _ _ _ _ _ HG HR HP) in H.
  apply GetUserSignup_spec in HG as [(He1 & Hs1 & _) Hfind]. specialize (Hfind _ eq_refl).
  apply PhoneNumberAlreadyInUse_readOnly in HP as ((_ & _ & _ & _ & Hclock) & Hs2 & _).
  destruct He1 as (_ & _ & _ & _ & Hclock1).
  rewrite (verifyPlan_mismatch svc signup code (clock w2) n exp) in H
    by (try assumption; rewrite Hclock, Hclock1; assumption).
  destruct (PollUpdateSignup svc _ w2) as [[err | []] w3] eqn:Hpoll; injection H as <- <-;
    unfold PollUpdateSignup in Hpoll; rewrite verifyDoUpdate_updateWith in Hpoll;
    apply poll_updateWith in Hpoll as (_ & _ & Hstore).
  - split; [right; split; [reflexivity | congruence] |]. split; [reflexivity |]. discriminate.
  - split; [left; reflexivity |]. split; [reflexivity |]. intros _.
    destruct Hstore as (s0 & calls0 & Hfind0 & Hrep & _).
    rewrite Hs2, Hs1, Hfind in Hfind0. injection Hfind0 as <-.
    apply replaceSignup_find in Hrep. cbn [Name withAnnotations] in Hrep.
    rewrite (findSignup_Name _ _ _ Hfind) in Hrep.
    eexists. split; [exact Hrep |].
    cbn [Annotations withAnnotations fold_left]. unfold index.
    erewrite lookup_union_Some_l by apply lookup_insert_eq. cbn [default].
    pose proof (Atoi_inInt _ _ HA) as Hin.
    assert (Hin' : strconv.inInt (n + 1)) by (unfold strconv.inInt in *; lia).
    rewrite wrap_inInt by exact Hin'. apply Atoi_Itoa. exact Hin'.
Qed.

(** A wrong code at the first attempt: the stored count goes from 0 to 1. *)
Lemma VerifyPhoneCode_mismatch_witness :
  let w := example.world [example.johnny] [] in
  let w' := snd (VerifyPhoneCode example.service "johnny" "111111" w) in
  fst (VerifyPhoneCode example.service "johnny" "111111" w)
    = inl (NewForbiddenError "invalid code" "the provided code is invalid" : error) /\
  exists signup',
    client.findSignup "johnny" (userSignups w') = Some signup' /\
    strconv.Atoi (index (Annotations signup') UserVerificationAttemptsAnnotationKey) = Some (0 + 1).
Proof.
  intros w w'.
  assert (Hr : fst (VerifyPhoneCode example.service "johnny" "111111" w)
               = inl (NewForbiddenError "invalid code" "the provided code is invalid" : error))
    by (vm_compute; reflexivity).
  split; [exact Hr |].
  refine (proj2 (proj2
    (VerifyPhoneCode_mismatch_counts_attempt example.service "johnny" "111111" w example.johnny w w 0 2000
       (fst (VerifyPhoneCode example.service "johnny" "111111" w)) w'
       _ _ _ _ _ _ _ _ _ _)) Hr).
  - vm_compute. discriminate.
  - vm_compute. reflexivity.
  - vm_compute. reflexivity.
  - vm_compute. reflexivity.
  - vm_compute. reflexivity.
  - vm_compute. reflexivity.
  - vm_compute. reflexivity.
  - vm_compute. discriminate.
  - vm_compute. discriminate.
  - vm_compute. reflexivity.
Defined.

Lemma reactivationCheck_gateSkipped svc signup :
  reactivationCheck svc signup =
  if gateSkipped svc signup then None else checkRequiredManualApproval svc signup.
Proof.
  unfold reactivationCheck, gateSkipped.
  destruct (Annotations signup !! UserSignupActivationCounterAnnotationKey) as [c |];
    destruct (CaptchaAllowLowScoreReactivation (cfg svc)); cbn [andb]; try reflexivity.
  destruct (strconv.Atoi c) as [n |]; [| reflexivity].
  destruct (n =? 1); reflexivity.
Qed.

Lemma checkRequiredManualApproval_low svc signup score f :
  Annotations signup !! UserSignupCaptchaScoreAnnotationKey = Some score ->
  ParseFloat32 svc score = inr f ->
  PrimFloat.ltb f (CaptchaRequiredScore (cfg svc)) = true ->
  checkRequiredManualApproval svc signup = Some captchaGateError.
Proof. intros H1 H2 H3. unfold checkRequiredManualApproval. rewrite H1, H2, H3. reflexivity. Qed.

(** No later step of [VerifyPhoneCode] produces the error of the gate. *)
Lemma verifyPlan_not_gate svc signup code now unset values deletes :
  verifyPlan svc signup code now <> (unset, values, deletes, Some captchaGateError).
Proof.
  unfold verifyPlan.
  destruct (strconv.Atoi _) as [n |].
  - destruct (n >=? AttemptsAllowed (cfg svc)); [intros [=] |].
    destruct (time_Parse svc _) as [perr | exp]; [intros [=] |].
    destruct (now >? exp); [intros [=] |].
    destruct (negb (String.eqb code _)); intros [=].
  - rewrite Z.geb_leb, Z.leb_refl. intros [=].
Qed.

(** The captcha gate as the code runs it.  Once the signup is loaded:
    when [gateSkipped] holds the call never fails with the error of the
    gate; in every other case a captcha score that parses below the required
    score makes the call fail with the 403 "verification is not available
    at this time". *)
Lemma VerifyPhoneCode_captcha_gate svc username code w signup w1 :
  client.GetUserSignup (EncodeUserIdentifier svc username) w = (inr signup, w1) ->
  (gateSkipped svc signup = true ->
   fst (VerifyPhoneCode svc username code w) <> inl captchaGateError) /\
  (gateSkipped svc signup = false ->
   forall score f,
     Annotations signup !! UserSignupCaptchaScoreAnnotationKey = Some score ->
     ParseFloat32 svc score = inr f ->
     PrimFloat.ltb f (CaptchaRequiredScore (cfg svc)) = true ->
     VerifyPhoneCode svc username code w = (inl captchaGateError, w1)) /\
  httpCode captchaGateError = Some crterrors.StatusForbidden.
Proof.
  intros HG. split; [| split; [| reflexivity]].
  - intros Hskip.
    assert (HR : reactivationCheck svc signup = None)
      by (rewrite reactivationCheck_gateSkipped, Hskip; reflexivity).
    destruct (VerifyPhoneCode svc username code w) as [r w'] eqn:H. cbn [fst].
    pose proof H as Hc.
    apply VerifyPhoneCode_cases in Hc
      as [(err & HG' & _) | (signup' & w1' & HG' & [(err & HR' & _) | (_ & [(err & _ & ->) | (w2 & HP)])])];
      rewrite HG in HG'; try discriminate; injection HG' as <- <-.
    + congruence.
    + rewrite (VerifyPhoneCode_run _ _ _ _ _ _ _ HG HR HP) in H.
      destruct (verifyPlan svc signup code (clock w2)) as [[[unset values] deletes] verr] eqn:Hplan.
      destruct (PollUpdateSignup svc _ w2) as [[err | []] w3]; injection H as <- <-; [intros [=] |].
      destruct verr as [err |]; [| intros [=]].
      intros [= ->]. exact (verifyPlan_not_gate _ _ _ _ _ _ _ Hplan).
  - intros Hskip score f H1 H2 H3.
    unfold VerifyPhoneCode, bind, attempt. rewrite HG.
    rewrite reactivationCheck_gateSkipped, Hskip.
    rewrite (checkRequiredManualApproval_low _ _ _ _ H1 H2 H3). reflexivity.
Qed.

(** C3 on the code.  The first block of [VerifyPhoneCode] skips the
    captcha gate exactly when [gateSkipped] holds, that is for every
    activation counter that reads as an integer other than 1.  The spec
    skips it for a counter greater than 1 only, and the two differ exactly
    when low-score reactivation is allowed and the counter reads as 0 or
    less: no reactivation, and yet no gate.  So with the counter 0 and the
    captcha score 0.25, below the required 0.5, where the gate gives the 403
    when it is applied, the call succeeds. *)
Theorem VerifyPhoneCode_captcha_gate_slip :
  (forall svc signup,
     reactivationCheck svc signup =
     if gateSkipped svc signup then None else checkRequiredManualApproval svc signup) /\
  (forall svc signup,
     gateSkipped svc signup <> specGateSkipped svc signup <->
     CaptchaAllowLowScoreReactivation (cfg svc) = true /\
     exists activationCounter n,
       Annotations signup !! UserSignupActivationCounterAnnotationKey = Some activationCounter /\
       strconv.Atoi activationCounter = Some n /\ n <= 0) /\
  Annotations example.lowScore !! UserSignupActivationCounterAnnotationKey = Some "0" /\
  specGateSkipped example.service example.lowScore = false /\
  checkRequiredManualApproval example.service example.lowScore = Some captchaGateError /\
  httpCode captchaGateError = Some crterrors.StatusForbidden /\
  fst (VerifyPhoneCode example.service "johnny" "999888" (example.world [example.lowScore] [])) = inr tt.
Proof.
  split; [exact reactivationCheck_gateSkipped |].
  split; [| repeat split; vm_compute; reflexivity].
  intros svc signup. unfold gateSkipped, specGateSkipped.
  destruct (CaptchaAllowLowScoreReactivation (cfg svc)); cbn [andb].
  2: { split; [intros H; contradiction H; reflexivity | intros [[=] _]]. }
  destruct (Annotations signup !! UserSignupActivationCounterAnnotationKey) as [c |] eqn:Hc.
  2: { split; [intros H; contradiction H; reflexivity | intros (_ & c & n & [=] & _)]. }
  destruct (strconv.Atoi c) as [n |] eqn:HA.
  2: { split; [intros H; contradiction H; reflexivity |].
       intros (_ & c' & n & Hc' & HA' & _). congruence. }
  split.
  - intros Hne. split; [reflexivity |]. exists c, n. split; [reflexivity |]. split; [exact HA |].
    destruct (Z.eqb_spec n 1) as [-> | Hn1]; [contradiction Hne; reflexivity |].
    destruct (Z.gtb_spec n 1) as [Hgt | Hle]; [contradiction Hne; reflexivity | lia].
  - intros (_ & c' & n' & Hc' & HA' & Hle).
    assert (n' = n) by congruence. subst n'.
    destruct (Z.eqb_spec n 1) as [-> | Hn1]; [lia |].
    destruct (Z.gtb_spec n 1) as [Hgt | Hle']; [lia | discriminate].
Qed.

(** C5, as the code has it.  When the phone check of [VerifyPhoneCode]
    fails, the call returns the 400 "phone number already in use". *)
Theorem VerifyPhoneCode_phone_in_use svc username code w signup w1 err w2 :
  client.GetUserSignup (EncodeUserIdentifier svc username) w = (inr signup, w1) ->
  reactivationCheck svc signup = None ->
  PhoneNumberAlreadyInUse username (index (Labels signup) UserSignupUserPhoneHashLabelKey) w1 = (inl err, w2) ->
  VerifyPhoneCode svc username code w =
    (inl (NewBadRequest "phone number already in use"
            "the phone number provided for this signup is already in use by an active account" : error), w2) /\
  httpCode (NewBadRequest "phone number already in use"
              "the phone number provided for this signup is already in use by an active account")
    = Some crterrors.StatusBadRequest.
Proof.
  intros HG HR HP. split; [| reflexivity].
  unfold VerifyPhoneCode, bind, attempt. rewrite HG, HR, HP. reflexivity.
Qed.

(** C5 as stated fails: another approved, active signup has the same
    phone hash, and the status of the error is 400, not 403. *)
Lemma VerifyPhoneCode_phone_in_use_counterexample :
  fst (PhoneNumberAlreadyInUse "johnny" example.phoneHash (example.world [example.johnny; example.jane] []))
    = inl (NewForbiddenError "cannot re-register with phone number" "phone number already in use" : error) /\
  exists err,
    fst (VerifyPhoneCode example.service "johnny" "999888" (example.world [example.johnny; example.jane] []))
      = inl err /\
    httpCode err = Some 400 /\ httpCode err <> Some crterrors.StatusForbidden.
Proof.
  split; [vm_compute; reflexivity |].
  eexists. split; [vm_compute; reflexivity |]. split; [reflexivity | discriminate].
Qed.

(** Another approved signup holds the phone: the call fails with the 400. *)
Lemma VerifyPhoneCode_phone_in_use_witness :
  let w := example.world [example.johnny; example.jane] [] in
  VerifyPhoneCode example.service "johnny" "999888" w =
    (inl (NewBadRequest "phone number already in use"
            "the phone number provided for this signup is already in use by an active account" : error), w).
Proof.
  intros w.
  refine (proj1 (VerifyPhoneCode_phone_in_use example.service "johnny" "999888" w example.johnny w
                   (NewForbiddenError "cannot re-register with phone number" "phone number already in use")
                   w _ _ _)); vm_compute; reflexivity.
Defined.

(** *** [InitVerification] *)

(** How [InitVerification] runs once the signup is loaded, verification
    found required and the phone found free. *)
Lemma InitVerification_run svc username phone countryCode w signup w1 w2 :
  client.GetUserSignup (EncodeUserIdentifier svc username) w = (inr signup, w1) ->
  states.VerificationRequired signup = true ->
  PhoneNumberAlreadyInUse username phone w1 = (inr tt, w2) ->
  InitVerification svc username phone countryCode w =
  let '(labelValues, annotationValues, counter, initError) := initPlan svc signup phone (clock w2) in
  match initError with
  | Some err =>
      let '(r, w3) := PollUpdateSignup svc (initDoUpdate svc username labelValues annotationValues) w2 in
      (inl (match r with inl _ => ErrorString updateFailedMessage | inr _ => err end), w3)
  | None =>
      match generateVerificationCode w2 with
      | (inl err, w3) => (inl (NewInternalError err "error while generating verification code" : error), w3)
      | (inr verificationCode, w3) =>
          match SendNotification (Sprintf svc (MessageTemplate (cfg svc)) verificationCode)
                                 phone countryCode w3 with
          | (inl err, w4) => (inl (NewInternalError err "error while sending verification code" : error), w4)
          | (inr _, w4) =>
              let '(r, w5) :=
                PollUpdateSignup svc
                  (initDoUpdate svc username labelValues
                     (codeAnnotations svc (clock w2) counter verificationCode annotationValues)) w4 in
              (match r with inl _ => inl (ErrorString updateFailedMessage) | inr _ => inr tt end, w5)
          end
      end
  end.
Proof.
  intros HG HV HP. unfold InitVerification, bind at 1, attempt at 1. rewrite HG, HV. cbn [negb].
  unfold bind at 1, attempt at 1. rewrite HP. unfold bind at 1, gets at 1.
  destruct (initPlan svc signup phone (clock w2)) as [[[labelValues annotationValues] counter] initError].
  destruct initError as [err |].
  - unfold bind, ret, attempt.
    destruct (PollUpdateSignup svc _ w2) as [[e | []] w3]; reflexivity.
  - unfold bind at 1. unfold bind at 1, attempt at 1.
    destruct (generateVerificationCode w2) as [[gerr | verificationCode] w3]; [reflexivity |].
    unfold bind at 1, attempt at 1.
    destruct (SendNotification _ phone countryCode w3) as [[serr | []] w4]; [reflexivity |].
    unfold ret, bind, attempt, codeAnnotations.
    destruct (PollUpdateSignup svc _ w4) as [[e | []] w5]; reflexivity.
Qed.

(** The ways [InitVerification] ends before that point change nothing. *)
Lemma InitVerification_cases svc username phone countryCode w r w' :
  InitVerification svc username phone countryCode w = (r, w') ->
  (readOnly w w' /\ exists err, r = inl err /\ err <> dailyLimitError) \/
  exists signup w1 w2,
    client.GetUserSignup (EncodeUserIdentifier svc username) w = (inr signup, w1) /\
    states.VerificationRequired signup = true /\
    PhoneNumberAlreadyInUse username phone w1 = (inr tt, w2).
Proof.
  unfold InitVerification, bind at 1, attempt at 1.
  destruct (client.GetUserSignup _ w) as [[err | signup] w1] eqn:HG.
  - intros H. left. apply GetUserSignup_spec in HG as [Hro _].
    destruct (IsNotFound err); injection H as <- <-; (split; [exact Hro |]); eexists; (split; [reflexivity |]);
      discriminate.
  - pose proof HG as HG'. apply GetUserSignup_spec in HG' as [Hro _].
    destruct (states.VerificationRequired signup) eqn:HV; cbn [negb].
    + unfold bind at 1, attempt at 1.
      destruct (PhoneNumberAlreadyInUse username phone w1) as [[err | []] w2] eqn:HP.
      * intros H. left. apply PhoneNumberAlreadyInUse_readOnly in HP.
        assert (Hro' : readOnly w w2) by (eapply readOnly_trans; eassumption).
        destruct err as [e | |]; [destruct (crterrors.Code e =? crterrors.StatusForbidden) |..];
          injection H as <- <-; (split; [exact Hro' |]); eexists; (split; [reflexivity |]); discriminate.
      * intros _. right. exists signup, w1, w2. auto.
    + intros [= <- <-]. left. split; [exact Hro |]. eexists. split; [reflexivity | discriminate].
Qed.

Lemma generateVerificationCode_state w r w' : generateVerificationCode w = (r, w') -> w' = w.
Proof.
  unfold generateVerificationCode, bind, gets. destruct (entropy w); intros [= _ <-]; reflexivity.
Qed.

Lemma SendNotification_spec content phone countryCode w r w' :
  SendNotification content phone countryCode w = (r, w') ->
  w' = record (SentSMS content phone countryCode) w /\
  r = match smsFailure w with Some err => inl err | None => inr tt end.
Proof.
  unfold SendNotification, bind, modify, gets. cbn.
  destruct (smsFailure w); intros [= <- <-]; auto.
Qed.

(** The reset of the 24-hour window in [initPlan]. *)
Lemma initPlan_reset svc signup phone now labelValues annotationValues counter initError :
  initPlan svc signup phone now = (labelValues, annotationValues, counter, initError) ->
  ((exists err, time_Parse svc (index (Annotations signup) UserSignupVerificationInitTimestampAnnotationKey)
                = inl err) \/
   (exists ts, time_Parse svc (index (Annotations signup) UserSignupVerificationInitTimestampAnnotationKey)
               = inr ts /\ ts + 24 * Hour < now)) ->
  counter = 0 /\
  annotationValues !! UserSignupVerificationCounterAnnotationKey = Some "0" /\
  annotationValues !! UserSignupVerificationInitTimestampAnnotationKey = Some (time_Format svc now).
Proof.
  intros Hplan Hexp. unfold initPlan in Hplan.
  assert (Hb : match time_Parse svc (index (Annotations signup) UserSignupVerificationInitTimestampAnnotationKey) with
               | inl _ => true
               | inr ts => now >? ts + 24 * Hour
               end = true).
  { destruct Hexp as [(err & ->) | (ts & -> & Hlt)]; [reflexivity |]. rewrite Z.gtb_ltb. apply Z.ltb_lt. exact Hlt. }
  rewrite Hb in Hplan.
  destruct (negb (String.eqb _ "")) in Hplan; [destruct (strconv.Atoi _) in Hplan |];
    injection Hplan as <- <- <- <-;
    (split; [reflexivity |]; split; [apply lookup_insert_eq |]);
    (rewrite lookup_insert_ne by (apply String.eqb_neq; reflexivity)); apply lookup_insert_eq.
Qed.

Lemma initPlan_labels svc signup phone now labelValues annotationValues counter initError :
  initPlan svc signup phone now = (labelValues, annotationValues, counter, initError) ->
  labelValues = {[ UserSignupUserPhoneHashLabelKey := hash.EncodeString phone ]}.
Proof.
  unfold initPlan.
  destruct (negb (String.eqb _ "")); [destruct (strconv.Atoi _) |];
    (destruct (time_Parse svc _) as [perr | ts]; [| destruct (now >? ts + 24 * Hour)]);
    intros [= <- _ _ _]; reflexivity.
Qed.

(** [initError] is the daily-limit error, set exactly when the counter has
    reached the limit. *)
Lemma initPlan_initError svc signup phone now labelValues annotationValues counter initError :
  initPlan svc signup phone now = (labelValues, annotationValues, counter, initError) ->
  initError = if counter >=? DailyLimit (cfg svc) then Some dailyLimitError else None.
Proof.
  unfold initPlan.
  destruct (negb (String.eqb _ "")); [destruct (strconv.Atoi _) |];
    (destruct (time_Parse svc _) as [perr | ts]; [| destruct (now >? ts + 24 * Hour)]);
    intros [= _ _ <- <-]; reflexivity.
Qed.

(** C6, as the code has it.  With the signup loaded, verification
    required and the phone free: a timestamp that does not parse or is older
    than 24 hours resets the counter to 0 and the timestamp to now; and
    when the counter (after the reset) has reached the daily limit, no SMS
    is sent and the call fails with the 403 "daily limit exceeded", unless
    the update loop that runs before the return fails, in which case the
    call fails with the error of the update and nothing is stored. *)
Theorem InitVerification_daily_limit svc username phone countryCode w signup w1 w2 r w'
    labelValues annotationValues counter initError :
  client.GetUserSignup (EncodeUserIdentifier svc username) w = (inr signup, w1) ->
  states.VerificationRequired signup = true ->
  PhoneNumberAlreadyInUse username phone w1 = (inr tt, w2) ->
  initPlan svc signup phone (clock w) = (labelValues, annotationValues, counter, initError) ->
  InitVerification svc username phone countryCode w = (r, w') ->
  (((exists err, time_Parse svc (index (Annotations signup) UserSignupVerificationInitTimestampAnnotationKey)
                 = inl err) \/
    (exists ts, time_Parse svc (index (Annotations signup) UserSignupVerificationInitTimestampAnnotationKey)
                = inr ts /\ ts + 24 * Hour < clock w)) ->
   counter = 0 /\
   annotationValues !! UserSignupVerificationCounterAnnotationKey = Some "0" /\
   annotationValues !! UserSignupVerificationInitTimestampAnnotationKey = Some (time_Format svc (clock w))) /\
  (counter >= DailyLimit (cfg svc) ->
   onlyUpdates w w' /\
   (r = inl dailyLimitError \/
    r = inl (ErrorString updateFailedMessage) /\ userSignups w' = userSignups w)) /\
  httpCode dailyLimitError = Some crterrors.StatusForbidden.
Proof.
  intros HG HV HP Hplan H.
  split; [apply (initPlan_reset _ _ _ _ _ _ _ _ Hplan) |]. split; [| reflexivity].
  intros Hlimit.
  rewrite (InitVerification_run _ _ _ _ _ _ _ _ HG HV HP) in H.
  apply GetUserSignup_spec in HG as [(He1 & Hs1 & Ht1) _].
  apply PhoneNumberAlreadyInUse_readOnly in HP as (He2 & Hs2 & Ht2).
  assert (Hclock : clock w2 = clock w).
  { destruct He1 as (_ & _ & _ & _ & ?), He2 as (_ & _ & _ & _ & ?). congruence. }
  rewrite Hclock, Hplan in H.
  rewrite (initPlan_initError _ _ _ _ _ _ _ _ Hplan) in H.
  replace (counter >=? DailyLimit (cfg svc)) with true in H
    by (symmetry; rewrite Z.geb_leb; apply Z.leb_le; lia).
  destruct (PollUpdateSignup svc _ w2) as [rp w3] eqn:Hpoll. injection H as <- <-.
  unfold PollUpdateSignup in Hpoll. rewrite initDoUpdate_updateWith in Hpoll.
  apply poll_updateWith in Hpoll as (_ & (calls & Hcalls & Hall) & Hstore).
  split.
  - exists calls. split; [congruence | exact Hall].
  - destruct rp as [err | []]; [right; split; [reflexivity | congruence] | left; reflexivity].
Qed.

(** C6 as stated fails: the counter has reached the daily limit, the API
    server refuses every call of the update loop, and the call returns the
    error of the update, which is no 403. *)
Lemma InitVerification_daily_limit_counterexample :
  strconv.Atoi (index (Annotations example.atLimit) UserSignupVerificationCounterAnnotationKey) = Some 5 /\
  DailyLimit (cfg example.service) = 5 /\
  fst (InitVerification example.service "johnny" example.phone "1"
         (example.world [example.atLimit] example.updatesFail))
    = inl (ErrorString updateFailedMessage) /\
  httpCode (ErrorString updateFailedMessage) <> Some crterrors.StatusForbidden.
Proof. split; [| split; [| split]]; try (vm_compute; reflexivity). discriminate. Qed.

(** Five messages sent in the window, limit 5: the 403, and no SMS. *)
Lemma InitVerification_daily_limit_witness :
  let w := example.world [example.atLimit] [] in
  let w' := snd (InitVerification example.service "johnny" example.phone "1" w) in
  let r := fst (InitVerification example.service "johnny" example.phone "1" w) in
  5 >= DailyLimit (cfg example.service) /\
  onlyUpdates w w' /\
  (r = inl dailyLimitError \/ r = inl (ErrorString updateFailedMessage) /\ userSignups w' = userSignups w).
Proof.
  intros w w' r.
  assert (Hlimit : 5 >= DailyLimit (cfg example.service)) by (vm_compute; discriminate).
  split; [exact Hlimit |].
  refine (proj1 (proj2
    (InitVerification_daily_limit example.service "johnny" example.phone "1" w example.atLimit w w r w'
       {[ UserSignupUserPhoneHashLabelKey := example.phoneHash ]} ∅ 5 (Some dailyLimitError)
       _ _ _ _ _)) Hlimit); vm_compute; reflexivity.
Defined.

(** C7.  In every run of [InitVerification] the SMS, if one is sent,
    precedes every update call; and when the SMS provider fails the send,
    the call returns the 500 "error while sending verification code", makes
    no update call and leaves the stored signups as they were. *)
Theorem InitVerification_send_precedes_update svc username phone countryCode w r w' :
  InitVerification svc username phone countryCode w = (r, w') ->
  exists updates sms,
    trace w' = (updates ++ sms ++ trace w)%list /\
    Forall isUpdateCall updates /\ Forall isSentSMS sms /\
    forall err, smsFailure w = Some err -> sms <> [] ->
      r = inl (NewInternalError err "error while sending verification code" : error) /\
      httpCode (NewInternalError err "error while sending verification code")
        = Some crterrors.StatusInternalServerError /\
      updates = [] /\ userSignups w' = userSignups w.
Proof.
  intros H. pose proof H as Hc.
  apply InitVerification_cases in Hc as [((_ & _ & Ht) & _) | (signup & w1 & w2 & HG & HV & HP)].
  { exists [], []. split; [exact Ht |]. repeat split; try constructor. all: contradiction. }
  rewrite (InitVerification_run _ _ _ _ _ _ _ _ HG HV HP) in H.
  apply GetUserSignup_spec in HG as [(He1 & Hs1 & Ht1) _].
  apply PhoneNumberAlreadyInUse_readOnly in HP as (He2 & Hs2 & Ht2).
  assert (Hsms : smsFailure w2 = smsFailure w).
  { destruct He1 as (_ & _ & ? & _), He2 as (_ & _ & ? & _). congruence. }
  destruct (initPlan svc signup phone (clock w2)) as [[[labelValues annotationValues] counter] initError].
  destruct initError as [ierr |].
  - destruct (PollUpdateSignup svc _ w2) as [rp w3] eqn:Hpoll. injection H as <- <-.
    unfold PollUpdateSignup in Hpoll. rewrite initDoUpdate_updateWith in Hpoll.
    apply poll_updateWith in Hpoll as (_ & (calls & Hcalls & Hall) & _).
    exists calls, []. split; [cbn [app]; congruence |]. repeat split; try assumption; try constructor.
    all: contradiction.
  - destruct (generateVerificationCode w2) as [[gerr | verificationCode] w3] eqn:Hgen;
      apply generateVerificationCode_state in Hgen; subst w3.
    { injection H as <- <-. exists [], []. split; [cbn [app]; congruence |].
      repeat split; try constructor. all: contradiction. }
    destruct (SendNotification _ phone countryCode w2) as [rs w4] eqn:Hsend.
    apply SendNotification_spec in Hsend as [-> ->]. rewrite Hsms in H.
    destruct (smsFailure w) as [serr |] eqn:Hfail.
    + injection H as <- <-.
      exists [], [SentSMS (Sprintf svc (MessageTemplate (cfg svc)) verificationCode) phone countryCode].
      split; [cbn; congruence |]. split; [constructor |]. split; [repeat constructor |].
      intros err [= <-] _. repeat split. cbn. congruence.
    + destruct (PollUpdateSignup svc _ _) as [rp w5] eqn:Hpoll.
      unfold PollUpdateSignup in Hpoll. rewrite initDoUpdate_updateWith in Hpoll.
      apply poll_updateWith in Hpoll as (_ & (calls & Hcalls & Hall) & _).
      assert (Hw' : w' = w5) by (destruct rp as [e | []]; congruence). subst w5.
      exists calls, [SentSMS (Sprintf svc (MessageTemplate (cfg svc)) verificationCode) phone countryCode].
      split; [rewrite Hcalls; cbn; congruence |]. split; [exact Hall |]. split; [repeat constructor |].
      discriminate.
Qed.

(** The SMS provider is down: the 500, one SMS tried, no update. *)
Lemma InitVerification_send_precedes_update_witness :
  let w := example.worldSmsDown [example.johnny] in
  let w' := snd (InitVerification example.service "johnny" example.phone "1" w) in
  trace w' = [SentSMS "Your verification code is 789015" example.phone "1"] /\
  exists updates sms,
    trace w' = (updates ++ sms ++ trace w)%list /\
    Forall isUpdateCall updates /\ Forall isSentSMS sms /\
    (sms <> [] ->
     fst (InitVerification example.service "johnny" example.phone "1" w)
       = inl (NewInternalError (ErrorString "sms provider unavailable")
                "error while sending verification code" : error) /\
     updates = [] /\ userSignups w' = userSignups w).
Proof.
  intros w w'. split; [vm_compute; reflexivity |].
  destruct (InitVerification_send_precedes_update example.service "johnny" example.phone "1" w
              (fst (InitVerification example.service "johnny" example.phone "1" w)) w')
    as (updates & sms & Htrace & Hupd & Hsms & Hfail).
  - vm_compute. reflexivity.
  - exists updates, sms. split; [exact Htrace |]. split; [exact Hupd |]. split; [exact Hsms |].
    intros Hne. destruct (Hfail (ErrorString "sms provider unavailable") eq_refl Hne) as (Hr & _ & Hu & Hs).
    auto.
Defined.



(** *** [VerifyActivationCode] *)

(** One invocation of the closure: [errToReturn] becomes the validation
    error if there is one, and is left alone otherwise. *)
Lemma activationDoUpdate_errToReturn svc username code s r s' :
  activationDoUpdate svc username code s = (r, s') ->
  (exists err, validationFails svc username code s err /\ snd (snd s') = Some err) \/
  ((forall err, ~ validationFails svc username code s err) /\ snd (snd s') = snd (snd s)).
Proof.
  destruct s as [w [a e]]. unfold activationDoUpdate, validationFails, bind at 1, liftW at 1. cbn [fst snd].
  destruct (client.GetUserSignup _ w) as [[gerr | signup] w1] eqn:HG.
  - intros [= <- <-]. right. split; [| reflexivity].
    intros err (sg & wa & wb & [=] & _).
  - unfold bind at 1, attempt at 1, liftW at 1. cbn [fst snd].
    destruct (GetAndValidateSocialEvent code w1) as [[verr | event] w2] eqn:HV.
    + unfold bind, modify, gets, ret, liftW. cbn [fst snd].
      destruct (client.UpdateUserSignup _ w2) as [ru w3]. intros [= <- <-]. left.
      exists verr. split; [| reflexivity]. exists signup, w1, w2. auto.
    + unfold bind, ret, liftW. cbn [fst snd].
      destruct (client.UpdateUserSignup _ w2) as [ru w3]. intros [= <- <-]. right.
      split; [| reflexivity]. intros err (sg & wa & wb & [= <- <-] & HV'). congruence.
Qed.

(** After the loop, [errToReturn] is the validation error of the last
    invocation that had one, and is as before if none had. *)
Lemma poll_errToReturn svc username code n s r s' :
  pollUpdate (retriable svc) n (activationDoUpdate svc username code) s = (r, s') ->
  (snd (snd s') = snd (snd s) /\
   forall s0, In s0 (invocations (retriable svc) n (activationDoUpdate svc username code) s) ->
              forall err, ~ validationFails svc username code s0 err) \/
  (exists s0 err,
      In s0 (invocations (retriable svc) n (activationDoUpdate svc username code) s) /\
      validationFails svc username code s0 err /\ snd (snd s') = Some err).
Proof.
  revert s. induction n as [| n IH]; intros s; cbn [pollUpdate invocations];
    destruct (activationDoUpdate svc username code s) as [[e | []] s1] eqn:Hu;
    pose proof (activationDoUpdate_errToReturn _ _ _ _ _ _ Hu) as Hone.
  1, 2, 4: intros [= <- <-]; destruct Hone as [(err & Hf & Hs) | (Hnf & Hs)];
    [right; exists s, err; split; [left; reflexivity | auto]
    | left; split; [exact Hs |]; intros s0 [<- | []]; exact Hnf].
  destruct (retriable svc e).
  - intros H. destruct (IH _ H) as [(Hs' & Hnone) | (s0 & err & Hin & Hf & Hs')].
    + destruct Hone as [(err & Hf & Hs) | (Hnf & Hs)].
      * right. exists s, err. split; [left; reflexivity |]. split; [exact Hf | congruence].
      * left. split; [congruence |]. intros s0 [<- | Hin]; [exact Hnf | exact (Hnone _ Hin)].
    + right. exists s0, err. split; [right; exact Hin | auto].
  - intros [= <- <-]. destruct Hone as [(err & Hf & Hs) | (Hnf & Hs)];
      [right; exists s, err; split; [left; reflexivity | auto]
      | left; split; [exact Hs |]; intros s0 [<- | []]; exact Hnf].
Qed.

(** C8.  With the signup loaded and attempts left, [VerifyActivationCode]
    returns the validation error whenever an invocation of its closure had
    one, whatever the update loop returns; it returns what the update loop
    returns (its error, if it failed) only when no invocation had a
    validation error. *)
Theorem VerifyActivationCode_prefers_validation_error svc ctx username code w signup w1 attemptsMade
    rp wp a errToReturn :
  client.GetUserSignup (EncodeUserIdentifier svc username) w = (inr signup, w1) ->
  checkAttempts svc signup = (attemptsMade, None) ->
  PollUpdateSignup svc (activationDoUpdate svc username code) (w1, (attemptsMade, None))
    = (rp, (wp, (a, errToReturn))) ->
  VerifyActivationCode svc ctx username code w =
    (match errToReturn with
     | Some validationErr => inl validationErr
     | None => rp
     end, wp) /\
  ((errToReturn = None /\
    forall s0, In s0 (invocations (retriable svc) (maxRetries svc) (activationDoUpdate svc username code)
                        (w1, (attemptsMade, None))) ->
               forall err, ~ validationFails svc username code s0 err) \/
   (exists s0 validationErr,
      In s0 (invocations (retriable svc) (maxRetries svc) (activationDoUpdate svc username code)
               (w1, (attemptsMade, None))) /\
      validationFails svc username code s0 validationErr /\ errToReturn = Some validationErr)).
Proof.
  intros HG HA Hpoll. split.
  - unfold VerifyActivationCode, bind, attempt. rewrite HG, HA, Hpoll.
    destruct rp as [err | []], errToReturn as [verr |]; reflexivity.
  - unfold PollUpdateSignup in Hpoll. apply poll_errToReturn in Hpoll. exact Hpoll.
Qed.

(** No social event is named like the code and the API server refuses
    every update: the validation error is what the caller gets. *)
Lemma VerifyActivationCode_prefers_validation_error_witness :
  let scheduled := [None; None; None; Some example.conflict; None; None; Some example.conflict;
                    None; None; Some example.conflict; None; None; Some example.conflict;
                    None; None; Some example.conflict] in
  let w := example.world [example.johnny] scheduled in
  let w1 := example.world [example.johnny] (tl scheduled) in
  fst (PollUpdateSignup example.service (activationDoUpdate example.service "johnny" "no-such-event")
         (w1, (0, None))) = inl example.conflict /\
  fst (VerifyActivationCode example.service ∅ "johnny" "no-such-event" w)
    = inl (NewForbiddenError "invalid code" "the provided code is invalid" : error).
Proof.
  intros scheduled w w1.
  split; [vm_compute; reflexivity |].
  pose (res := PollUpdateSignup example.service (activationDoUpdate example.service "johnny" "no-such-event")
                 (w1, (0, None))).
  rewrite (proj1 (VerifyActivationCode_prefers_validation_error example.service ∅ "johnny" "no-such-event"
                    w example.johnny w1 0 (fst res) (fst (snd res)) (fst (snd (snd res)))
                    (Some (NewForbiddenError "invalid code" "the provided code is invalid" : error))
                    ltac:(vm_compute; reflexivity) ltac:(vm_compute; reflexivity)
                    ltac:(vm_compute; reflexivity))).
  reflexivity.
Defined.

(** *** [strings.Split] and the token of the proxy *)

Lemma append_cons c (a b : string) : (String c a ++ b = String c (a ++ b))%string.
Proof. reflexivity. Qed.

Lemma append_nil_l (b : string) : ("" ++ b = b)%string.
Proof. reflexivity. Qed.

Lemma string_app_assoc (a b c : string) : ((a ++ b) ++ c = a ++ (b ++ c))%string.
Proof. induction a as [| x a IH]; [reflexivity | rewrite !append_cons, IH; reflexivity]. Qed.

Lemma string_app_nil_r (a : string) : (a ++ "" = a)%string.
Proof. induction a as [| x a IH]; [reflexivity | rewrite append_cons, IH; reflexivity]. Qed.

Lemma HasPrefix_app s sep : gostrings.HasPrefix s sep = true -> s = (sep ++ gostrings.sliceFrom (String.length sep) s)%string.
Proof.
  revert s. induction sep as [| c sep IH]; intros s; simpl.
  - destruct s; reflexivity.
  - destruct s as [| d s]; [discriminate |]. intros H. apply andb_true_iff in H as [Hc Hs].
    apply Ascii.eqb_eq in Hc. subst d. cbn [String.length gostrings.sliceFrom].
    rewrite append_cons. f_equal. apply IH. exact Hs.
Qed.

Lemma HasPrefix_self_app sep t : gostrings.HasPrefix (sep ++ t)%string sep = true.
Proof.
  induction sep as [| c sep IH]; [destruct t; reflexivity |].
  rewrite append_cons. cbn [gostrings.HasPrefix]. rewrite Ascii.eqb_refl. exact IH.
Qed.

(** Stepping over the rest of a matched separator. *)
Lemma splitScan_skip sep n cur s :
  (n <= String.length s)%nat ->
  gostrings.splitScan sep n cur s = gostrings.splitScan sep O cur (gostrings.sliceFrom n s).
Proof.
  revert s. induction n as [| n IH]; intros s Hn.
  - destruct s; reflexivity.
  - destruct s as [| c s]; [simpl in Hn; lia |]. simpl in Hn. cbn [gostrings.splitScan gostrings.sliceFrom].
    apply IH. lia.
Qed.

Lemma sliceFrom_length n s : (n <= String.length s)%nat -> String.length (gostrings.sliceFrom n s) = (String.length s - n)%nat.
Proof.
  revert s. induction n as [| n IH]; intros s Hn; [destruct s; simpl; lia |].
  destruct s as [| c s]; simpl in *; [lia |]. apply IH. lia.
Qed.

Lemma sliceFrom_add n m s : gostrings.sliceFrom (n + m) s = gostrings.sliceFrom m (gostrings.sliceFrom n s).
Proof.
  revert s. induction n as [| n IH]; intros s; [destruct s; reflexivity |].
  destruct s as [| c s]; simpl; [destruct m; reflexivity | apply IH].
Qed.

Lemma HasPrefix_length s sep : gostrings.HasPrefix s sep = true -> (String.length sep <= String.length s)%nat.
Proof.
  revert s. induction sep as [| c sep IH]; intros s; simpl; [lia |].
  destruct s as [| d s]; [discriminate |]. intros H. apply andb_true_iff in H as [_ H].
  simpl. apply IH in H. lia.
Qed.

(** [Split] the way Go computes it: cut at the first occurrence of the
    separator and go on behind it. *)
Lemma splitScan_Index sep cur s :
  sep <> EmptyString ->
  gostrings.splitScan sep O cur s =
  match gostrings.Index s sep with
  | None => [(cur ++ s)%string]
  | Some i =>
      (cur ++ gostrings.sliceTo i s)%string
        :: gostrings.splitScan sep O EmptyString (gostrings.sliceFrom (i + String.length sep) s)
  end.
Proof.
  intros Hsep. revert cur. induction s as [| c s IH]; intros cur.
  - destruct sep as [| d sep]; [contradiction |].
    cbn [gostrings.splitScan gostrings.Index gostrings.HasPrefix]. rewrite string_app_nil_r. reflexivity.
  - cbn [gostrings.splitScan gostrings.Index].
    destruct (gostrings.HasPrefix (String c s) sep) eqn:Hp.
    + cbn [gostrings.sliceTo Nat.add]. rewrite string_app_nil_r. f_equal.
      destruct sep as [| d sep]; [contradiction |].
      apply HasPrefix_length in Hp. cbn [String.length Nat.pred gostrings.sliceFrom] in *.
      apply splitScan_skip. lia.
    + rewrite IH. destruct (gostrings.Index s sep) as [i |]; cbn [option_map].
      * cbn [gostrings.sliceTo Nat.add gostrings.sliceFrom]. rewrite string_app_assoc, append_cons. reflexivity.
      * rewrite string_app_assoc, append_cons. reflexivity.
Qed.

Lemma Split_Index s sep :
  sep <> EmptyString ->
  gostrings.Split s sep =
  match gostrings.Index s sep with
  | None => [s]
  | Some i => gostrings.sliceTo i s :: gostrings.Split (gostrings.sliceFrom (i + String.length sep) s) sep
  end.
Proof.
  intros Hsep. unfold gostrings.Split. destruct sep as [| d sep]; [contradiction |].
  rewrite splitScan_Index by discriminate. reflexivity.
Qed.

Lemma Index_split s sep i :
  gostrings.Index s sep = Some i ->
  s = (gostrings.sliceTo i s ++ sep ++ gostrings.sliceFrom (i + String.length sep) s)%string.
Proof.
  revert i. induction s as [| c s IH]; intros i; cbn [gostrings.Index].
  - destruct (gostrings.HasPrefix "" sep) eqn:Hp; [| discriminate].
    intros [= <-]. apply HasPrefix_app in Hp. exact Hp.
  - destruct (gostrings.HasPrefix (String c s) sep) eqn:Hp.
    + intros [= <-]. apply HasPrefix_app in Hp. exact Hp.
    + destruct (gostrings.Index s sep) as [j |] eqn:Hj; [| discriminate]. intros [= <-].
      cbn [gostrings.sliceTo Nat.add gostrings.sliceFrom]. rewrite append_cons. f_equal.
      apply IH. reflexivity.
Qed.

Lemma extractUserToken_tokenOf req :
  proxy.extractUserToken req =
  match tokenOf (proxy.Header_Get (proxy.Header req) "Authorization") with
  | Some token => inr token
  | None => inl (NewUnauthorizedError "no token found" "a Bearer token is expected" : error)
  end.
Proof.
  unfold proxy.extractUserToken, tokenOf.
  set (a := proxy.Header_Get (proxy.Header req) "Authorization").
  rewrite Split_Index by discriminate.
  destruct (gostrings.Index a "Bearer ") as [i |]; [| reflexivity].
  change (String.length "Bearer ") with 7%nat.
  rewrite (Split_Index (gostrings.sliceFrom (i + 7) a)) by discriminate.
  change (String.length "Bearer ") with 7%nat.
  destruct (gostrings.Index (gostrings.sliceFrom (i + 7) a) "Bearer ") as [j |].
  - cbn [List.length nth]. 
    replace (Z.of_nat (S (S _)) <? 2) with false by (symmetry; apply Z.ltb_ge; lia). reflexivity.
  - reflexivity.
Qed.

Lemma Index_app_self sep t : gostrings.Index (sep ++ t)%string sep = Some O.
Proof.
  destruct (sep ++ t)%string eqn:E; cbn [gostrings.Index]; rewrite <- E, HasPrefix_self_app; reflexivity.
Qed.

Lemma sliceFrom_app_self sep t : gostrings.sliceFrom (String.length sep) (sep ++ t)%string = t.
Proof.
  induction sep as [| c sep IH]; [destruct t; reflexivity |].
  rewrite append_cons. cbn [String.length gostrings.sliceFrom]. exact IH.
Qed.

(** C9, as the code has it.  A token is taken from the Authorization
    header exactly when the header contains ["Bearer "], wherever that is:
    the token is what follows the first occurrence, up to the next one.  A
    header of the exact form ["Bearer <token>"] gives [<token>].  Without
    an Authorization header the proxy answers 401 with a plain-text body that
    contains ["no token found"]. *)
Theorem extractUserToken_accepts p req :
  (forall token,
     proxy.extractUserToken req = inr token <->
     tokenOf (proxy.Header_Get (proxy.Header req) "Authorization") = Some token) /\
  (forall token,
     proxy.extractUserToken req = inr token ->
     exists before after,
       proxy.Header_Get (proxy.Header req) "Authorization" = (before ++ "Bearer " ++ token ++ after)%string) /\
  (forall token,
     proxy.Header_Get (proxy.Header req) "Authorization" = ("Bearer " ++ token)%string ->
     gostrings.Index token "Bearer " = None ->
     proxy.extractUserToken req = inr token) /\
  (proxy.Header req !! "Authorization" = None ->
   proxy.handleRequestAndRedirect p req =
     proxy.HttpError crterrors.StatusUnauthorized
       ("unable to create a context: no token found: a Bearer token is expected" ++ newline) /\
   gostrings.Contains
     ("unable to create a context: no token found: a Bearer token is expected" ++ newline)
     "no token found" = true).
Proof.
  split; [| split; [| split]].
  - intros token. rewrite extractUserToken_tokenOf.
    destruct (tokenOf _) as [t |]; split; intros [=]; subst; reflexivity.
  - intros token. rewrite extractUserToken_tokenOf. unfold tokenOf.
    set (a := proxy.Header_Get (proxy.Header req) "Authorization").
    destruct (gostrings.Index a "Bearer ") as [i |] eqn:Hi; [| discriminate].
    apply Index_split in Hi. change (String.length "Bearer ") with 7%nat in Hi.
    destruct (gostrings.Index (gostrings.sliceFrom (i + 7) a) "Bearer ") as [j |] eqn:Hj.
    + intros [= <-]. apply Index_split in Hj.
      exists (gostrings.sliceTo i a).
      exists ("Bearer " ++ gostrings.sliceFrom (j + String.length "Bearer ") (gostrings.sliceFrom (i + 7) a))%string.
      rewrite <- Hj. exact Hi.
    + intros [= <-]. exists (gostrings.sliceTo i a), EmptyString.
      rewrite string_app_nil_r. exact Hi.
  - intros token Ha Hnone. rewrite extractUserToken_tokenOf, Ha. unfold tokenOf.
    rewrite Index_app_self.
    change (0 + 7)%nat with (String.length "Bearer "). rewrite sliceFrom_app_self.
    rewrite Hnone. reflexivity.
  - intros Hnone. split; [| vm_compute; reflexivity].
    unfold proxy.handleRequestAndRedirect, proxy.createContext, proxy.extractUserID,
      proxy.extractUserToken, proxy.Header_Get.
    rewrite Hnone. reflexivity.
Qed.

(** The header ["Bearer abc"] gives the token ["abc"]; a request without
    the header gets the 401. *)
Lemma extractUserToken_accepts_witness :
  proxy.extractUserToken (exampleProxy.request "Bearer abc") = inr "abc" /\
  proxy.handleRequestAndRedirect exampleProxy.smith {| proxy.Header := ∅ |} =
    proxy.HttpError crterrors.StatusUnauthorized
      ("unable to create a context: no token found: a Bearer token is expected" ++ newline).
Proof.
  split.
  - refine (proj1 (proj2 (proj2 (extractUserToken_accepts exampleProxy.smith (exampleProxy.request "Bearer abc"))))
              "abc" _ _); vm_compute; reflexivity.
  - refine (proj1 (proj2 (proj2 (proj2 (extractUserToken_accepts exampleProxy.smith {| proxy.Header := ∅ |}))) _)).
    vm_compute. reflexivity.
Defined.

(** C9 as stated fails: the header ["Basic Bearer abc"] does not have the
    form ["Bearer <token>"], and its token is taken and the request
    forwarded all the same. *)
Lemma extractUserToken_accepts_counterexample :
  gostrings.HasPrefix "Basic Bearer abc" "Bearer " = false /\
  proxy.extractUserToken (exampleProxy.request "Basic Bearer abc") = inr "abc" /\
  proxy.handleRequestAndRedirect exampleProxy.smith (exampleProxy.request "Basic Bearer abc")
    = proxy.Forwarded "smith2" exampleProxy.target.
Proof. vm_compute. repeat split. Qed.

(** *** The matcher of the phone check *)

Lemma eat_snoc f n s :
  eat f (S n) s =
  match eat f n s with
  | Some (String c t) => if f c then Some t else None
  | _ => None
  end.
Proof.
  revert s. induction n as [| n IH]; intros s.
  - destruct s as [| c s]; [reflexivity |]. cbn [eat]. destruct (f c); reflexivity.
  - destruct s as [| c s]; [reflexivity |]. cbn [eat] in *. destruct (f c); [apply IH | reflexivity].
Qed.

Lemma iter_Class f n b s :
  Nat.iter n (fun ps => flat_map (regexp.run (regexp.Class f)) ps) [(b, s)] =
  match eat f n s with
  | Some t => [(match n with O => b | S _ => false end, t)]
  | None => []
  end.
Proof.
  induction n as [| n IH]; [reflexivity |].
  rewrite Nat.iter_succ, IH, eat_snoc.
  destruct (eat f n s) as [[| c t] |]; cbn [flat_map regexp.run snd app]; try reflexivity.
  destruct (f c); reflexivity.
Qed.

Lemma run_Repeat_Class f n b s :
  regexp.run (regexp.Repeat n (regexp.Class f)) (b, s) =
  match eat f n s with
  | Some t => [(match n with O => b | S _ => false end, t)]
  | None => []
  end.
Proof.
  change (regexp.run (regexp.Repeat n (regexp.Class f)) (b, s))
    with (Nat.iter n (fun ps => flat_map (regexp.run (regexp.Class f)) ps) [(b, s)]).
  apply iter_Class.
Qed.

Lemma eat_all f n s :
  match eat f n s with Some EmptyString => true | _ => false end
  = Nat.eqb (String.length s) n && allChars f s.
Proof.
  revert s. induction n as [| n IH]; intros s.
  - destruct s; reflexivity.
  - destruct s as [| c s]; [reflexivity |]. cbn [eat String.length Nat.eqb allChars].
    destruct (f c); [rewrite IH; reflexivity | rewrite andb_false_r; reflexivity].
Qed.

Lemma run_md5Matcher b s :
  match regexp.run md5Matcher (b, s) with [] => false | _ :: _ => true end = isHash s.
Proof.
  unfold md5Matcher, isHash.
  change (regexp.run (regexp.Concat (regexp.Repeat 32 (regexp.Class regexp.hexFold)) regexp.EndText) (b, s))
    with (flat_map (regexp.run regexp.EndText)
            (regexp.run (regexp.Repeat 32 (regexp.Class regexp.hexFold)) (b, s))).
  rewrite run_Repeat_Class, <- eat_all.
  destruct (eat regexp.hexFold 32 s) as [[| c t] |]; reflexivity.
Qed.

Lemma existsb_positions b s :
  existsb (fun p => match regexp.run md5Matcher p with [] => false | _ :: _ => true end)
          (regexp.positions b s) = hasHashSuffix s.
Proof.
  revert b. induction s as [| c s IH]; intros b.
  - reflexivity.
  - cbn [regexp.positions existsb]. rewrite run_md5Matcher, IH. unfold hasHashSuffix.
    cbn [String.length]. unfold isHash at 1. cbn [String.length].
    destruct (Nat.compare_spec (S (String.length s)) 32) as [Heq | Hlt | Hgt].
    + rewrite Heq. replace (32 - 32)%nat with O by lia. cbn [gostrings.sliceFrom].
      replace (Nat.leb 32 (String.length s)) with false by (symmetry; apply Nat.leb_gt; lia).
      unfold isHash. cbn [String.length]. rewrite Heq. cbn [Nat.leb andb orb]. rewrite orb_false_r.
      reflexivity.
    + replace (Nat.eqb (S (String.length s)) 32) with false by (symmetry; apply Nat.eqb_neq; lia).
      replace (Nat.leb 32 (String.length s)) with false by (symmetry; apply Nat.leb_gt; lia).
      replace (Nat.leb 32 (S (String.length s))) with false by (symmetry; apply Nat.leb_gt; lia).
      reflexivity.
    + replace (Nat.eqb (S (String.length s)) 32) with false by (symmetry; apply Nat.eqb_neq; lia).
      replace (Nat.leb 32 (String.length s)) with true by (symmetry; apply Nat.leb_le; lia).
      replace (Nat.leb 32 (S (String.length s))) with true by (symmetry; apply Nat.leb_le; lia).
      replace (S (String.length s) - 32)%nat with (S (String.length s - 32)) by lia.
      reflexivity.
Qed.

(** The service's matcher finds a hash wherever the input ends in 32
    hexadecimal digits. *)
Lemma Match_md5Matcher s : regexp.Match md5Matcher s = hasHashSuffix s.
Proof. unfold regexp.Match. apply existsb_positions. Qed.

Lemma run_BeginText_false r s : regexp.run (regexp.Concat regexp.BeginText r) (false, s) = [].
Proof. reflexivity. Qed.

Lemma existsb_positions_false r s :
  existsb (fun p => match regexp.run (regexp.Concat regexp.BeginText r) p with [] => false | _ :: _ => true end)
          (regexp.positions false s) = false.
Proof. induction s as [| c s IH]; [reflexivity |]. cbn [regexp.positions existsb]. rewrite IH. reflexivity. Qed.

(** The expression of the spec matches exactly the inputs that are 32
    hexadecimal digits. *)
Lemma Match_specMd5Matcher s : regexp.Match specMd5Matcher s = isHash s.
Proof.
  unfold regexp.Match, specMd5Matcher.
  assert (H : match regexp.run (regexp.Concat regexp.BeginText md5Matcher) (true, s) with
              | [] => false | _ :: _ => true end = isHash s).
  { cbn [regexp.run fst flat_map]. rewrite app_nil_r. apply run_md5Matcher. }
  destruct s as [| c s]; cbn [regexp.positions existsb]; rewrite H.
  - apply orb_false_r.
  - rewrite existsb_positions_false. apply orb_false_r.
Qed.

(** C4 on the code.  [PhoneNumberAlreadyInUse] selects on the input itself
    whenever the input ends in 32 hexadecimal digits, and on its MD5 hash
    otherwise; the expression of the spec would take the input for a hash
    only when it is 32 hexadecimal digits as a whole.  The two differ on a
    plus sign followed by 32 digits: not a hash, and selected on as it is. *)
Theorem phoneLabelValue_hash_suffix :
  (forall input,
     phoneLabelValue input = if hasHashSuffix input then input else hash.EncodeString input) /\
  (forall input, regexp.Match specMd5Matcher input = isHash input) /\
  isHash "+12345678901234567890123456789012" = false /\
  phoneLabelValue "+12345678901234567890123456789012" = "+12345678901234567890123456789012" /\
  hash.EncodeString "+12345678901234567890123456789012" <> "+12345678901234567890123456789012".
Proof.
  split; [| split; [| split; [| split]]].
  - intros input. unfold phoneLabelValue. rewrite Match_md5Matcher. reflexivity.
  - exact Match_specMd5Matcher.
  - reflexivity.
  - vm_compute. reflexivity.
  - vm_compute. discriminate.
Qed.

(* ===================================================================== *)
(** * Further properties of the code *)
(* ===================================================================== *)

(** *** The verification code and the phone check *)

Lemma codeCharset_get v :
  0 <= v < 10 ->
  exists c, String.get (Z.to_nat v) codeCharset = Some c /\ isDigit c = true.
Proof.
  intros H.
  assert (Hc : v = 0 \/ v = 1 \/ v = 2 \/ v = 3 \/ v = 4 \/ v = 5 \/ v = 6 \/ v = 7 \/ v = 8 \/ v = 9) by lia.
  repeat (destruct Hc as [-> | Hc]; [eexists; split; reflexivity |]).
  subst. eexists; split; reflexivity.
Qed.

(** The code that is generated: six characters, each a decimal digit. *)
Lemma generateVerificationCode_digits w verificationCode w' :
  generateVerificationCode w = (inr verificationCode, w') ->
  String.length verificationCode = 6%nat /\ allChars isDigit verificationCode = true.
Proof.
  unfold generateVerificationCode, bind, gets, ret. destruct (entropy w) as [err | buf]; [discriminate |].
  intros H. set (generated := string_of_list_ascii _) in H.
  assert (Hcode : verificationCode = generated) by congruence. subst verificationCode generated.
  change (Z.of_nat (String.length codeCharset)) with 10.
  cbn [codeLength seq List.map string_of_list_ascii String.length allChars].
  split; [reflexivity |].
  repeat match goal with
  | |- context [String.get (Z.to_nat ?v) codeCharset] =>
      let c := fresh "c" in let Hg := fresh "Hg" in let Hd := fresh "Hd" in
      destruct (codeCharset_get v) as (c & Hg & Hd);
      [apply Z.mod_pos_bound; lia | rewrite Hg, Hd]
  end.
  reflexivity.
Qed.

(** X1.  [generateVerificationCode] fails only when the random source does,
    with its error; otherwise, whatever bytes the source delivers, the code
    is a string of exactly six decimal digits.  Either way the world is
    left as it was. *)
Theorem generateVerificationCode_six_digits w :
  match entropy w with
  | inl err => generateVerificationCode w = (inl err, w)
  | inr _ =>
      exists verificationCode,
        generateVerificationCode w = (inr verificationCode, w) /\
        String.length verificationCode = 6%nat /\
        allChars isDigit verificationCode = true
  end.
Proof.
  destruct (entropy w) as [err | buf] eqn:He.
  - unfold generateVerificationCode, bind, gets, throw. rewrite He. reflexivity.
  - destruct (generateVerificationCode w) as [r w'] eqn:H.
    pose proof (generateVerificationCode_state _ _ _ H) as ->.
    destruct r as [err | verificationCode].
    + unfold generateVerificationCode, bind, gets, ret in H. rewrite He in H. discriminate.
    + exists verificationCode. split; [reflexivity |]. exact (generateVerificationCode_digits _ _ _ H).
Qed.

Lemma hexDigit_hexFold d : 0 <= d < 16 -> regexp.hexFold (md5.hexDigit d) = true.
Proof.
  intros H.
  assert (Hc : d = 0 \/ d = 1 \/ d = 2 \/ d = 3 \/ d = 4 \/ d = 5 \/ d = 6 \/ d = 7 \/ d = 8 \/ d = 9 \/
               d = 10 \/ d = 11 \/ d = 12 \/ d = 13 \/ d = 14 \/ d = 15) by lia.
  repeat (destruct Hc as [-> | Hc]; [reflexivity |]). subst. reflexivity.
Qed.

Lemma hexEncode_hex bs :
  Forall (fun b => 0 <= b < 256) bs ->
  String.length (md5.hexEncode bs) = (2 * List.length bs)%nat /\
  allChars regexp.hexFold (md5.hexEncode bs) = true.
Proof.
  induction 1 as [| b bs Hb _ [IHl IHc]]; [split; reflexivity |].
  cbn [md5.hexEncode String.length allChars List.length]. split; [lia |].
  rewrite !hexDigit_hexFold, IHc; [reflexivity | |].
  - apply Z.mod_pos_bound. lia.
  - split; [apply Z.div_pos; lia | apply Z.div_lt_upper_bound; lia].
Qed.

Lemma leBytes_bytes n z : Forall (fun b => 0 <= b < 256) (md5.leBytes n z).
Proof.
  unfold md5.leBytes. apply List.Forall_forall. intros b Hin. apply in_map_iff in Hin as (i & <- & _).
  apply Z.mod_pos_bound. lia.
Qed.

Lemma leBytes_length n z : List.length (md5.leBytes n z) = n.
Proof. unfold md5.leBytes. rewrite length_map, length_seq. reflexivity. Qed.

(** The sum is 16 bytes. *)
Lemma Sum_bytes bs :
  List.length (md5.Sum bs) = 16%nat /\ Forall (fun b => 0 <= b < 256) (md5.Sum bs).
Proof.
  unfold md5.Sum. destruct (md5.blocks _ _ _) as [[[a b] c] d]. split.
  - rewrite !length_app, !leBytes_length. reflexivity.
  - repeat apply Forall_app_2; apply leBytes_bytes.
Qed.

(** The encoding of any value has the shape of a hash. *)
Lemma EncodeString_isHash value : isHash (hash.EncodeString value) = true.
Proof.
  unfold isHash, hash.EncodeString.
  destruct (Sum_bytes (md5.bytesOf value)) as [Hl Hb].
  destruct (hexEncode_hex _ Hb) as [Hl' Hc]. rewrite Hl', Hl, Hc. reflexivity.
Qed.

Lemma isHash_hasHashSuffix s : isHash s = true -> hasHashSuffix s = true.
Proof.
  intros H. unfold hasHashSuffix. pose proof H as H'. unfold isHash in H'.
  apply andb_true_iff in H' as [Hl _]. apply Nat.eqb_eq in Hl. rewrite Hl.
  cbn [Nat.leb Nat.sub andb]. destruct s; exact H.
Qed.

Lemma phoneLabelValue_cases p :
  phoneLabelValue p = if hasHashSuffix p then p else hash.EncodeString p.
Proof. unfold phoneLabelValue. rewrite Match_md5Matcher. reflexivity. Qed.

(** X2.  The phone check may be given the phone number or its hash: for a
    number that does not itself end in 32 hexadecimal digits the two calls
    are the same computation, and a hash is always taken as it is. *)
Theorem PhoneNumberAlreadyInUse_number_or_hash username phoneNumber :
  hasHashSuffix phoneNumber = false ->
  phoneLabelValue (hash.EncodeString phoneNumber) = hash.EncodeString phoneNumber /\
  PhoneNumberAlreadyInUse username (hash.EncodeString phoneNumber)
    = PhoneNumberAlreadyInUse username phoneNumber.
Proof.
  intros Hp.
  assert (Hh : phoneLabelValue (hash.EncodeString phoneNumber) = hash.EncodeString phoneNumber).
  { rewrite phoneLabelValue_cases, isHash_hasHashSuffix by apply EncodeString_isHash. reflexivity. }
  split; [exact Hh |].
  unfold PhoneNumberAlreadyInUse. rewrite Hh, (phoneLabelValue_cases phoneNumber), Hp. reflexivity.
Qed.

Lemma PhoneNumberAlreadyInUse_number_or_hash_witness :
  phoneLabelValue (hash.EncodeString example.phone) = hash.EncodeString example.phone /\
  PhoneNumberAlreadyInUse "johnny" (hash.EncodeString example.phone)
    = PhoneNumberAlreadyInUse "johnny" example.phone.
Proof.
  apply (PhoneNumberAlreadyInUse_number_or_hash "johnny" example.phone). vm_compute. reflexivity.
Defined.

Lemma length_filter_pos {A} (f : A -> bool) l :
  (0 <? Z.of_nat (List.length (List.filter f l))) = existsb f l.
Proof.
  induction l as [| x l IH]; [reflexivity |]. cbn [List.filter existsb].
  destruct (f x); cbn [orb List.length]; [| exact IH]. apply Z.ltb_lt. lia.
Qed.

Lemma existsb_filter {A} (f g : A -> bool) l :
  existsb f (List.filter g l) = existsb (fun x => g x && f x) l.
Proof.
  induction l as [| x l IH]; [reflexivity |]. cbn [List.filter existsb].
  destruct (g x); cbn [existsb andb orb]; rewrite IH; reflexivity.
Qed.

Lemma existsb_eq {A} (f g : A -> bool) l : (forall x, f x = g x) -> existsb f l = existsb g l.
Proof. intros H. induction l as [| x l IH]; [reflexivity |]. cbn. rewrite H, IH. reflexivity. Qed.

Lemma In_tl {A} (x : A) l : In x (tl l) -> In x l.
Proof. destruct l; [tauto | right; assumption]. Qed.

(** A list call: a scheduled fault, or the matching objects. *)
Lemma ListBannedUsers_cases sel w r w' :
  client.ListBannedUsers sel w = (r, w') ->
  faults w' = tl (faults w) /\
  ((exists err, In (Some err) (faults w) /\ r = inl err) \/
   r = inr (List.filter (fun b => client.matchingLabels sel (BannedLabels b)) (bannedUsers w))).
Proof.
  unfold client.ListBannedUsers, client.served.
  destruct (faults w) as [| [err |] rest] eqn:Hf; intros [= <- <-]; cbn; rewrite ?Hf; (split; [reflexivity |]);
    [right; reflexivity | | right; reflexivity].
  left. exists err. split; [left; reflexivity | reflexivity].
Qed.

Lemma ListUserSignups_cases sel w r w' :
  client.ListUserSignups sel w = (r, w') ->
  faults w' = tl (faults w) /\
  ((exists err, In (Some err) (faults w) /\ r = inl err) \/
   r = inr (List.filter (fun s => client.matchingLabels sel (Labels s)) (userSignups w))).
Proof.
  unfold client.ListUserSignups, client.served.
  destruct (faults w) as [| [err |] rest] eqn:Hf; intros [= <- <-]; cbn; rewrite ?Hf; (split; [reflexivity |]);
    [right; reflexivity | | right; reflexivity].
  left. exists err. split; [left; reflexivity | reflexivity].
Qed.

(** What the phone check returns: a 500 on a fault of one of its two
    list calls, and otherwise the 403 exactly when the hash is taken. *)
Lemma PhoneNumberAlreadyInUse_result username phoneNumberOrHash w r w' :
  PhoneNumberAlreadyInUse username phoneNumberOrHash w = (r, w') ->
  (exists err, In (Some err) (faults w) /\
               (r = inl (NewInternalError err "failed listing banned users" : error) \/
                r = inl (NewInternalError err "failed listing userSignups" : error))) \/
  r = if phoneTaken username (phoneLabelValue phoneNumberOrHash) w then inl phoneInUseError else inr tt.
Proof.
  unfold PhoneNumberAlreadyInUse, bind, attempt, throw, ret.
  destruct (client.ListBannedUsers _ w) as [rb w1] eqn:HB.
  pose proof (ListBannedUsers_readOnly _ _ _ _ HB) as (_ & Hs1 & _).
  apply ListBannedUsers_cases in HB as [Hf1 [(err & Hin & ->) | ->]].
  { intros [= <- <-]. left. eauto. }
  rewrite length_filter_pos. unfold phoneTaken.
  cbn [client.matchingLabels forallb fst snd].
  rewrite (existsb_eq _ (fun b => bool_decide (BannedLabels b !! BannedUserPhoneNumberHashLabelKey
                                       = Some (phoneLabelValue phoneNumberOrHash))))
    by (intros b; apply andb_true_r).
  destruct (existsb _ (bannedUsers w)); [intros [= <- <-]; right; reflexivity |].
  destruct (client.ListUserSignups _ w1) as [rl w2] eqn:HL.
  apply ListUserSignups_cases in HL as [_ [(err & Hin & ->) | ->]].
  { intros [= <- <-]. left. exists err. split; [apply In_tl; rewrite <- Hf1; exact Hin | auto]. }
  rewrite existsb_filter, Hs1. cbn [client.matchingLabels forallb fst snd orb].
  rewrite (existsb_eq _
             (fun s => bool_decide (Labels s !! UserSignupStateLabelKey = Some UserSignupStateLabelValueApproved)
                       && bool_decide (Labels s !! BannedUserPhoneNumberHashLabelKey
                                       = Some (phoneLabelValue phoneNumberOrHash))
                       && negb (String.eqb (PreferredUsername s) username)
                       && negb (states.Deactivated s)))
    by (intros s; rewrite andb_true_r, !andb_assoc; reflexivity).
  destruct (existsb _ (userSignups w)); intros [= <- <-]; right; reflexivity.
Qed.

(** *** A world without scheduled faults *)

Lemma served_nofault {A} (op : M World A) w : faults w = [] -> client.served op w = op w.
Proof. intros Hf. unfold client.served. rewrite Hf. reflexivity. Qed.

Lemma GetUserSignup_nofault name w :
  faults w = [] ->
  client.GetUserSignup name w =
  (match client.findSignup name (userSignups w) with
   | Some s => inr s
   | None => inl (client.NewNotFound "usersignups.toolchain.dev.openshift.com" name)
   end, w).
Proof.
  intros Hf. unfold client.GetUserSignup. rewrite served_nofault by exact Hf.
  destruct (client.findSignup name (userSignups w)); reflexivity.
Qed.

Lemma UpdateUserSignup_nofault s w l :
  faults w = [] ->
  client.replaceSignup s (userSignups w) = Some l ->
  client.UpdateUserSignup s w = (inr tt, setUserSignups l (record (UpdateCall s) w)).
Proof.
  intros Hf Hrep. unfold client.UpdateUserSignup, bind, modify.
  rewrite served_nofault by exact Hf. cbn [userSignups record]. rewrite Hrep. reflexivity.
Qed.

Lemma PhoneNumberAlreadyInUse_nofault username phoneNumberOrHash w :
  faults w = [] ->
  PhoneNumberAlreadyInUse username phoneNumberOrHash w =
  (if phoneTaken username (phoneLabelValue phoneNumberOrHash) w then inl phoneInUseError else inr tt, w).
Proof.
  intros Hf. destruct (PhoneNumberAlreadyInUse username phoneNumberOrHash w) as [r w'] eqn:H.
  assert (Hw : w' = w).
  { revert H. unfold PhoneNumberAlreadyInUse, bind, attempt, throw, ret,
      client.ListBannedUsers, client.ListUserSignups.
    rewrite !served_nofault by exact Hf. destruct (0 <? _); [intros [= _ <-]; reflexivity |].
    rewrite !served_nofault by exact Hf. destruct (existsb _ _); intros [= _ <-]; reflexivity. }
  subst w'. f_equal.
  apply PhoneNumberAlreadyInUse_result in H as [(err & Hin & _) | ->]; [| reflexivity].
  rewrite Hf in Hin. destruct Hin.
Qed.

(** X3.  The phone check in full.  It changes nothing.  It fails with a 500
    only on a fault of one of its two list calls; otherwise it fails with
    the 403 exactly when the hash is taken: a banned user carries it, or an
    approved signup that is not deactivated and whose preferred username is
    another one. *)
Theorem PhoneNumberAlreadyInUse_spec username phoneNumberOrHash w r w' :
  PhoneNumberAlreadyInUse username phoneNumberOrHash w = (r, w') ->
  readOnly w w' /\
  ((exists err, In (Some err) (faults w) /\
                (r = inl (NewInternalError err "failed listing banned users" : error) \/
                 r = inl (NewInternalError err "failed listing userSignups" : error))) \/
   r = if phoneTaken username (phoneLabelValue phoneNumberOrHash) w then inl phoneInUseError else inr tt).
Proof.
  intros H. split; [exact (PhoneNumberAlreadyInUse_readOnly _ _ _ _ _ H) |].
  exact (PhoneNumberAlreadyInUse_result _ _ _ _ _ H).
Qed.

(** Jane holds the phone: Johnny's check fails with the 403. *)
Lemma PhoneNumberAlreadyInUse_spec_witness :
  let w := example.world [example.johnny; example.jane] [] in
  phoneTaken "johnny" example.phoneHash w = true /\
  phoneTaken "jane" example.phoneHash w = false /\
  fst (PhoneNumberAlreadyInUse "johnny" example.phone w) = inl phoneInUseError.
Proof.
  intros w. split; [vm_compute; reflexivity |]. split; [vm_compute; reflexivity |].
  destruct (PhoneNumberAlreadyInUse_spec "johnny" example.phone w
              (fst (PhoneNumberAlreadyInUse "johnny" example.phone w))
              (snd (PhoneNumberAlreadyInUse "johnny" example.phone w)))
    as (_ & [(err & [] & _) | Hr]).
  - vm_compute. reflexivity.
  - rewrite Hr. vm_compute. reflexivity.
Defined.

(** *** [InitVerification]: what is sent and what is stored *)

(** When [initPlan] finds no error, the counter is a Go int below the
    daily limit: zero, or what the annotation holds. *)
Lemma initPlan_ok svc signup phone now labelValues annotationValues counter :
  initPlan svc signup phone now = (labelValues, annotationValues, counter, None) ->
  counter < DailyLimit (cfg svc) /\ strconv.minInt <= counter /\
  (counter = 0 \/
   strconv.Atoi (index (Annotations signup) UserSignupVerificationCounterAnnotationKey) = Some counter).
Proof.
  intros Hplan. pose proof (initPlan_initError _ _ _ _ _ _ _ _ Hplan) as Herr.
  destruct (counter >=? DailyLimit (cfg svc)) eqn:Hge; [discriminate |].
  rewrite Z.geb_leb in Hge. apply Z.leb_gt in Hge. split; [exact Hge |].
  revert Hplan Hge. unfold initPlan.
  destruct (negb (String.eqb _ "")); [destruct (strconv.Atoi _) as [c |] eqn:HA |];
    (destruct (time_Parse svc _) as [perr | ts]; [| destruct (now >? ts + 24 * Hour)]);
    intros [= _ _ <-] Hlt; try (split; [vm_compute; discriminate | left; reflexivity]).
  - split; [apply (Atoi_inInt _ _ HA) | right; reflexivity].
  - lia.
Qed.

Lemma codeAnnotations_lookup svc now counter verificationCode annotationValues :
  let values := codeAnnotations svc now counter verificationCode annotationValues in
  values !! UserSignupVerificationCodeAnnotationKey = Some verificationCode /\
  values !! UserVerificationAttemptsAnnotationKey = Some "0" /\
  values !! UserSignupVerificationCounterAnnotationKey = Some (strconv.Itoa (strconv.wrap (counter + 1))) /\
  values !! UserVerificationExpiryAnnotationKey
    = Some (time_Format svc (now + strconv.wrap (strconv.wrap (CodeExpiresInMin (cfg svc)) * Minute))).
Proof.
  unfold codeAnnotations. cbv zeta.
  repeat split;
    repeat (first [apply lookup_insert_eq
                  | rewrite lookup_insert_ne by (apply String.eqb_neq; reflexivity)]).
Qed.

(** X4.  A call of [InitVerification] sends at most one SMS, before any
    update call.  When it sends one, it goes to the phone number given and
    carries the message template filled with a code of six decimal digits;
    the stored signup required verification and its counter was below the
    daily limit. *)
Theorem InitVerification_sms svc username phone countryCode w r w' :
  InitVerification svc username phone countryCode w = (r, w') ->
  exists updates sms,
    trace w' = (updates ++ sms ++ trace w)%list /\ Forall isUpdateCall updates /\
    (sms = [] \/
     exists signup verificationCode labelValues annotationValues counter,
       sms = [SentSMS (Sprintf svc (MessageTemplate (cfg svc)) verificationCode) phone countryCode] /\
       String.length verificationCode = 6%nat /\ allChars isDigit verificationCode = true /\
       client.findSignup (EncodeUserIdentifier svc username) (userSignups w) = Some signup /\
       states.VerificationRequired signup = true /\
       initPlan svc signup phone (clock w) = (labelValues, annotationValues, counter, None) /\
       counter < DailyLimit (cfg svc)).
Proof.
  intros H. pose proof H as Hc.
  apply InitVerification_cases in Hc as [((_ & _ & Ht) & _) | (signup & w1 & w2 & HG & HV & HP)].
  { exists [], []. split; [exact Ht |]. split; [constructor | left; reflexivity]. }
  rewrite (InitVerification_run _ _ _ _ _ _ _ _ HG HV HP) in H.
  apply GetUserSignup_spec in HG as [(He1 & Hs1 & Ht1) Hfind]. specialize (Hfind _ eq_refl).
  apply PhoneNumberAlreadyInUse_readOnly in HP as (He2 & Hs2 & Ht2).
  assert (Hclock : clock w2 = clock w).
  { destruct He1 as (_ & _ & _ & _ & ?), He2 as (_ & _ & _ & _ & ?). congruence. }
  rewrite Hclock in H.
  destruct (initPlan svc signup phone (clock w)) as [[[labelValues annotationValues] counter] initError] eqn:Hplan.
  destruct initError as [ierr |].
  - destruct (PollUpdateSignup svc _ w2) as [rp w3] eqn:Hpoll. injection H as <- <-.
    unfold PollUpdateSignup in Hpoll. rewrite initDoUpdate_updateWith in Hpoll.
    apply poll_updateWith in Hpoll as (_ & (calls & Hcalls & Hall) & _).
    exists calls, []. split; [cbn [app]; congruence |]. split; [exact Hall | left; reflexivity].
  - destruct (generateVerificationCode w2) as [[gerr | verificationCode] w3] eqn:Hgen;
      pose proof (generateVerificationCode_state _ _ _ Hgen); subst w3.
    { injection H as <- <-. exists [], []. split; [cbn [app]; congruence |].
      split; [constructor | left; reflexivity]. }
    apply generateVerificationCode_digits in Hgen as [Hlen Hdigits].
    destruct (SendNotification _ phone countryCode w2) as [rs w4] eqn:Hsend.
    apply SendNotification_spec in Hsend as [-> ->].
    destruct (initPlan_ok _ _ _ _ _ _ _ Hplan) as (Hlt & _).
    assert (Hsent : exists updates,
               trace w' = (updates ++ [SentSMS (Sprintf svc (MessageTemplate (cfg svc)) verificationCode)
                                          phone countryCode] ++ trace w)%list /\
               Forall isUpdateCall updates).
    { destruct (smsFailure w2) as [serr |].
      - injection H as <- <-. exists []. split; [cbn; congruence | constructor].
      - destruct (PollUpdateSignup svc _ _) as [rp w5] eqn:Hpoll.
        unfold PollUpdateSignup in Hpoll. rewrite initDoUpdate_updateWith in Hpoll.
        apply poll_updateWith in Hpoll as (_ & (calls & Hcalls & Hall) & _).
        assert (Hw' : w' = w5) by (destruct rp as [e | []]; congruence). subst w5.
        exists calls. split; [rewrite Hcalls; cbn; congruence | exact Hall]. }
    destruct Hsent as (updates & Htrace & Hall).
    exists updates, [SentSMS (Sprintf svc (MessageTemplate (cfg svc)) verificationCode) phone countryCode].
    split; [exact Htrace |]. split; [exact Hall |]. right.
    exists signup, verificationCode, labelValues, annotationValues, counter. auto 10.
Qed.

(** In the example a code is sent to Johnny, once. *)
Lemma InitVerification_sms_witness :
  let w := example.world [example.johnny] [] in
  let w' := snd (InitVerification example.service "johnny" example.phone "1" w) in
  exists updates sms,
    trace w' = (updates ++ sms ++ trace w)%list /\ Forall isUpdateCall updates /\
    (sms = [] \/
     exists verificationCode,
       sms = [SentSMS (Sprintf example.service (MessageTemplate (cfg example.service)) verificationCode)
                example.phone "1"] /\
       String.length verificationCode = 6%nat /\ allChars isDigit verificationCode = true).
Proof.
  intros w w'.
  destruct (InitVerification_sms example.service "johnny" example.phone "1" w
              (fst (InitVerification example.service "johnny" example.phone "1" w)) w')
    as (updates & sms & Htrace & Hall & Hsms).
  - vm_compute. reflexivity.
  - exists updates, sms. split; [exact Htrace |]. split; [exact Hall |].
    destruct Hsms as [-> | (signup & verificationCode & _ & _ & _ & -> & Hlen & Hdigits & _)];
      [left; reflexivity | right; exists verificationCode; auto].
Defined.

(** A successful [InitVerification], step by step. *)
Lemma InitVerification_inr svc username phone countryCode w w' :
  InitVerification svc username phone countryCode w = (inr tt, w') ->
  exists signup labelValues annotationValues counter verificationCode calls,
    client.findSignup (EncodeUserIdentifier svc username) (userSignups w) = Some signup /\
    states.VerificationRequired signup = true /\
    phoneTaken username (phoneLabelValue phone) w = false /\
    initPlan svc signup phone (clock w) = (labelValues, annotationValues, counter, None) /\
    String.length verificationCode = 6%nat /\ allChars isDigit verificationCode = true /\
    sameEnv w w' /\
    client.replaceSignup
      (withAnnotations
         (fun annotations => codeAnnotations svc (clock w) counter verificationCode annotationValues ∪ annotations)
         (withLabels (fun labels => labelValues ∪ labels) signup))
      (userSignups w) = Some (userSignups w') /\
    trace w' = (UpdateCall
                  (withAnnotations
                     (fun annotations =>
                        codeAnnotations svc (clock w) counter verificationCode annotationValues ∪ annotations)
                     (withLabels (fun labels => labelValues ∪ labels) signup)) :: calls ++
                 [SentSMS (Sprintf svc (MessageTemplate (cfg svc)) verificationCode) phone countryCode] ++
                 trace w)%list /\
    Forall isUpdateCall calls.
Proof.
  intros H. pose proof H as Hc.
  apply InitVerification_cases in Hc as [(_ & err & [=] & _) | (signup & w1 & w2 & HG & HV & HP)].
  rewrite (InitVerification_run _ _ _ _ _ _ _ _ HG HV HP) in H.
  apply GetUserSignup_spec in HG as [(He1 & Hs1 & Ht1) Hfind]. specialize (Hfind _ eq_refl).
  assert (Htaken : phoneTaken username (phoneLabelValue phone) w = false).
  { apply PhoneNumberAlreadyInUse_result in HP as [(err & _ & [[=] | [=]]) | Hr].
    unfold phoneTaken in *. destruct He1 as (Hb & _). rewrite Hb, Hs1 in Hr.
    destruct (_ || _); [discriminate | reflexivity]. }
  apply PhoneNumberAlreadyInUse_readOnly in HP as (He2 & Hs2 & Ht2).
  assert (Hclock : clock w2 = clock w).
  { destruct He1 as (_ & _ & _ & _ & ?), He2 as (_ & _ & _ & _ & ?). congruence. }
  rewrite Hclock in H.
  destruct (initPlan svc signup phone (clock w)) as [[[labelValues annotationValues] counter] initError] eqn:Hplan.
  destruct initError as [ierr |].
  { destruct (PollUpdateSignup svc _ w2) as [rp w3]. discriminate. }
  destruct (generateVerificationCode w2) as [[gerr | verificationCode] w3] eqn:Hgen; [discriminate |].
  pose proof (generateVerificationCode_state _ _ _ Hgen). subst w3.
  apply generateVerificationCode_digits in Hgen as [Hlen Hdigits].
  destruct (SendNotification _ phone countryCode w2) as [[serr | []] w4] eqn:Hsend; [discriminate |].
  apply SendNotification_spec in Hsend as [-> _].
  destruct (PollUpdateSignup svc _ _) as [[e | []] w5] eqn:Hpoll; [discriminate |]. injection H as <-.
  unfold PollUpdateSignup in Hpoll. rewrite initDoUpdate_updateWith in Hpoll.
  apply poll_updateWith in Hpoll as (He3 & _ & (s0 & calls & Hfind0 & Hrep & Htr & Hall)).
  cbn [userSignups record trace] in Hfind0, Hrep, Htr.
  rewrite Hs2, Hs1, Hfind in Hfind0. injection Hfind0 as <-.
  exists signup, labelValues, annotationValues, counter, verificationCode, calls.
  split; [exact Hfind |]. split; [exact HV |]. split; [exact Htaken |]. split; [exact Hplan |].
  split; [exact Hlen |]. split; [exact Hdigits |].
  split; [eapply sameEnv_trans; [eapply sameEnv_trans; [exact He1 | exact He2] |];
          eapply sameEnv_trans; [| exact He3]; repeat split |].
  split; [rewrite <- Hs1, <- Hs2; exact Hrep |].
  split; [rewrite Htr, Ht2, Ht1; reflexivity | exact Hall].
Qed.

(** X5.  Every successful [InitVerification] (with a daily limit that is a
    Go int): the SMS was sent, and after it the update was stored; the
    signup now held under the user's name carries the code that was sent,
    zero attempts, the expiry, the hash of the phone number and a counter
    that reads as one more than before and does not exceed the daily limit;
    its states are as they were, so verification is still required. *)
Theorem InitVerification_success svc username phone countryCode w w' :
  DailyLimit (cfg svc) <= strconv.maxInt ->
  InitVerification svc username phone countryCode w = (inr tt, w') ->
  exists signup signup' verificationCode calls counter,
    client.findSignup (EncodeUserIdentifier svc username) (userSignups w) = Some signup /\
    client.findSignup (EncodeUserIdentifier svc username) (userSignups w') = Some signup' /\
    trace w' = (UpdateCall signup' :: calls ++
                 [SentSMS (Sprintf svc (MessageTemplate (cfg svc)) verificationCode) phone countryCode] ++
                 trace w)%list /\
    Forall isUpdateCall calls /\
    Annotations signup' !! UserSignupVerificationCodeAnnotationKey = Some verificationCode /\
    Annotations signup' !! UserVerificationAttemptsAnnotationKey = Some "0" /\
    Annotations signup' !! UserVerificationExpiryAnnotationKey
      = Some (time_Format svc (clock w + strconv.wrap (strconv.wrap (CodeExpiresInMin (cfg svc)) * Minute))) /\
    Labels signup' !! UserSignupUserPhoneHashLabelKey = Some (hash.EncodeString phone) /\
    States signup' = States signup /\
    (counter = 0 \/
     strconv.Atoi (index (Annotations signup) UserSignupVerificationCounterAnnotationKey) = Some counter) /\
    strconv.Atoi (index (Annotations signup') UserSignupVerificationCounterAnnotationKey) = Some (counter + 1) /\
    counter + 1 <= DailyLimit (cfg svc).
Proof.
  intros Hmax H.
  apply InitVerification_inr in H
    as (signup & labelValues & annotationValues & counter & verificationCode & calls &
        Hfind & _ & _ & Hplan & _ & _ & _ & Hrep & Htr & Hall).
  apply replaceSignup_find in Hrep. cbn [Name withAnnotations withLabels] in Hrep.
  rewrite (findSignup_Name _ _ _ Hfind) in Hrep.
  destruct (initPlan_ok _ _ _ _ _ _ _ Hplan) as (Hlt & Hmin & Hcounter).
  destruct (codeAnnotations_lookup svc (clock w) counter verificationCode annotationValues)
    as (Hk1 & Hk2 & Hk3 & Hk4).
  eexists signup, _, verificationCode, calls, counter.
  split; [exact Hfind |]. split; [exact Hrep |].
  split; [exact Htr |]. split; [exact Hall |].
  cbn [Labels Annotations States withAnnotations withLabels].
  split; [erewrite lookup_union_Some_l by exact Hk1; reflexivity |].
  split; [erewrite lookup_union_Some_l by exact Hk2; reflexivity |].
  split; [erewrite lookup_union_Some_l by exact Hk4; reflexivity |].
  split; [rewrite (initPlan_labels _ _ _ _ _ _ _ _ Hplan);
          erewrite lookup_union_Some_l by apply lookup_singleton_eq; reflexivity |].
  split; [reflexivity |]. split; [exact Hcounter |].
  assert (Hin : strconv.inInt (counter + 1)) by (unfold strconv.inInt; lia).
  split; [| lia]. unfold index. erewrite lookup_union_Some_l by exact Hk3. cbn [default].
  rewrite wrap_inInt by exact Hin. apply Atoi_Itoa. exact Hin.
Qed.

(** Johnny's second message of the window: the code sent is the code
    stored, and the counter has not passed the limit of 5. *)
Lemma InitVerification_success_witness :
  let w := example.world [example.johnny] [] in
  let w' := snd (InitVerification example.service "johnny" example.phone "1" w) in
  exists signup' verificationCode counter,
    In (SentSMS ("Your verification code is " ++ verificationCode) example.phone "1") (trace w') /\
    client.findSignup "johnny" (userSignups w') = Some signup' /\
    Annotations signup' !! UserSignupVerificationCodeAnnotationKey = Some verificationCode /\
    Annotations signup' !! UserVerificationAttemptsAnnotationKey = Some "0" /\
    strconv.Atoi (index (Annotations signup') UserSignupVerificationCounterAnnotationKey) = Some (counter + 1) /\
    counter + 1 <= 5.
Proof.
  intros w w'.
  destruct (InitVerification_success example.service "johnny" example.phone "1" w w')
    as (signup & signup' & verificationCode & calls & counter &
        _ & Hfind & Htrace & _ & Hcode & Hatt & _ & _ & _ & _ & Hcounter & Hlimit).
  - vm_compute. discriminate.
  - vm_compute. reflexivity.
  - exists signup', verificationCode, counter.
    split; [rewrite Htrace; right; apply in_or_app; right; left; reflexivity |]. auto.
Defined.

(** X6.  The refusals of [InitVerification] before anything is sent or
    stored, in a world without scheduled faults: no such signup, the 404;
    verification not required, the 400; the phone taken, the 403 that names
    the phone number.  Each leaves the world exactly as it was. *)
Theorem InitVerification_refusals svc username phone countryCode w :
  faults w = [] ->
  match client.findSignup (EncodeUserIdentifier svc username) (userSignups w) with
  | None =>
      InitVerification svc username phone countryCode w =
      (inl (NewNotFoundError (client.NewNotFound "usersignups.toolchain.dev.openshift.com"
                                (EncodeUserIdentifier svc username))
                             "usersignup not found" : error), w)
  | Some signup =>
      (states.VerificationRequired signup = false ->
       InitVerification svc username phone countryCode w =
       (inl (NewBadRequest "forbidden request" "verification code will not be sent" : error), w)) /\
      (states.VerificationRequired signup = true ->
       phoneTaken username (phoneLabelValue phone) w = true ->
       InitVerification svc username phone countryCode w =
       (inl (NewForbiddenError "phone number already in use"
               ("cannot register using phone number: " ++ phone) : error), w))
  end.
Proof.
  intros Hf.
  pose proof (GetUserSignup_nofault (EncodeUserIdentifier svc username) w Hf) as HG.
  destruct (client.findSignup _ _) as [signup |].
  - split.
    + intros HV. unfold InitVerification, bind, attempt. rewrite HG, HV. reflexivity.
    + intros HV Htaken. unfold InitVerification, bind at 1, attempt at 1. rewrite HG, HV. cbn [negb].
      unfold bind at 1, attempt at 1.
      rewrite PhoneNumberAlreadyInUse_nofault by exact Hf. rewrite Htaken. reflexivity.
  - unfold InitVerification, bind, attempt. rewrite HG. reflexivity.
Qed.

(** Jane holds Johnny's phone number: no code for Johnny. *)
Lemma InitVerification_refusals_witness :
  let w := example.world [example.johnny; example.jane] [] in
  InitVerification example.service "johnny" example.phone "1" w =
  (inl (NewForbiddenError "phone number already in use"
          ("cannot register using phone number: " ++ example.phone) : error), w).
Proof.
  intros w.
  pose proof (InitVerification_refusals example.service "johnny" example.phone "1" w eq_refl) as H.
  change (client.findSignup (EncodeUserIdentifier example.service "johnny") (userSignups w))
    with (Some example.johnny) in H.
  apply (proj2 H); vm_compute; reflexivity.
Defined.

(** [initPlan] on a counter that is no integer, inside the 24-hour window. *)
Lemma initPlan_corrupt svc signup phone now ts :
  index (Annotations signup) UserSignupVerificationCounterAnnotationKey <> "" ->
  strconv.Atoi (index (Annotations signup) UserSignupVerificationCounterAnnotationKey) = None ->
  time_Parse svc (index (Annotations signup) UserSignupVerificationInitTimestampAnnotationKey) = inr ts ->
  now <= ts + 24 * Hour ->
  initPlan svc signup phone now =
  ({[ UserSignupUserPhoneHashLabelKey := hash.EncodeString phone ]},
   {[ UserSignupVerificationCounterAnnotationKey := strconv.Itoa (DailyLimit (cfg svc)) ]},
   DailyLimit (cfg svc), Some dailyLimitError).
Proof.
  intros Hne HA HT Hnow. unfold initPlan. apply String.eqb_neq in Hne. rewrite Hne, HA, HT. cbn [negb].
  replace (now >? ts + 24 * Hour) with false by (symmetry; rewrite Z.gtb_ltb; apply Z.ltb_ge; lia).
  rewrite Z.geb_leb, Z.leb_refl. reflexivity.
Qed.

(** X7.  A [verification_counter] that is not an integer, inside the
    24-hour window, counts as the daily limit reached: no SMS is sent, and
    unless the update loop fails the call returns the 403 "daily limit
    exceeded" after storing the daily limit as the counter. *)
Theorem InitVerification_corrupt_counter svc username phone countryCode w signup w1 w2 ts r w' :
  client.GetUserSignup (EncodeUserIdentifier svc username) w = (inr signup, w1) ->
  states.VerificationRequired signup = true ->
  PhoneNumberAlreadyInUse username phone w1 = (inr tt, w2) ->
  index (Annotations signup) UserSignupVerificationCounterAnnotationKey <> "" ->
  strconv.Atoi (index (Annotations signup) UserSignupVerificationCounterAnnotationKey) = None ->
  time_Parse svc (index (Annotations signup) UserSignupVerificationInitTimestampAnnotationKey) = inr ts ->
  clock w <= ts + 24 * Hour ->
  InitVerification svc username phone countryCode w = (r, w') ->
  onlyUpdates w w' /\
  ((r = inl dailyLimitError /\
    exists signup',
      client.findSignup (EncodeUserIdentifier svc username) (userSignups w') = Some signup' /\
      Annotations signup' !! UserSignupVerificationCounterAnnotationKey
        = Some (strconv.Itoa (DailyLimit (cfg svc)))) \/
   (r = inl (ErrorString updateFailedMessage) /\ userSignups w' = userSignups w)).
Proof.
  intros HG HV HP Hne HA HT Hnow H.
  rewrite (InitVerification_run _ _ _ _ _ _ _ _ HG HV HP) in H.
  apply GetUserSignup_spec in HG as [(He1 & Hs1 & Ht1) Hfind]. specialize (Hfind _ eq_refl).
  apply PhoneNumberAlreadyInUse_readOnly in HP as (He2 & Hs2 & Ht2).
  assert (Hclock : clock w2 = clock w).
  { destruct He1 as (_ & _ & _ & _ & ?), He2 as (_ & _ & _ & _ & ?). congruence. }
  rewrite Hclock, (initPlan_corrupt _ _ _ _ _ Hne HA HT Hnow) in H.
  destruct (PollUpdateSignup svc _ w2) as [rp w3] eqn:Hpoll. injection H as <- <-.
  unfold PollUpdateSignup in Hpoll. rewrite initDoUpdate_updateWith in Hpoll.
  apply poll_updateWith in Hpoll as (_ & (calls & Hcalls & Hall) & Hstore).
  split; [exists calls; split; [congruence | exact Hall] |].
  destruct rp as [err | []]; [right; split; [reflexivity | congruence] |].
  left. split; [reflexivity |].
  destruct Hstore as (s0 & calls0 & Hfind0 & Hrep & _).
  rewrite Hs2, Hs1, Hfind in Hfind0. injection Hfind0 as <-.
  apply replaceSignup_find in Hrep. cbn [Name withAnnotations withLabels] in Hrep.
  rewrite (findSignup_Name _ _ _ Hfind) in Hrep.
  eexists. split; [exact Hrep |]. cbn [Annotations withAnnotations withLabels].
  erewrite lookup_union_Some_l by apply lookup_singleton_eq. reflexivity.
Qed.

(** Johnny's counter reads "many": the 403, and the counter stored is 5. *)
Lemma InitVerification_corrupt_counter_witness :
  let corrupt := example.annotate UserSignupVerificationCounterAnnotationKey "many" example.johnny in
  let w := example.world [corrupt] [] in
  let w' := snd (InitVerification example.service "johnny" example.phone "1" w) in
  fst (InitVerification example.service "johnny" example.phone "1" w) = inl dailyLimitError /\
  onlyUpdates w w' /\
  exists signup',
    client.findSignup "johnny" (userSignups w') = Some signup' /\
    Annotations signup' !! UserSignupVerificationCounterAnnotationKey = Some "5".
Proof.
  intros corrupt w w'.
  assert (Hr : fst (InitVerification example.service "johnny" example.phone "1" w) = inl dailyLimitError)
    by (vm_compute; reflexivity).
  split; [exact Hr |].
  destruct (InitVerification_corrupt_counter example.service "johnny" example.phone "1" w corrupt w w 900
              (fst (InitVerification example.service "johnny" example.phone "1" w)) w')
    as (Honly & [(_ & Hstored) | (Hfail & _)]).
  - vm_compute. reflexivity.
  - vm_compute. reflexivity.
  - vm_compute. reflexivity.
  - vm_compute. discriminate.
  - vm_compute. reflexivity.
  - vm_compute. reflexivity.
  - vm_compute. discriminate.
  - vm_compute. reflexivity.
  - split; [exact Honly | exact Hstored].
  - rewrite Hr in Hfail. discriminate.
Defined.

(** X8.  [InitVerification] stores nothing when it fails, except with the
    daily-limit error: after any other error the stored signups are as
    before, also when the SMS has gone out already, in which case the user
    holds a code that no signup carries. *)
Theorem InitVerification_failure_stores_nothing svc username phone countryCode w err w' :
  InitVerification svc username phone countryCode w = (inl err, w') ->
  err <> dailyLimitError ->
  userSignups w' = userSignups w.
Proof.
  intros H Hne. pose proof H as Hc.
  apply InitVerification_cases in Hc as [((_ & Hs & _) & _) | (signup & w1 & w2 & HG & HV & HP)];
    [exact Hs |].
  rewrite (InitVerification_run _ _ _ _ _ _ _ _ HG HV HP) in H.
  apply GetUserSignup_spec in HG as [(_ & Hs1 & _) _].
  apply PhoneNumberAlreadyInUse_readOnly in HP as (_ & Hs2 & _).
  destruct (initPlan svc signup phone (clock w2)) as [[[labelValues annotationValues] counter] initError] eqn:Hplan.
  pose proof (initPlan_initError _ _ _ _ _ _ _ _ Hplan) as Hierr.
  destruct initError as [ierr |].
  - destruct (PollUpdateSignup svc _ w2) as [rp w3] eqn:Hpoll. injection H as Herr <-.
    unfold PollUpdateSignup in Hpoll. rewrite initDoUpdate_updateWith in Hpoll.
    apply poll_updateWith in Hpoll as (_ & _ & Hstore).
    destruct rp as [e | []]; [congruence |].
    destruct (counter >=? DailyLimit (cfg svc)); congruence.
  - destruct (generateVerificationCode w2) as [[gerr | verificationCode] w3] eqn:Hgen;
      apply generateVerificationCode_state in Hgen; subst w3.
    { injection H as _ <-. congruence. }
    destruct (SendNotification _ phone countryCode w2) as [rs w4] eqn:Hsend.
    apply SendNotification_spec in Hsend as [-> ->].
    destruct (smsFailure w2) as [serr |]; [injection H as _ <-; cbn; congruence |].
    destruct (PollUpdateSignup svc _ _) as [[e | []] w5] eqn:Hpoll; [| discriminate].
    injection H as _ <-.
    unfold PollUpdateSignup in Hpoll. rewrite initDoUpdate_updateWith in Hpoll.
    apply poll_updateWith in Hpoll as (_ & _ & Hstore). cbn in Hstore. congruence.
Qed.

(** The API server refuses every update: the code has been sent, and
    Johnny's signup does not hold it. *)
Lemma InitVerification_failure_stores_nothing_witness :
  let w := example.world [example.johnny] example.updatesFail in
  let w' := snd (InitVerification example.service "johnny" example.phone "1" w) in
  last (trace w') = Some (SentSMS "Your verification code is 789015" example.phone "1") /\
  userSignups w' = userSignups w.
Proof.
  intros w w'. split; [vm_compute; reflexivity |].
  apply (InitVerification_failure_stores_nothing example.service "johnny" example.phone "1" w
           (ErrorString updateFailedMessage) w').
  - vm_compute. reflexivity.
  - discriminate.
Defined.

(** *** [VerifyPhoneCode]: refusals *)

(** *** What an update leaves alone *)

Lemma replaceSignup_other s l l' name :
  client.replaceSignup s l = Some l' -> name <> Name s ->
  client.findSignup name l' = client.findSignup name l.
Proof.
  unfold client.findSignup. revert l'. induction l as [| x l IH]; intros l'; cbn [client.replaceSignup];
    [discriminate |].
  destruct (String.eqb (Name x) (Name s)) eqn:E.
  - intros [= <-] Hne. apply String.eqb_eq in E. cbn [find].
    replace (String.eqb (Name s) name) with false by (symmetry; apply String.eqb_neq; congruence).
    replace (String.eqb (Name x) name) with false by (symmetry; apply String.eqb_neq; congruence).
    reflexivity.
  - destruct (client.replaceSignup s l) as [l0 |]; [| discriminate].
    intros [= <-] Hne. cbn [find]. rewrite (IH l0 eq_refl Hne). reflexivity.
Qed.

Lemma replaceSignup_same s l l' :
  client.findSignup (Name s) l = Some s -> client.replaceSignup s l = Some l' -> l' = l.
Proof.
  unfold client.findSignup. revert l'. induction l as [| x l IH]; intros l'; cbn [client.replaceSignup find];
    [discriminate |].
  destruct (String.eqb (Name x) (Name s)) eqn:E.
  - intros [= ->] [= <-]. reflexivity.
  - destruct (client.replaceSignup s l) as [l0 |]; [| discriminate].
    intros Hfind [= <-]. rewrite (IH l0 Hfind eq_refl). reflexivity.
Qed.

Lemma withAnnotations_empty s : withAnnotations (fun annotations => ∅ ∪ annotations) s = s.
Proof. destruct s. unfold withAnnotations. cbn. rewrite (left_id_L ∅ (∪)). reflexivity. Qed.

(** Whenever [verifyPlan] finds an error, verification stays required,
    nothing is deleted, and at most the attempts are set. *)
Lemma verifyPlan_error svc signup code now unset values deletes err :
  verifyPlan svc signup code now = (unset, values, deletes, Some err) ->
  unset = false /\ deletes = [] /\
  forall k, k <> UserVerificationAttemptsAnnotationKey -> values !! k = None.
Proof.
  unfold verifyPlan.
  destruct (strconv.Atoi _) as [n |].
  - destruct (n >=? AttemptsAllowed (cfg svc)).
    { intros [= <- <- <- _]. split; [reflexivity |]. split; [reflexivity |]. intros k _. apply lookup_empty. }
    destruct (time_Parse svc _) as [perr | exp].
    { intros [= <- <- <- _]. split; [reflexivity |]. split; [reflexivity |]. intros k _. apply lookup_empty. }
    destruct (now >? exp).
    { intros [= <- <- <- _]. split; [reflexivity |]. split; [reflexivity |]. intros k _. apply lookup_empty. }
    destruct (negb (String.eqb code _)); [| discriminate].
    intros [= <- <- <- _]. split; [reflexivity |]. split; [reflexivity |]. intros k Hk.
    rewrite lookup_insert_ne by congruence. apply lookup_empty.
  - rewrite Z.geb_leb, Z.leb_refl. intros [= <- <- <- _]. split; [reflexivity |]. split; [reflexivity |].
    intros k Hk. rewrite lookup_insert_ne by congruence. apply lookup_empty.
Qed.

(** How [VerifyPhoneCode] ends when [verifyPlan] finds an error: with
    that error, after storing the signup with the annotations of the plan;
    or with the error of a failed update, nothing stored.  No SMS either
    way. *)
Lemma VerifyPhoneCode_refused svc username code w signup w1 w2 unset values deletes err r w' :
  client.GetUserSignup (EncodeUserIdentifier svc username) w = (inr signup, w1) ->
  reactivationCheck svc signup = None ->
  PhoneNumberAlreadyInUse username (index (Labels signup) UserSignupUserPhoneHashLabelKey) w1 = (inr tt, w2) ->
  verifyPlan svc signup code (clock w) = (unset, values, deletes, Some err) ->
  VerifyPhoneCode svc username code w = (r, w') ->
  onlyUpdates w w' /\
  ((r = inl err /\
    client.replaceSignup (withAnnotations (fun annotations => values ∪ annotations) signup) (userSignups w)
      = Some (userSignups w')) \/
   (r = inl (ErrorString updateFailedMessage) /\ userSignups w' = userSignups w)).
Proof.
  intros HG HR HP Hplan H.
  rewrite (VerifyPhoneCode_run _ _ _ _ _ _ _ HG HR HP) in H.
  apply GetUserSignup_spec in HG as [(He1 & Hs1 & Ht1) Hfind]. specialize (Hfind _ eq_refl).
  apply PhoneNumberAlreadyInUse_readOnly in HP as (He2 & Hs2 & Ht2).
  assert (Hclock : clock w2 = clock w).
  { destruct He1 as (_ & _ & _ & _ & ?), He2 as (_ & _ & _ & _ & ?). congruence. }
  rewrite Hclock, Hplan in H.
  destruct (verifyPlan_error _ _ _ _ _ _ _ _ Hplan) as (-> & -> & _).
  destruct (PollUpdateSignup svc _ w2) as [rp w3] eqn:Hpoll.
  unfold PollUpdateSignup in Hpoll. rewrite verifyDoUpdate_updateWith in Hpoll.
  apply poll_updateWith in Hpoll as (_ & (calls & Hcalls & Hall) & Hstore).
  assert (Hw : w' = w3) by (destruct rp as [e | []]; congruence). subst w3.
  split; [exists calls; split; [congruence | exact Hall] |].
  destruct rp as [e | []]; injection H as <-.
  - right. split; [reflexivity | congruence].
  - left. split; [reflexivity |].
    destruct Hstore as (s0 & calls0 & Hfind0 & Hrep & _).
    rewrite Hs2, Hs1, Hfind in Hfind0. injection Hfind0 as <-.
    cbn [fold_left] in Hrep. rewrite Hs2, Hs1 in Hrep.
    destruct signup. exact Hrep.
Qed.

(** X9.  A call of [VerifyPhoneCode] that returns an error, whichever,
    sends no SMS and leaves the signup of the user as good as it was: the
    states (so verification stays required), the labels and every
    annotation except [verification_attempts] are unchanged. *)
Theorem VerifyPhoneCode_failure_frame svc username code w signup err w' :
  client.findSignup (EncodeUserIdentifier svc username) (userSignups w) = Some signup ->
  VerifyPhoneCode svc username code w = (inl err, w') ->
  onlyUpdates w w' /\
  exists signup',
    client.findSignup (EncodeUserIdentifier svc username) (userSignups w') = Some signup' /\
    States signup' = States signup /\ Labels signup' = Labels signup /\
    forall k, k <> UserVerificationAttemptsAnnotationKey ->
              Annotations signup' !! k = Annotations signup !! k.
Proof.
  intros Hfind H.
  assert (Hsame : forall w0, readOnly w w0 ->
            onlyUpdates w w0 /\
            exists signup',
              client.findSignup (EncodeUserIdentifier svc username) (userSignups w0) = Some signup' /\
              States signup' = States signup /\ Labels signup' = Labels signup /\
              forall k, k <> UserVerificationAttemptsAnnotationKey ->
                        Annotations signup' !! k = Annotations signup !! k).
  { intros w0 (_ & Hs & Ht). split; [exists []; split; [exact Ht | constructor] |].
    exists signup. rewrite Hs. auto. }
  pose proof H as Hc.
  apply VerifyPhoneCode_cases in Hc
    as [(gerr & HG & _) | (sg & w1 & HG & [(rerr & _ & _ & ->) | (HR & [(perr & HP & _) | (w2 & HP)])])].
  - apply Hsame. apply GetUserSignup_spec in HG as [Hro _]. exact Hro.
  - apply Hsame. apply GetUserSignup_spec in HG as [Hro _]. exact Hro.
  - apply Hsame. apply GetUserSignup_spec in HG as [Hro _].
    apply PhoneNumberAlreadyInUse_readOnly in HP. eapply readOnly_trans; eassumption.
  - pose proof HG as HG'. apply GetUserSignup_spec in HG' as [(He1 & Hs1 & Ht1) Hfind1].
    specialize (Hfind1 _ eq_refl). rewrite Hfind in Hfind1. injection Hfind1 as <-.
    destruct (verifyPlan svc signup code (clock w)) as [[[unset values] deletes] [verr |]] eqn:Hplan.
    + destruct (VerifyPhoneCode_refused _ _ _ _ _ _ _ _ _ _ _ _ _ HG HR HP Hplan H)
        as (Honly & [(_ & Hrep) | (_ & Hs)]).
      * split; [exact Honly |]. apply replaceSignup_find in Hrep.
        cbn [Name withAnnotations] in Hrep. rewrite (findSignup_Name _ _ _ Hfind) in Hrep.
        eexists. split; [exact Hrep |]. cbn [States Labels Annotations withAnnotations].
        split; [reflexivity |]. split; [reflexivity |].
        intros k Hk. destruct (verifyPlan_error _ _ _ _ _ _ _ _ Hplan) as (_ & _ & Hvalues).
        apply lookup_union_r. apply Hvalues. exact Hk.
      * split; [exact Honly |]. exists signup. rewrite Hs. auto.
    + (* the plan finds no error: the call fails only if the update does *)
      rewrite (VerifyPhoneCode_run _ _ _ _ _ _ _ HG HR HP) in H.
      apply PhoneNumberAlreadyInUse_readOnly in HP as (He2 & Hs2 & Ht2).
      assert (Hclock : clock w2 = clock w).
      { destruct He1 as (_ & _ & _ & _ & ?), He2 as (_ & _ & _ & _ & ?). congruence. }
      rewrite Hclock, Hplan in H.
      destruct (PollUpdateSignup svc _ w2) as [[e | []] w3] eqn:Hpoll; [| discriminate].
      injection H as _ <-.
      unfold PollUpdateSignup in Hpoll. rewrite verifyDoUpdate_updateWith in Hpoll.
      apply poll_updateWith in Hpoll as (_ & (calls & Hcalls & Hall) & Hs).
      split; [exists calls; split; [congruence | exact Hall] |].
      exists signup. rewrite Hs, Hs2, Hs1. auto.
Qed.

(** A wrong code: Johnny still has to verify, with the code he was sent. *)
Lemma VerifyPhoneCode_failure_frame_witness :
  let w := example.world [example.johnny] [] in
  let w' := snd (VerifyPhoneCode example.service "johnny" "111111" w) in
  exists signup',
    client.findSignup "johnny" (userSignups w') = Some signup' /\
    States signup' = States example.johnny /\
    Annotations signup' !! UserSignupVerificationCodeAnnotationKey = Some "999888".
Proof.
  intros w w'.
  destruct (VerifyPhoneCode_failure_frame example.service "johnny" "111111" w example.johnny
              (NewForbiddenError "invalid code" "the provided code is invalid") w')
    as (_ & signup' & Hfind & Hstates & _ & Hann).
  - vm_compute. reflexivity.
  - vm_compute. reflexivity.
  - exists signup'. split; [exact Hfind |]. split; [exact Hstates |].
    rewrite Hann by (apply String.eqb_neq; reflexivity). vm_compute. reflexivity.
Defined.

Lemma verifyPlan_exhausted svc signup code now :
  match strconv.Atoi (index (Annotations signup) UserVerificationAttemptsAnnotationKey) with
  | Some n => AttemptsAllowed (cfg svc) <= n
  | None => True
  end ->
  verifyPlan svc signup code now =
  (false,
   match strconv.Atoi (index (Annotations signup) UserVerificationAttemptsAnnotationKey) with
   | Some _ => ∅
   | None => {[ UserVerificationAttemptsAnnotationKey := strconv.Itoa (AttemptsAllowed (cfg svc)) ]}
   end, [], Some tooManyAttemptsError).
Proof.
  unfold verifyPlan. destruct (strconv.Atoi _) as [n |]; intros Hn.
  - replace (n >=? AttemptsAllowed (cfg svc)) with true by (symmetry; rewrite Z.geb_leb; apply Z.leb_le; lia).
    reflexivity.
  - rewrite Z.geb_leb, Z.leb_refl. reflexivity.
Qed.

(** X10.  Once the attempts are used up, no code is accepted, not even the
    right one: with the signup loaded, the captcha gate passed and the phone
    free, the call fails with the 429 "too many verification attempts"
    (unless the update loop fails).  The stored signups stay as they are
    when the count reads as an integer; a count that does not is taken as
    used up and stored as the number of attempts allowed. *)
Theorem VerifyPhoneCode_attempts_exhausted svc username code w signup w1 w2 r w' :
  client.GetUserSignup (EncodeUserIdentifier svc username) w = (inr signup, w1) ->
  reactivationCheck svc signup = None ->
  PhoneNumberAlreadyInUse username (index (Labels signup) UserSignupUserPhoneHashLabelKey) w1 = (inr tt, w2) ->
  match strconv.Atoi (index (Annotations signup) UserVerificationAttemptsAnnotationKey) with
  | Some n => AttemptsAllowed (cfg svc) <= n
  | None => True
  end ->
  VerifyPhoneCode svc username code w = (r, w') ->
  httpCode tooManyAttemptsError = Some crterrors.StatusTooManyRequests /\
  ((r = inl tooManyAttemptsError /\
    match strconv.Atoi (index (Annotations signup) UserVerificationAttemptsAnnotationKey) with
    | Some _ => userSignups w' = userSignups w
    | None =>
        exists signup',
          client.findSignup (EncodeUserIdentifier svc username) (userSignups w') = Some signup' /\
          Annotations signup' !! UserVerificationAttemptsAnnotationKey
            = Some (strconv.Itoa (AttemptsAllowed (cfg svc)))
    end) \/
   (r = inl (ErrorString updateFailedMessage) /\ userSignups w' = userSignups w)).
Proof.
  intros HG HR HP Hn H. split; [reflexivity |].
  pose proof (verifyPlan_exhausted svc signup code (clock w) Hn) as Hplan.
  destruct (VerifyPhoneCode_refused _ _ _ _ _ _ _ _ _ _ _ _ _ HG HR HP Hplan H)
    as (_ & [(-> & Hrep) | Hfail]); [left | right; exact Hfail].
  split; [reflexivity |].
  apply GetUserSignup_spec in HG as [_ Hfind]. specialize (Hfind _ eq_refl).
  destruct (strconv.Atoi _) as [n |].
  - rewrite withAnnotations_empty in Hrep. eapply replaceSignup_same; [| exact Hrep].
    rewrite (findSignup_Name _ _ _ Hfind). exact Hfind.
  - apply replaceSignup_find in Hrep. cbn [Name withAnnotations] in Hrep.
    rewrite (findSignup_Name _ _ _ Hfind) in Hrep.
    eexists. split; [exact Hrep |]. cbn [Annotations withAnnotations].
    erewrite lookup_union_Some_l by apply lookup_singleton_eq. reflexivity.
Qed.

(** Three attempts made, three allowed: the right code gets the 429. *)
Lemma VerifyPhoneCode_attempts_exhausted_witness :
  let locked := example.annotate UserVerificationAttemptsAnnotationKey "3" example.johnny in
  let w := example.world [locked] [] in
  let w' := snd (VerifyPhoneCode example.service "johnny" "999888" w) in
  index (Annotations locked) UserSignupVerificationCodeAnnotationKey = "999888" /\
  VerifyPhoneCode example.service "johnny" "999888" w = (inl tooManyAttemptsError, w') /\
  userSignups w' = userSignups w.
Proof.
  intros locked w w'. split; [vm_compute; reflexivity |].
  assert (H : VerifyPhoneCode example.service "johnny" "999888" w = (inl tooManyAttemptsError, w'))
    by (vm_compute; reflexivity).
  split; [exact H |].
  destruct (VerifyPhoneCode_attempts_exhausted example.service "johnny" "999888" w locked w w
              (inl tooManyAttemptsError) w')
    as (_ & [(_ & Hs) | (Hr & _)]).
  - vm_compute. reflexivity.
  - vm_compute. reflexivity.
  - vm_compute. reflexivity.
  - vm_compute. discriminate.
  - exact H.
  - exact Hs.
  - exfalso. clear - Hr. discriminate Hr.
Defined.

Lemma verifyPlan_expired svc signup code now n :
  strconv.Atoi (index (Annotations signup) UserVerificationAttemptsAnnotationKey) = Some n ->
  n < AttemptsAllowed (cfg svc) ->
  match time_Parse svc (index (Annotations signup) UserVerificationExpiryAnnotationKey) with
  | inl _ => True
  | inr exp => exp < now
  end ->
  verifyPlan svc signup code now = (false, ∅, [], Some (expiryError svc signup)).
Proof.
  intros HA Hn Hexp. unfold verifyPlan, expiryError. rewrite HA.
  replace (n >=? AttemptsAllowed (cfg svc)) with false by (symmetry; rewrite Z.geb_leb; apply Z.leb_gt; lia).
  destruct (time_Parse svc _) as [perr | exp]; [reflexivity |].
  replace (now >? exp) with true by (symmetry; rewrite Z.gtb_ltb; apply Z.ltb_lt; lia).
  reflexivity.
Qed.

(** X11.  After the expiry no code is accepted, not even the right one, and
    no attempt is counted: with attempts left, an expiry that lies in the
    past makes the call fail with the 403 "verification code expired", an
    expiry that does not parse with a 500 (unless the update loop fails);
    the stored signups stay as they are. *)
Theorem VerifyPhoneCode_expired svc username code w signup w1 w2 n r w' :
  client.GetUserSignup (EncodeUserIdentifier svc username) w = (inr signup, w1) ->
  reactivationCheck svc signup = None ->
  PhoneNumberAlreadyInUse username (index (Labels signup) UserSignupUserPhoneHashLabelKey) w1 = (inr tt, w2) ->
  strconv.Atoi (index (Annotations signup) UserVerificationAttemptsAnnotationKey) = Some n ->
  n < AttemptsAllowed (cfg svc) ->
  match time_Parse svc (index (Annotations signup) UserVerificationExpiryAnnotationKey) with
  | inl _ => True
  | inr exp => exp < clock w
  end ->
  VerifyPhoneCode svc username code w = (r, w') ->
  (r = inl (expiryError svc signup) \/ r = inl (ErrorString updateFailedMessage)) /\
  userSignups w' = userSignups w /\
  httpCode (expiryError svc signup) =
    Some (match time_Parse svc (index (Annotations signup) UserVerificationExpiryAnnotationKey) with
          | inl _ => crterrors.StatusInternalServerError
          | inr _ => crterrors.StatusForbidden
          end).
Proof.
  intros HG HR HP HA Hn Hexp H.
  pose proof (verifyPlan_expired svc signup code (clock w) n HA Hn Hexp) as Hplan.
  destruct (VerifyPhoneCode_refused _ _ _ _ _ _ _ _ _ _ _ _ _ HG HR HP Hplan H)
    as (_ & [(-> & Hrep) | (-> & Hs)]).
  - split; [left; reflexivity |]. split.
    + apply GetUserSignup_spec in HG as [_ Hfind]. specialize (Hfind _ eq_refl).
      rewrite withAnnotations_empty in Hrep. eapply replaceSignup_same; [| exact Hrep].
      rewrite (findSignup_Name _ _ _ Hfind). exact Hfind.
    + unfold expiryError. destruct (time_Parse svc _); reflexivity.
  - split; [right; reflexivity |]. split; [exact Hs |].
    unfold expiryError. destruct (time_Parse svc _); reflexivity.
Qed.

(** The code expired at 2000 and it is 2001. *)
Lemma VerifyPhoneCode_expired_witness :
  let w := setClock 2001 (example.world [example.johnny] []) in
  let w' := snd (VerifyPhoneCode example.service "johnny" "999888" w) in
  VerifyPhoneCode example.service "johnny" "999888" w
    = (inl (NewForbiddenError "expired" "verification code expired" : error), w') /\
  userSignups w' = userSignups w.
Proof.
  intros w w'.
  assert (H : VerifyPhoneCode example.service "johnny" "999888" w
              = (inl (NewForbiddenError "expired" "verification code expired" : error), w'))
    by (vm_compute; reflexivity).
  split; [exact H |].
  refine (proj1 (proj2
    (VerifyPhoneCode_expired example.service "johnny" "999888" w example.johnny w w 0
       (inl (NewForbiddenError "expired" "verification code expired" : error)) w' _ _ _ _ _ _ H))).
  - vm_compute. reflexivity.
  - vm_compute. reflexivity.
  - vm_compute. reflexivity.
  - vm_compute. reflexivity.
  - vm_compute. reflexivity.
  - vm_compute. reflexivity.
Defined.

(** *** The frame of the two calls *)

Lemma touchesOnly_readOnly name w w' : readOnly w w' -> touchesOnly name w w'.
Proof. intros (He & Hs & _). split; [exact He |]. intros other _. rewrite Hs. reflexivity. Qed.

Lemma touchesOnly_trans name w1 w2 w3 :
  touchesOnly name w1 w2 -> touchesOnly name w2 w3 -> touchesOnly name w1 w3.
Proof.
  intros (He1 & H1) (He2 & H2). split; [eapply sameEnv_trans; eassumption |].
  intros other Hne. rewrite H2, H1 by exact Hne. reflexivity.
Qed.

Lemma poll_touchesOnly retriable n name f w r w' :
  (forall s, Name (f s) = Name s) ->
  pollUpdate retriable n (updateWith name f) w = (r, w') -> touchesOnly name w w'.
Proof.
  intros Hname H. apply poll_updateWith in H as (He & _ & Hstore). split; [exact He |].
  intros other Hne. destruct r as [err | []]; [rewrite Hstore; reflexivity |].
  destruct Hstore as (s0 & calls & Hfind & Hrep & _).
  eapply replaceSignup_other; [exact Hrep |].
  rewrite Hname, (findSignup_Name _ _ _ Hfind). exact Hne.
Qed.

(** X12.  [InitVerification] and [VerifyPhoneCode], however they end, change
    no resource but the signup of the user: the banned users and the social
    events are as before, and so is every signup under another name. *)
Theorem verification_touches_only_the_user svc username :
  (forall phone countryCode w r w',
     InitVerification svc username phone countryCode w = (r, w') ->
     touchesOnly (EncodeUserIdentifier svc username) w w') /\
  (forall code w r w',
     VerifyPhoneCode svc username code w = (r, w') ->
     touchesOnly (EncodeUserIdentifier svc username) w w').
Proof.
  split.
  - intros phone countryCode w r w' H. pose proof H as Hc.
    apply InitVerification_cases in Hc as [(Hro & _) | (signup & w1 & w2 & HG & HV & HP)];
      [apply touchesOnly_readOnly; exact Hro |].
    rewrite (InitVerification_run _ _ _ _ _ _ _ _ HG HV HP) in H.
    apply GetUserSignup_spec in HG as [Hro1 _].
    apply PhoneNumberAlreadyInUse_readOnly in HP.
    assert (Hro : readOnly w w2) by (eapply readOnly_trans; eassumption).
    eapply touchesOnly_trans; [apply touchesOnly_readOnly; exact Hro |].
    destruct (initPlan svc signup phone (clock w2)) as [[[labelValues annotationValues] counter] initError].
    destruct initError as [ierr |].
    + destruct (PollUpdateSignup svc _ w2) as [rp w3] eqn:Hpoll. injection H as _ <-.
      unfold PollUpdateSignup in Hpoll. rewrite initDoUpdate_updateWith in Hpoll.
      eapply poll_touchesOnly; [| exact Hpoll]. reflexivity.
    + destruct (generateVerificationCode w2) as [[gerr | verificationCode] w3] eqn:Hgen;
        apply generateVerificationCode_state in Hgen; subst w3.
      { injection H as _ <-. apply touchesOnly_readOnly, readOnly_refl. }
      destruct (SendNotification _ phone countryCode w2) as [rs w4] eqn:Hsend.
      apply SendNotification_spec in Hsend as [-> ->].
      assert (Hsent : touchesOnly (EncodeUserIdentifier svc username) w2
                        (record (SentSMS (Sprintf svc (MessageTemplate (cfg svc)) verificationCode)
                                   phone countryCode) w2)).
      { split; [repeat split |]. reflexivity. }
      destruct (smsFailure w2) as [serr |]; [injection H as _ <-; exact Hsent |].
      destruct (PollUpdateSignup svc _ _) as [rp w5] eqn:Hpoll.
      assert (Hw' : w' = w5) by (destruct rp as [e | []]; congruence). subst w5.
      unfold PollUpdateSignup in Hpoll. rewrite initDoUpdate_updateWith in Hpoll.
      eapply touchesOnly_trans; [exact Hsent |].
      eapply poll_touchesOnly; [| exact Hpoll]. reflexivity.
  - intros code w r w' H. pose proof H as Hc.
    apply VerifyPhoneCode_cases in Hc
      as [(gerr & HG & _) | (sg & w1 & HG & [(rerr & _ & _ & ->) | (HR & [(perr & HP & _) | (w2 & HP)])])].
    + apply touchesOnly_readOnly. apply GetUserSignup_spec in HG as [Hro _]. exact Hro.
    + apply touchesOnly_readOnly. apply GetUserSignup_spec in HG as [Hro _]. exact Hro.
    + apply touchesOnly_readOnly. apply GetUserSignup_spec in HG as [Hro _].
      apply PhoneNumberAlreadyInUse_readOnly in HP. eapply readOnly_trans; eassumption.
    + rewrite (VerifyPhoneCode_run _ _ _ _ _ _ _ HG HR HP) in H.
      apply GetUserSignup_spec in HG as [Hro1 _].
      apply PhoneNumberAlreadyInUse_readOnly in HP.
      assert (Hro : readOnly w w2) by (eapply readOnly_trans; eassumption).
      eapply touchesOnly_trans; [apply touchesOnly_readOnly; exact Hro |].
      destruct (verifyPlan svc sg code (clock w2)) as [[[unset values] deletes] verr].
      destruct (PollUpdateSignup svc _ w2) as [rp w3] eqn:Hpoll.
      assert (Hw' : w' = w3) by (destruct rp as [e | []]; congruence). subst w3.
      unfold PollUpdateSignup in Hpoll. rewrite verifyDoUpdate_updateWith in Hpoll.
      eapply poll_touchesOnly; [| exact Hpoll]. intros s. destruct unset; reflexivity.
Qed.

(** *** From [InitVerification] to [VerifyPhoneCode] *)

(** [initPlan] sets no annotation but the counter and the timestamp. *)
Lemma initPlan_keys svc signup phone now labelValues annotationValues counter initError k :
  initPlan svc signup phone now = (labelValues, annotationValues, counter, initError) ->
  k <> UserSignupVerificationCounterAnnotationKey ->
  k <> UserSignupVerificationInitTimestampAnnotationKey ->
  annotationValues !! k = None.
Proof.
  unfold initPlan.
  destruct (negb (String.eqb _ "")); [destruct (strconv.Atoi _) |];
    (destruct (time_Parse svc _) as [perr | ts]; [| destruct (now >? ts + 24 * Hour)]);
    intros [= _ <- _ _] H1 H2;
    rewrite ?lookup_insert_ne by congruence; apply lookup_empty.
Qed.

Lemma codeAnnotations_other svc now counter verificationCode annotationValues k :
  k <> UserVerificationExpiryAnnotationKey -> k <> UserSignupVerificationCodeAnnotationKey ->
  k <> UserSignupVerificationCounterAnnotationKey -> k <> UserVerificationAttemptsAnnotationKey ->
  codeAnnotations svc now counter verificationCode annotationValues !! k = annotationValues !! k.
Proof.
  intros H1 H2 H3 H4. unfold codeAnnotations. rewrite !lookup_insert_ne by congruence. reflexivity.
Qed.

(** The captcha gate reads the activation counter and the captcha score
    only. *)
Lemma reactivationCheck_ext svc s s' :
  Annotations s' !! UserSignupActivationCounterAnnotationKey
    = Annotations s !! UserSignupActivationCounterAnnotationKey ->
  Annotations s' !! UserSignupCaptchaScoreAnnotationKey
    = Annotations s !! UserSignupCaptchaScoreAnnotationKey ->
  reactivationCheck svc s' = reactivationCheck svc s.
Proof.
  intros H1 H2. unfold reactivationCheck, checkRequiredManualApproval. rewrite H1, H2. reflexivity.
Qed.

Lemma existsb_replaceSignup (P : UserSignup -> bool) s l l' :
  client.replaceSignup s l = Some l' -> existsb P l = false -> P s = false -> existsb P l' = false.
Proof.
  revert l'. induction l as [| x l IH]; intros l'; cbn [client.replaceSignup existsb]; [discriminate |].
  intros Hrep Hex HP. apply orb_false_iff in Hex as [Hx Hl].
  destruct (String.eqb (Name x) (Name s)).
  - injection Hrep as <-. cbn [existsb]. rewrite HP, Hl. reflexivity.
  - destruct (client.replaceSignup s l) as [l0 |]; [| discriminate]. injection Hrep as <-.
    cbn [existsb]. rewrite Hx, (IH l0 eq_refl Hl HP). reflexivity.
Qed.

(** [verifyPlan] on the stored code, with attempts left, in time. *)
Lemma verifyPlan_match svc signup now n exp :
  strconv.Atoi (index (Annotations signup) UserVerificationAttemptsAnnotationKey) = Some n ->
  n < AttemptsAllowed (cfg svc) ->
  time_Parse svc (index (Annotations signup) UserVerificationExpiryAnnotationKey) = inr exp ->
  now <= exp ->
  verifyPlan svc signup (index (Annotations signup) UserSignupVerificationCodeAnnotationKey) now =
  (true, ∅, verificationAnnotations, None).
Proof.
  intros HA Hn HT Hexp. unfold verifyPlan. rewrite HA, HT.
  replace (n >=? AttemptsAllowed (cfg svc)) with false by (symmetry; rewrite Z.geb_leb; apply Z.leb_gt; lia).
  replace (now >? exp) with false by (symmetry; rewrite Z.gtb_ltb; apply Z.ltb_ge; lia).
  rewrite String.eqb_refl. reflexivity.
Qed.

(** The loop stops at the first invocation that succeeds. *)
Lemma pollUpdate_first {S : Type} (retriable : error -> bool) n (updater : M S unit) s s' :
  updater s = (inr tt, s') -> pollUpdate retriable n updater s = (inr tt, s').
Proof. intros H. destruct n; cbn [pollUpdate]; rewrite H; reflexivity. Qed.

(** X13.  The code that [InitVerification] sends is the code that
    [VerifyPhoneCode] accepts.  After a successful [InitVerification] for a
    signup of the user's own preferred username that passes the captcha
    gate, with an expiry that the timestamp layout reads back as written, at
    least one attempt allowed and no fault scheduled, the code of the SMS,
    presented at any instant up to the expiry, verifies the user: the call
    succeeds and verification is no longer required. *)
Theorem InitVerification_then_VerifyPhoneCode svc username phone countryCode w w' signup t :
  (let expiry := clock w + strconv.wrap (strconv.wrap (CodeExpiresInMin (cfg svc)) * Minute) in
   time_Parse svc (time_Format svc expiry) = inr expiry) ->
  0 < AttemptsAllowed (cfg svc) ->
  hasHashSuffix phone = false ->
  client.findSignup (EncodeUserIdentifier svc username) (userSignups w) = Some signup ->
  PreferredUsername signup = username ->
  reactivationCheck svc signup = None ->
  InitVerification svc username phone countryCode w = (inr tt, w') ->
  faults w' = [] ->
  t <= clock w + strconv.wrap (strconv.wrap (CodeExpiresInMin (cfg svc)) * Minute) ->
  exists verificationCode updated calls w'' verified,
    trace w' = (UpdateCall updated :: calls ++
                 [SentSMS (Sprintf svc (MessageTemplate (cfg svc)) verificationCode) phone countryCode] ++
                 trace w)%list /\
    Forall isUpdateCall calls /\
    VerifyPhoneCode svc username verificationCode (setClock t w') = (inr tt, w'') /\
    client.findSignup (EncodeUserIdentifier svc username) (userSignups w'') = Some verified /\
    states.VerificationRequired verified = false.
Proof.
  intros Hlayout Hallowed Hphone Hfind Hpref HR H Hf Ht.
  apply InitVerification_inr in H
    as (signup0 & labelValues & annotationValues & counter & verificationCode & calls &
        Hfind0 & _ & Htaken & Hplan & _ & _ & Henv & Hrep & Htr & Hall).
  rewrite Hfind in Hfind0. injection Hfind0 as <-.
  set (values := codeAnnotations svc (clock w) counter verificationCode annotationValues) in *.
  set (signup' := withAnnotations (fun annotations => values ∪ annotations)
                    (withLabels (fun labels => labelValues ∪ labels) signup)) in *.
  pose proof (findSignup_Name _ _ _ Hfind) as Hname.
  assert (Hfind' : client.findSignup (EncodeUserIdentifier svc username) (userSignups w') = Some signup').
  { rewrite <- Hname. apply (replaceSignup_find signup' _ _ Hrep). }
  destruct (codeAnnotations_lookup svc (clock w) counter verificationCode annotationValues)
    as (Hk1 & Hk2 & _ & Hk4). fold values in Hk1, Hk2, Hk4.
  set (wv := setClock t w').
  assert (Hfv : faults wv = []) by exact Hf.
  assert (HG : client.GetUserSignup (EncodeUserIdentifier svc username) wv = (inr signup', wv)).
  { rewrite GetUserSignup_nofault by exact Hfv. cbn [wv setClock userSignups]. rewrite Hfind'. reflexivity. }
  assert (HR' : reactivationCheck svc signup' = None).
  { rewrite <- HR. apply reactivationCheck_ext; cbn [signup' Annotations withAnnotations withLabels];
      (rewrite lookup_union_r; [reflexivity |]);
      unfold values; rewrite codeAnnotations_other by (apply String.eqb_neq; reflexivity);
      apply (initPlan_keys _ _ _ _ _ _ _ _ _ Hplan); apply String.eqb_neq; reflexivity. }
  assert (Hlabel : index (Labels signup') UserSignupUserPhoneHashLabelKey = hash.EncodeString phone).
  { unfold index. cbn [signup' Labels withAnnotations withLabels].
    rewrite (initPlan_labels _ _ _ _ _ _ _ _ Hplan).
    erewrite lookup_union_Some_l by apply lookup_singleton_eq. reflexivity. }
  assert (HP : PhoneNumberAlreadyInUse username (index (Labels signup') UserSignupUserPhoneHashLabelKey) wv
               = (inr tt, wv)).
  { rewrite PhoneNumberAlreadyInUse_nofault by exact Hfv. rewrite Hlabel.
    rewrite (phoneLabelValue_cases (hash.EncodeString phone)),
      (isHash_hasHashSuffix _ (EncodeString_isHash phone)).
    rewrite phoneLabelValue_cases, Hphone in Htaken.
    unfold phoneTaken in *. cbn [wv setClock userSignups bannedUsers].
    apply orb_false_iff in Htaken as [Hb Hs]. destruct Henv as (-> & _). rewrite Hb. cbn [orb].
    erewrite existsb_replaceSignup; [reflexivity | exact Hrep | exact Hs |].
    cbn [signup' PreferredUsername withAnnotations withLabels]. rewrite Hpref, String.eqb_refl.
    cbn [negb]. rewrite andb_false_r. reflexivity. }
  assert (Hcode : index (Annotations signup') UserSignupVerificationCodeAnnotationKey = verificationCode).
  { unfold index. cbn [signup' Annotations withAnnotations withLabels].
    erewrite lookup_union_Some_l by exact Hk1. reflexivity. }
  assert (Hplan' : verifyPlan svc signup' verificationCode t = (true, ∅, verificationAnnotations, None)).
  { rewrite <- Hcode at 1.
    apply (verifyPlan_match svc signup' t 0
             (clock w + strconv.wrap (strconv.wrap (CodeExpiresInMin (cfg svc)) * Minute))).
    - unfold index. cbn [signup' Annotations withAnnotations withLabels].
      erewrite lookup_union_Some_l by exact Hk2. reflexivity.
    - exact Hallowed.
    - unfold index. cbn [signup' Annotations withAnnotations withLabels].
      erewrite lookup_union_Some_l by exact Hk4. cbn [default]. apply Hlayout.
    - exact Ht. }
  destruct (replaceSignup_of_find
              (withAnnotations (fun annotations => fold_left (fun m k => delete k m) verificationAnnotations annotations)
                 (withAnnotations (fun annotations => ∅ ∪ annotations)
                    (states.SetVerificationRequired signup' false)))
              (userSignups wv) signup') as [l Hl].
  { cbn [Name withAnnotations]. change (Name (states.SetVerificationRequired signup' false)) with (Name signup').
    change (Name signup') with (Name signup). rewrite Hname. exact Hfind'. }
  exists verificationCode, signup', calls. eexists. eexists.
  split; [exact Htr |]. split; [exact Hall |].
  rewrite (VerifyPhoneCode_run _ _ _ _ _ _ _ HG HR' HP).
  change (clock wv) with t. rewrite Hplan'.
  unfold PollUpdateSignup. rewrite verifyDoUpdate_updateWith.
  erewrite pollUpdate_first.
  2: { unfold updateWith, bind. rewrite HG. apply UpdateUserSignup_nofault; [exact Hfv | exact Hl]. }
  split; [reflexivity |].
  apply replaceSignup_find in Hl. cbn [Name withAnnotations] in Hl.
  change (Name (states.SetVerificationRequired signup' false)) with (Name signup) in Hl.
  rewrite Hname in Hl.
  split; [exact Hl |]. apply (SetVerificationRequired_false signup').
Qed.

(** Johnny asks for a code at instant 1000 and presents it at 1500. *)
Lemma InitVerification_then_VerifyPhoneCode_witness :
  let w := example.world [example.johnny] [] in
  let w' := snd (InitVerification example.service "johnny" example.phone "1" w) in
  exists verificationCode w'' verified,
    In (SentSMS ("Your verification code is " ++ verificationCode) example.phone "1") (trace w') /\
    VerifyPhoneCode example.service "johnny" verificationCode (setClock 1500 w') = (inr tt, w'') /\
    client.findSignup "johnny" (userSignups w'') = Some verified /\
    states.VerificationRequired verified = false.
Proof.
  intros w w'.
  destruct (InitVerification_then_VerifyPhoneCode example.service "johnny" example.phone "1" w w'
              example.johnny 1500)
    as (verificationCode & updated & calls & w'' & verified & Htr & _ & Hverify & Hfind & Hdone).
  - vm_compute. reflexivity.
  - vm_compute. reflexivity.
  - vm_compute. reflexivity.
  - vm_compute. reflexivity.
  - vm_compute. reflexivity.
  - vm_compute. reflexivity.
  - vm_compute. reflexivity.
  - vm_compute. reflexivity.
  - vm_compute. discriminate.
  - exists verificationCode, w'', verified. split; [| auto].
    rewrite Htr. right. apply in_or_app. right. left. reflexivity.
Defined.

(** *** [VerifyActivationCode]: the attempts *)

(** X14.  [VerifyActivationCode] on a signup whose attempts annotation holds
    an integer that has reached the attempts allowed, or no integer at all:
    the call ends there, with the 429 that carries the value, or with a 500;
    no activation code is looked up, no update call is made, nothing is
    stored. *)
Theorem VerifyActivationCode_attempts_guard svc ctx username code w signup w1 v :
  client.GetUserSignup (EncodeUserIdentifier svc username) w = (inr signup, w1) ->
  Annotations signup !! UserVerificationAttemptsAnnotationKey = Some v ->
  v <> "" ->
  match strconv.Atoi v with
  | Some n => AttemptsAllowed (cfg svc) <= n
  | None => True
  end ->
  VerifyActivationCode svc ctx username code w = (inl (attemptsError svc signup v), w1) /\
  readOnly w w1 /\
  httpCode (attemptsError svc signup v) =
    Some (match strconv.Atoi v with
          | Some _ => crterrors.StatusTooManyRequests
          | None => crterrors.StatusInternalServerError
          end).
Proof.
  intros HG Hv Hne Hn. split; [| split].
  - unfold VerifyActivationCode, bind, attempt. rewrite HG.
    unfold checkAttempts, attemptsError. rewrite Hv. apply String.eqb_neq in Hne. rewrite Hne.
    destruct (strconv.Atoi v) as [n |]; [| reflexivity].
    replace (n >=? AttemptsAllowed (cfg svc)) with true by (symmetry; rewrite Z.geb_leb; apply Z.leb_le; lia).
    reflexivity.
  - apply GetUserSignup_spec in HG as [Hro _]. exact Hro.
  - unfold attemptsError. destruct (strconv.Atoi v); reflexivity.
Qed.

(** Three attempts made, three allowed. *)
Lemma VerifyActivationCode_attempts_guard_witness :
  let locked := example.annotate UserVerificationAttemptsAnnotationKey "3" example.johnny in
  let w := example.world [locked] [] in
  VerifyActivationCode example.service ∅ "johnny" "event" w
    = (inl (NewTooManyRequestsError "too many verification attempts" "3" : error), w).
Proof.
  intros locked w.
  refine (proj1 (VerifyActivationCode_attempts_guard example.service ∅ "johnny" "event" w locked w "3"
                   _ _ _ _)).
  - vm_compute. reflexivity.
  - vm_compute. reflexivity.
  - discriminate.
  - vm_compute. discriminate.
Defined.

(** One invocation of the closure counts an attempt exactly when the
    validation fails. *)
Lemma activationDoUpdate_attemptsMade svc username code s r s' :
  activationDoUpdate svc username code s = (r, s') ->
  fst (snd s') = if validationFailsb svc username code s then strconv.wrap (fst (snd s) + 1)
                 else fst (snd s).
Proof.
  destruct s as [w [a e]]. unfold activationDoUpdate, validationFailsb, bind at 1, liftW at 1. cbn [fst snd].
  destruct (client.GetUserSignup _ w) as [[gerr | signup] w1] eqn:HG.
  - intros [= <- <-]. reflexivity.
  - unfold bind at 1, attempt at 1, liftW at 1. cbn [fst snd].
    destruct (GetAndValidateSocialEvent code w1) as [[verr | event] w2] eqn:HV.
    + unfold bind, modify, gets, ret, liftW. cbn [fst snd].
      destruct (client.UpdateUserSignup _ w2) as [ru w3]. intros [= <- <-]. reflexivity.
    + unfold bind, ret, liftW. cbn [fst snd].
      destruct (client.UpdateUserSignup _ w2) as [ru w3]. intros [= <- <-]. reflexivity.
Qed.

(** An invocation whose validation fails and whose update is served
    stores the attempts it has counted. *)
Lemma activationDoUpdate_stored svc username code s s' :
  activationDoUpdate svc username code s = (inr tt, s') ->
  validationFailsb svc username code s = true ->
  exists stored,
    client.findSignup (EncodeUserIdentifier svc username) (userSignups (fst s')) = Some stored /\
    Annotations stored !! UserVerificationAttemptsAnnotationKey = Some (strconv.Itoa (fst (snd s'))).
Proof.
  destruct s as [w [a e]]. unfold activationDoUpdate, validationFailsb, bind at 1, liftW at 1. cbn [fst snd].
  destruct (client.GetUserSignup _ w) as [[gerr | signup] w1] eqn:HG; [discriminate |].
  unfold bind at 1, attempt at 1, liftW at 1. cbn [fst snd].
  destruct (GetAndValidateSocialEvent code w1) as [[verr | event] w2] eqn:HV; [| discriminate].
  unfold bind, modify, gets, ret, liftW. cbn [fst snd].
  destruct (client.UpdateUserSignup _ w2) as [ru w3] eqn:HU. intros [= -> <-] _. cbn [fst snd].
  apply GetUserSignup_spec in HG as [_ Hfind]. specialize (Hfind _ eq_refl).
  apply UpdateUserSignup_spec in HU as (_ & _ & Hrep). apply replaceSignup_find in Hrep.
  cbn [Name withAnnotations] in Hrep. rewrite (findSignup_Name _ _ _ Hfind) in Hrep.
  eexists. split; [exact Hrep |]. cbn [Annotations withAnnotations]. apply lookup_insert_eq.
Qed.

(** The loop returns what the last of its invocations returns. *)
Lemma pollUpdate_last_invocation {S : Type} (retriable : error -> bool) n (updater : M S unit) s r s' :
  pollUpdate retriable n updater s = (r, s') ->
  exists s0, last (invocations retriable n updater s) = Some s0 /\ updater s0 = (r, s').
Proof.
  revert s. induction n as [| n IH]; intros s; cbn [pollUpdate invocations];
    destruct (updater s) as [[e | []] s1] eqn:Hu; try (intros [= <- <-]; exists s; split; [reflexivity | exact Hu]).
  destruct (retriable e); [| intros [= <- <-]; exists s; split; [reflexivity | exact Hu]].
  intros H. destruct (IH _ H) as (s0 & Hlast & Hu0). exists s0. split; [| exact Hu0].
  rewrite last_cons, Hlast. reflexivity.
Qed.

Lemma poll_attemptsMade svc username code n s r s' :
  pollUpdate (retriable svc) n (activationDoUpdate svc username code) s = (r, s') ->
  fst (snd s') =
  Nat.iter (List.length (List.filter (validationFailsb svc username code)
                           (invocations (retriable svc) n (activationDoUpdate svc username code) s)))
           (fun attemptsMade => strconv.wrap (attemptsMade + 1)) (fst (snd s)).
Proof.
  assert (Hone : forall s0 r0 s1,
             activationDoUpdate svc username code s0 = (r0, s1) ->
             forall rest,
               Nat.iter (List.length (List.filter (validationFailsb svc username code) (s0 :: rest)))
                        (fun x => strconv.wrap (x + 1)) (fst (snd s0))
               = Nat.iter (List.length (List.filter (validationFailsb svc username code) rest))
                          (fun x => strconv.wrap (x + 1)) (fst (snd s1))).
  { intros s0 r0 s1 Hu rest. rewrite (activationDoUpdate_attemptsMade _ _ _ _ _ _ Hu).
    cbn [List.filter]. destruct (validationFailsb svc username code s0); [| reflexivity].
    cbn [List.length]. rewrite Nat.iter_succ_r. reflexivity. }
  revert s. induction n as [| n IH]; intros s; cbn [pollUpdate invocations];
    destruct (activationDoUpdate svc username code s) as [[e | []] s1] eqn:Hu;
    try (intros [= <- <-]; rewrite (Hone _ _ _ Hu); reflexivity).
  destruct (retriable svc e); [| intros [= <- <-]; rewrite (Hone _ _ _ Hu); reflexivity].
  intros H. rewrite (Hone _ _ _ Hu). apply IH. exact H.
Qed.

(** X15.  The attempts that [VerifyActivationCode] counts are counted per
    invocation of its closure, not per call: after the update loop, the
    number of attempts is the number read from the signup plus one for every
    invocation in which the validation failed, so a call whose update meets
    a conflict and is retried counts more than once.  That number is what
    the signup holds when the last invocation failed the validation and had
    its update served. *)
Theorem VerifyActivationCode_counts_invocations svc ctx username code w signup w1 attemptsMade
    rp wp a errToReturn :
  client.GetUserSignup (EncodeUserIdentifier svc username) w = (inr signup, w1) ->
  checkAttempts svc signup = (attemptsMade, None) ->
  PollUpdateSignup svc (activationDoUpdate svc username code) (w1, (attemptsMade, None))
    = (rp, (wp, (a, errToReturn))) ->
  let failed :=
    List.filter (validationFailsb svc username code)
      (invocations (retriable svc) (maxRetries svc) (activationDoUpdate svc username code)
         (w1, (attemptsMade, None))) in
  snd (VerifyActivationCode svc ctx username code w) = wp /\
  a = Nat.iter (List.length failed) (fun attemptsMade => strconv.wrap (attemptsMade + 1)) attemptsMade /\
  (rp = inr tt ->
   (exists s0, last (invocations (retriable svc) (maxRetries svc) (activationDoUpdate svc username code)
                       (w1, (attemptsMade, None))) = Some s0 /\
               validationFailsb svc username code s0 = true) ->
   exists stored,
     client.findSignup (EncodeUserIdentifier svc username) (userSignups wp) = Some stored /\
     Annotations stored !! UserVerificationAttemptsAnnotationKey = Some (strconv.Itoa a)).
Proof.
  intros HG HA Hpoll failed. split; [| split].
  - unfold VerifyActivationCode, bind, attempt. rewrite HG, HA, Hpoll.
    destruct rp as [err | []], errToReturn as [verr |]; reflexivity.
  - unfold PollUpdateSignup in Hpoll. apply poll_attemptsMade in Hpoll. exact Hpoll.
  - intros -> (s1 & Hs1 & Hfails). unfold PollUpdateSignup in Hpoll.
    apply pollUpdate_last_invocation in Hpoll as (s0 & Hs0 & Hu).
    rewrite Hs1 in Hs0. injection Hs0 as ->.
    destruct (activationDoUpdate_stored _ _ _ _ _ Hu Hfails) as (stored & Hfind & Hann).
    exists stored. auto.
Qed.

(** One call with a wrong activation code whose first update meets a
    conflict: two attempts are counted and stored. *)
Lemma VerifyActivationCode_counts_invocations_witness :
  let scheduled := [None; None; None; Some example.conflict] in
  let w := example.world [example.johnny] scheduled in
  let w' := snd (VerifyActivationCode example.service ∅ "johnny" "no-such-event" w) in
  fst (VerifyActivationCode example.service ∅ "johnny" "no-such-event" w)
    = inl (NewForbiddenError "invalid code" "the provided code is invalid" : error) /\
  index (Annotations example.johnny) UserVerificationAttemptsAnnotationKey = "0" /\
  exists stored,
    client.findSignup "johnny" (userSignups w') = Some stored /\
    Annotations stored !! UserVerificationAttemptsAnnotationKey = Some "2".
Proof.
  intros scheduled w w'.
  split; [vm_compute; reflexivity |]. split; [vm_compute; reflexivity |].
  pose (w1 := example.world [example.johnny] (tl scheduled)).
  pose (res := PollUpdateSignup example.service (activationDoUpdate example.service "johnny" "no-such-event")
                 (w1, (0, None))).
  destruct (VerifyActivationCode_counts_invocations example.service ∅ "johnny" "no-such-event"
              w example.johnny w1 0 (fst res) (fst (snd res)) (fst (snd (snd res))) (snd (snd (snd res)))
              ltac:(vm_compute; reflexivity) ltac:(vm_compute; reflexivity) ltac:(vm_compute; reflexivity))
    as (Hw & Ha & Hstored).
  destruct Hstored as (stored & Hfind & Hann).
  - vm_compute. reflexivity.
  - exists (record (UpdateCall (example.annotate UserVerificationAttemptsAnnotationKey "1" example.johnny))
                   (example.world [example.johnny] []),
            (1, Some (NewForbiddenError "invalid code" "the provided code is invalid" : error))).
    split; vm_compute; reflexivity.
  - exists stored. fold w' in Hw. rewrite Hw. split; [exact Hfind |].
    rewrite Hann. vm_compute. reflexivity.
Defined.

(** *** The proxy *)

Lemma sliceTo_sliceFrom n s : (gostrings.sliceTo n s ++ gostrings.sliceFrom n s)%string = s.
Proof.
  revert s. induction n as [| n IH]; intros s; [destruct s; reflexivity |].
  destruct s as [| c s]; [reflexivity |]. cbn [gostrings.sliceTo gostrings.sliceFrom].
  rewrite append_cons, IH. reflexivity.
Qed.

Lemma HasSuffix_app s suffix :
  gostrings.HasSuffix s suffix = true ->
  s = (gostrings.sliceTo (String.length s - String.length suffix) s ++ suffix)%string.
Proof.
  unfold gostrings.HasSuffix. intros H. apply andb_true_iff in H as [_ H]. apply String.eqb_eq in H.
  set (k := (String.length s - String.length suffix)%nat) in *. rewrite <- H. symmetry.
  apply sliceTo_sliceFrom.
Qed.

(** X16.  [singleJoiningSlash] joins two paths with exactly one slash
    between what is left of them once a slash at the end of the first and a
    slash at the start of the second are taken away. *)
Theorem singleJoiningSlash_one_slash a b :
  proxy.singleJoiningSlash a b =
  ((if gostrings.HasSuffix a "/" then gostrings.sliceTo (String.length a - 1) a else a) ++ "/" ++
   (if gostrings.HasPrefix b "/" then gostrings.sliceFrom 1 b else b))%string.
Proof.
  unfold proxy.singleJoiningSlash.
  destruct (gostrings.HasSuffix a "/") eqn:Ha; destruct (gostrings.HasPrefix b "/") eqn:Hb; cbn [andb negb].
  - apply HasSuffix_app in Ha. cbn [String.length] in Ha. rewrite Ha at 1.
    rewrite string_app_assoc. reflexivity.
  - apply HasSuffix_app in Ha. cbn [String.length] in Ha. rewrite Ha at 1.
    rewrite string_app_assoc. reflexivity.
  - apply HasPrefix_app in Hb. cbn [String.length] in Hb. rewrite Hb at 1. reflexivity.
  - reflexivity.
Qed.

(** X17.  The director of the reverse proxy on the header.  The
    Authorization header becomes the single value ["Bearer "] followed by
    the service-account token of the target, whatever the client sent, so
    the token the proxy itself would extract from the outgoing request is
    that of the target (for a token that does not contain ["Bearer "]).  The
    User-Agent header is there afterwards and reads as before.  No other
    header is touched. *)
Theorem director_header apiURL saToken reqURL req :
  gostrings.Index saToken "Bearer " = None ->
  let header := snd (proxy.director apiURL saToken reqURL (proxy.Header req)) in
  header !! "Authorization" = Some [("Bearer " ++ saToken)%string] /\
  proxy.extractUserToken {| proxy.Header := header |} = inr saToken /\
  header !! "User-Agent" <> None /\
  proxy.Header_Get header "User-Agent" = proxy.Header_Get (proxy.Header req) "User-Agent" /\
  forall key, key <> "Authorization" -> key <> "User-Agent" -> header !! key = proxy.Header req !! key.
Proof.
  intros Htoken header.
  assert (Hauth : header !! "Authorization" = Some [("Bearer " ++ saToken)%string]).
  { unfold header, proxy.director, proxy.Header_Set. cbn [snd]. apply lookup_insert_eq. }
  split; [exact Hauth |]. split.
  { rewrite extractUserToken_tokenOf. unfold proxy.Header_Get. cbn [proxy.Header]. rewrite Hauth.
    unfold tokenOf. rewrite Index_app_self.
    change (0 + 7)%nat with (String.length "Bearer "). rewrite sliceFrom_app_self, Htoken. reflexivity. }
  unfold header, proxy.director, proxy.Header_Set, proxy.Header_Get. cbn [snd].
  split; [| split].
  - rewrite lookup_insert_ne by discriminate.
    destruct (proxy.Header req !! "User-Agent") eqn:E; [congruence |].
    rewrite lookup_insert_eq. discriminate.
  - rewrite lookup_insert_ne by discriminate.
    destruct (proxy.Header req !! "User-Agent") eqn:E; [rewrite E; reflexivity |].
    rewrite lookup_insert_eq. reflexivity.
  - intros key H1 H2. rewrite lookup_insert_ne by congruence.
    destruct (proxy.Header req !! "User-Agent"); [reflexivity |].
    rewrite lookup_insert_ne by congruence. reflexivity.
Qed.

(** The token of the user is replaced by the token of the target. *)
Lemma director_header_witness :
  let reqURL := {| proxy.Scheme := "https"; proxy.Host := "proxy.example";
                   proxy.Path := "/api/v1/pods"; proxy.RawQuery := "watch=true" |} in
  let apiURL := {| proxy.Scheme := "https"; proxy.Host := "member-2.example";
                   proxy.Path := "/"; proxy.RawQuery := "" |} in
  let req := exampleProxy.request "Bearer abc" in
  let header := snd (proxy.director apiURL "clusterSAToken" reqURL (proxy.Header req)) in
  proxy.extractUserToken req = inr "abc" /\
  proxy.extractUserToken {| proxy.Header := header |} = inr "clusterSAToken".
Proof.
  intros reqURL apiURL req header. split; [vm_compute; reflexivity |].
  refine (proj1 (proj2 (director_header apiURL "clusterSAToken" reqURL req _))). vm_compute. reflexivity.
Defined.

(** X18.  The director of the reverse proxy on the URL: scheme and host are
    those of the target; the path is the path of the target joined to that
    of the request; the query is the one that is not empty, or the two
    joined by ["&"], the target's first. *)
Theorem director_url apiURL saToken reqURL reqHeader :
  let out := fst (proxy.director apiURL saToken reqURL reqHeader) in
  proxy.Scheme out = proxy.Scheme apiURL /\
  proxy.Host out = proxy.Host apiURL /\
  proxy.Path out = proxy.singleJoiningSlash (proxy.Path apiURL) (proxy.Path reqURL) /\
  proxy.RawQuery out =
    (if String.eqb (proxy.RawQuery apiURL) "" then proxy.RawQuery reqURL
     else if String.eqb (proxy.RawQuery reqURL) "" then proxy.RawQuery apiURL
     else proxy.RawQuery apiURL ++ "&" ++ proxy.RawQuery reqURL)%string.
Proof.
  cbv zeta. unfold proxy.director. cbn [fst proxy.Scheme proxy.Host proxy.Path proxy.RawQuery].
  repeat split.
  destruct (String.eqb (proxy.RawQuery apiURL) "") eqn:E1.
  - apply String.eqb_eq in E1. rewrite E1. reflexivity.
  - destruct (String.eqb (proxy.RawQuery reqURL) "") eqn:E2; [| reflexivity].
    apply String.eqb_eq in E2. rewrite E2. cbn [orb]. apply string_app_nil_r.
Qed.

(** X19.  What the handler of the proxy does with a request.  It forwards
    it, as the user and to the namespace access it resolved, exactly when
    the Authorization header yields a token, the token parser accepts the
    token and the namespace of its subject is found.  Every other request is
    answered with a 401 (no context could be created) or a 500 (the
    namespace was not found). *)
Theorem handleRequestAndRedirect_forwards p req :
  (forall userID ns,
     proxy.handleRequestAndRedirect p req = proxy.Forwarded userID ns <->
     exists token,
       tokenOf (proxy.Header_Get (proxy.Header req) "Authorization") = Some token /\
       proxy.tokenParser_FromString p token = inr userID /\
       proxy.namespaces_GetNamespace p userID = inr ns) /\
  (forall code body,
     proxy.handleRequestAndRedirect p req = proxy.HttpError code body ->
     (code = crterrors.StatusUnauthorized /\ exists err, proxy.createContext p req = inl err) \/
     (code = crterrors.StatusInternalServerError /\
      exists userID err, proxy.createContext p req = inr userID /\
                         proxy.namespaces_GetNamespace p userID = inl err)).
Proof.
  unfold proxy.handleRequestAndRedirect, proxy.createContext, proxy.extractUserID.
  rewrite extractUserToken_tokenOf.
  destruct (tokenOf _) as [token |].
  - destruct (proxy.tokenParser_FromString p token) as [perr | subject] eqn:Hp.
    + split.
      * intros userID ns. split; [discriminate |]. intros (token' & [= <-] & Hp' & _). congruence.
      * intros code body [= <- _]. left. split; [reflexivity | eauto].
    + destruct (proxy.namespaces_GetNamespace p subject) as [nerr | target] eqn:Hn.
      * split.
        -- intros userID ns. split; [discriminate |]. intros (token' & [= <-] & Hp' & Hn'). congruence.
        -- intros code body [= <- _]. right. split; [reflexivity | eauto].
      * split.
        -- intros userID ns. split.
           ++ intros [= <- <-]. eauto.
           ++ intros (token' & [= <-] & Hp' & Hn'). congruence.
        -- discriminate.
  - split.
    + intros userID ns. split; [discriminate |]. intros (token' & [=] & _).
    + intros code body [= <- _]. left. split; [reflexivity | eauto].
Qed.
